(** * Reference-checking pipeline: extraction, parsing, merge and orchestration

    A shallow embedding of the resume-processing core
    ([main.py], [backend/parser.py], [agents/tools/resume_tools.py],
    [python_backend/agents/reference_checking_workflow.py],
    [python_backend/agents/tools/database_tools.py],
    [python_backend/services/supabase_service.py],
    [services/email_service.py]) and the properties of its specification
    and of its code.

    Python [str] values are modelled by [string]; a character is a code
    point in the range 0..255 (Latin-1), classified as CPython classifies
    it ([str.isspace], [str.isdigit], the [re] classes for [str] patterns).

    The [print] calls of [parse_reference_data] are modelled with the
    console they write to ([ParserConsole]).  Elsewhere a [print] is taken
    to succeed, and the expressions formatted into its message are kept
    where they can raise. *)

From Stdlib Require Import Ascii String List ZArith Lia Bool Floats.
From stdpp Require Import base option list strings gmap.

Local Open Scope string_scope.
Local Open Scope list_scope.

(* ===================================================================== *)
(** * Characters *)
(* ===================================================================== *)

Module Chars.

Definition code (c : ascii) : nat := nat_of_ascii c.

Definition between (lo hi : nat) (c : ascii) : bool :=
  (lo <=? code c)%nat && (code c <=? hi)%nat.

(** [str.isspace] on 0..255: TAB LF VT FF CR, FS GS RS US, SPACE, NEL, NBSP.
    The same set is what [str.strip()], [str.split()] and the regex class
    [\s] use. *)
Definition isspace (c : ascii) : bool :=
  between 9 13 c || between 28 32 c || between 133 133 c || between 160 160 c.

(** The regex class [\d] ([Py_UNICODE_ISDECIMAL]): only 0-9 below 256. *)
Definition isdecimal (c : ascii) : bool := between 48 57 c.

(** [str.isdigit]: decimals and the superscripts ², ³, ¹. *)
Definition isdigit (c : ascii) : bool :=
  isdecimal c || between 178 179 c || between 185 185 c.

(** The regex class [\w] ([str.isalnum] or underscore) on 0..255. *)
Definition isword (c : ascii) : bool :=
  between 48 57 c || between 65 90 c || between 97 122 c || between 95 95 c
  || between 170 170 c || between 178 179 c || between 181 181 c
  || between 185 186 c || between 188 190 c || between 192 214 c
  || between 216 246 c || between 248 255 c.

(** [str.lower] on one character of 0..255. *)
Definition lower (c : ascii) : ascii :=
  if between 65 90 c || between 192 214 c || between 216 222 c
  then ascii_of_nat (code c + 32) else c.

Definition newline : ascii := ascii_of_nat 10.

End Chars.

(* ===================================================================== *)
(** * Python string methods *)
(* ===================================================================== *)

Module Str.

Definition chars (s : string) : list ascii := list_ascii_of_string s.
Definition of_chars (l : list ascii) : string := string_of_list_ascii l.

Fixpoint lstrip_chars (l : list ascii) : list ascii :=
  match l with
  | c :: l' => if Chars.isspace c then lstrip_chars l' else l
  | [] => []
  end.

(** [s.strip()] *)
Definition strip (s : string) : string :=
  of_chars (rev (lstrip_chars (rev (lstrip_chars (chars s))))).

(** [s.lower()] *)
Fixpoint lower (s : string) : string :=
  match s with
  | EmptyString => EmptyString
  | String c s' => String (Chars.lower c) (lower s')
  end.

(** [c in s] for a one-character needle *)
Fixpoint has_char (c : ascii) (s : string) : bool :=
  match s with
  | EmptyString => false
  | String d s' => Ascii.eqb c d || has_char c s'
  end.

(** [sub in s] *)
Fixpoint contains (sub s : string) : bool :=
  String.prefix sub s ||
  match s with
  | EmptyString => false
  | String _ s' => contains sub s'
  end.

(** [any(p(ch) for ch in s)] *)
Fixpoint any_char (p : ascii -> bool) (s : string) : bool :=
  match s with
  | EmptyString => false
  | String c s' => p c || any_char p s'
  end.

(** [s.split(sep)] for a one-character separator: the pieces between
    consecutive separators, empty pieces included. [cur] is the piece
    being read, reversed. *)
Fixpoint split_go (sep : ascii) (cur : list ascii) (s : string) : list string :=
  match s with
  | EmptyString => [of_chars (rev cur)]
  | String c s' =>
      if Ascii.eqb c sep then of_chars (rev cur) :: split_go sep [] s'
      else split_go sep (c :: cur) s'
  end.

Definition split (sep : ascii) (s : string) : list string := split_go sep [] s.

(** [s.split(sep, 1)]: at most one cut, at the first separator. *)
Fixpoint split1_go (sep : ascii) (cur : list ascii) (s : string) : list string :=
  match s with
  | EmptyString => [of_chars (rev cur)]
  | String c s' =>
      if Ascii.eqb c sep then [of_chars (rev cur); s']
      else split1_go sep (c :: cur) s'
  end.

Definition split1 (sep : ascii) (s : string) : list string := split1_go sep [] s.

(** [s.split()]: maximal runs of non-whitespace characters. *)
Fixpoint words_go (cur : list ascii) (s : string) : list string :=
  match s with
  | EmptyString => match cur with [] => [] | _ => [of_chars (rev cur)] end
  | String c s' =>
      if Chars.isspace c
      then match cur with
           | [] => words_go [] s'
           | _ => of_chars (rev cur) :: words_go [] s'
           end
      else words_go (c :: cur) s'
  end.

Definition words (s : string) : list string := words_go [] s.

(** [sep.join(l)] *)
Fixpoint join (sep : string) (l : list string) : string :=
  match l with
  | [] => ""
  | [x] => x
  | x :: l' => x +:+ sep +:+ join sep l'
  end.

(** The string ["\n"]. *)
Definition nl : string := String Chars.newline EmptyString.

(** Truthiness of a string: [bool(s)]. *)
Definition nonempty (s : string) : bool :=
  match s with EmptyString => false | _ => true end.

(** [s[:n]] *)
Definition prefix_of (n : nat) (s : string) : string := substring 0 n s.

(** [s.find(c)]: the index of the first [c], or -1. *)
Fixpoint find_go (c : ascii) (s : string) (i : Z) : Z :=
  match s with
  | EmptyString => (-1)%Z
  | String d s' => if Ascii.eqb d c then i else find_go c s' (i + 1)%Z
  end.

Definition find (c : ascii) (s : string) : Z := find_go c s 0%Z.

(** [s.rfind(c)]: the index of the last [c], or -1. *)
Fixpoint rfind_go (c : ascii) (s : string) (i last : Z) : Z :=
  match s with
  | EmptyString => last
  | String d s' => rfind_go c s' (i + 1)%Z (if Ascii.eqb d c then i else last)
  end.

Definition rfind (c : ascii) (s : string) : Z := rfind_go c s 0%Z (-1)%Z.

(** [s[start:stop]] for [0 <= start <= stop] *)
Definition slice (start stop : Z) (s : string) : string :=
  substring (Z.to_nat start) (Z.to_nat (stop - start)) s.

(** [s.endswith(suffix)] *)
Definition endswith (suffix s : string) : bool :=
  String.prefix (of_chars (rev (chars suffix))) (of_chars (rev (chars s))).

End Str.

(* ===================================================================== *)
(** * Regular expressions: the backtracking matcher of [re] *)
(* ===================================================================== *)

(** The fragment of the [re] syntax the program uses: character classes,
    greedy bounded and unbounded repetition of a class, concatenation,
    ordered alternation, greedy optional groups, [\b], and the MULTILINE
    anchors [^] and [$].  Matching is CPython's: leftmost start, then the
    first success in backtracking order (greedy first, left alternative
    first). *)

Module Re.

Inductive citem : Type :=
  | One (c : ascii)            (* a literal character *)
  | Range (lo hi : ascii)      (* [lo-hi] *)
  | Digit                      (* \d *)
  | Space.                     (* \s *)

Definition cls : Type := list citem.

Definition citem_mem (i : citem) (x : ascii) : bool :=
  match i with
  | One c => Ascii.eqb c x
  | Range lo hi => Chars.between (Chars.code lo) (Chars.code hi) x
  | Digit => Chars.isdecimal x
  | Space => Chars.isspace x
  end.

Definition cls_mem (c : cls) (x : ascii) : bool := existsb (fun i => citem_mem i x) c.

Inductive regex : Type :=
  | Eps
  | Chr (c : cls)                               (* one character of a class *)
  | Rep (c : cls) (lo : nat) (hi : option nat)  (* class{lo,hi}, greedy *)
  | Cat (r1 r2 : regex)
  | Alt (r1 r2 : regex)                         (* r1|r2, r1 tried first *)
  | Opt (r : regex)                             (* (r)?, greedy *)
  | WordB                                       (* \b *)
  | Bol                                         (* ^ under re.MULTILINE *)
  | Eol.                                        (* $ under re.MULTILINE *)

(** A matcher state is the character before the cursor (if any) and the
    text from the cursor on; a continuation receives the state after the
    piece matched so far. *)
Definition cont (A : Type) : Type := option ascii -> list ascii -> option A.

Definition or_else {A} (x y : option A) : option A :=
  match x with Some _ => x | None => y end.

Definition can_take (hi : option nat) : bool :=
  match hi with Some 0 => false | _ => true end.

Definition dec (hi : option nat) : option nat := option_map pred hi.

Fixpoint rep {A} (c : cls) (lo : nat) (hi : option nat)
    (prev : option ascii) (s : list ascii) (k : cont A) : option A :=
  let stop := match lo with 0 => k prev s | S _ => None end in
  match s with
  | x :: s' =>
      if cls_mem c x && can_take hi
      then or_else (rep c (pred lo) (dec hi) (Some x) s' k) stop
      else stop
  | [] => stop
  end.

Definition word_at (o : option ascii) : bool :=
  match o with Some c => Chars.isword c | None => false end.

Definition at_bol (prev : option ascii) : bool :=
  match prev with None => true | Some c => Ascii.eqb c Chars.newline end.

Definition at_eol (s : list ascii) : bool :=
  match s with [] => true | c :: _ => Ascii.eqb c Chars.newline end.

Fixpoint rmatch {A} (r : regex) (prev : option ascii) (s : list ascii)
    (k : cont A) : option A :=
  match r with
  | Eps => k prev s
  | Chr c =>
      match s with
      | x :: s' => if cls_mem c x then k (Some x) s' else None
      | [] => None
      end
  | Rep c lo hi => rep c lo hi prev s k
  | Cat r1 r2 => rmatch r1 prev s (fun p t => rmatch r2 p t k)
  | Alt r1 r2 => or_else (rmatch r1 prev s k) (rmatch r2 prev s k)
  | Opt r1 => or_else (rmatch r1 prev s k) (k prev s)
  | WordB => if xorb (word_at prev) (word_at (head s)) then k prev s else None
  | Bol => if at_bol prev then k prev s else None
  | Eol => if at_eol s then k prev s else None
  end.

(** A match at the cursor: the text left after it. *)
Definition match_here (r : regex) (prev : option ascii) (s : list ascii)
    : option (list ascii) :=
  rmatch r prev s (fun _ rest => Some rest).

(** The characters a successful [match_here] consumed. *)
Definition consumed (s rest : list ascii) : list ascii :=
  take (length s - length rest) s.

(** [re.search] from the cursor: offset of the leftmost match and its text. *)
Fixpoint search_from (r : regex) (prev : option ascii) (s : list ascii)
    : option (nat * list ascii) :=
  match match_here r prev s with
  | Some rest => Some (0, consumed s rest)
  | None =>
      match s with
      | [] => None
      | c :: s' =>
          match search_from r (Some c) s' with
          | Some (i, m) => Some (S i, m)
          | None => None
          end
      end
  end.

(** [re.search(r, s)] followed by [.group()]; [None] when there is no match. *)
Definition search (r : regex) (s : string) : option string :=
  match search_from r None (Str.chars s) with
  | Some (_, m) => Some (Str.of_chars m)
  | None => None
  end.

(** [re.sub(r, '', s)] for a pattern that matches no empty string: every
    non-overlapping match, leftmost first, is deleted. [skip] counts the
    characters of the current match still to delete. *)
Fixpoint sub_go (r : regex) (prev : option ascii) (s : list ascii) (skip : nat)
    : list ascii :=
  match s with
  | [] => []
  | c :: s' =>
      match skip with
      | S n => sub_go r (Some c) s' n
      | 0 =>
          match match_here r prev s with
          | Some rest =>
              match length s - length rest with
              | S n => sub_go r (Some c) s' n
              | 0 => c :: sub_go r (Some c) s' 0
              end
          | None => c :: sub_go r (Some c) s' 0
          end
      end
  end.

Definition sub_empty (r : regex) (s : string) : string :=
  Str.of_chars (sub_go r None (Str.chars s) 0).

(** Building blocks for writing patterns. *)
Definition lit (c : ascii) : regex := Chr [One c].
Definition opt_cls (c : cls) : regex := Rep c 0 (Some 1).   (* class? *)
Definition plus (c : cls) : regex := Rep c 1 None.          (* class+ *)
Definition times (c : cls) (n : nat) : regex := Rep c n (Some n). (* class{n} *)

Fixpoint cats (l : list regex) : regex :=
  match l with
  | [] => Eps
  | [r] => r
  | r :: l' => Cat r (cats l')
  end.

(** ** Static bounds on what a pattern can match *)

(** Every character of 0..255. *)
Definition all_chars : list ascii := map ascii_of_nat (seq 0 256).

(** Every character of the class satisfies [f]. *)
Definition cls_within (c : cls) (f : ascii -> bool) : bool :=
  forallb (fun x => implb (cls_mem c x) (f x)) all_chars.

(** The classes a pattern can take characters from. *)
Fixpoint alphabet (r : regex) : cls :=
  match r with
  | Chr c | Rep c _ _ => c
  | Cat r1 r2 | Alt r1 r2 => alphabet r1 ++ alphabet r2
  | Opt r1 => alphabet r1
  | Eps | WordB | Bol | Eol => []
  end.

(** A lower bound on the number of characters satisfying [f] in a match. *)
Fixpoint min_count (f : ascii -> bool) (r : regex) : nat :=
  match r with
  | Chr c => if cls_within c f then 1 else 0
  | Rep c lo _ => if cls_within c f then lo else 0
  | Cat r1 r2 => min_count f r1 + min_count f r2
  | Alt r1 r2 => min_count f r1 `min` min_count f r2
  | Opt _ | Eps | WordB | Bol | Eol => 0
  end.

(** The number of characters of [l] satisfying [f]. *)
Definition count (f : ascii -> bool) (l : list ascii) : nat := length (List.filter f l).

(** What a successful run of the matcher has consumed before handing
    over to its continuation: a piece [m] of the text, made of characters
    of [al], at least [n] of which satisfy [f]. *)
Definition consumes (f : ascii -> bool) (al : cls) (n : nat) {A}
    (s : list ascii) (k : cont A) (v : A) : Prop :=
  exists m rest prev',
    s = m ++ rest /\ k prev' rest = Some v /\
    Forall (fun x => cls_mem al x = true) m /\ n <= count f m.

End Re.

(* ===================================================================== *)
(** * Exceptions *)
(* ===================================================================== *)

(** A Python computation either returns a value or raises; an exception is
    represented by its message [str(e)]. *)
Definition exn : Type := string.

Inductive outcome (A : Type) : Type :=
  | Ok (a : A)
  | Raise (e : exn).
Arguments Ok {A} a.
Arguments Raise {A} e.

#[export] Instance outcome_ret : MRet outcome := fun A a => Ok a.
#[export] Instance outcome_bind : MBind outcome := fun A B f m =>
  match m with Ok a => f a | Raise e => Raise e end.
#[export] Instance outcome_fmap : FMap outcome := fun A B f m =>
  match m with Ok a => Ok (f a) | Raise e => Raise e end.

(** [try: body  except Exception as e: handler(e)] *)
Definition try_except {A} (body : outcome A) (handler : exn -> A) : A :=
  match body with Ok a => a | Raise e => handler e end.

(** [l[i]] on a list *)
Definition getitem {A} (l : list A) (i : nat) : outcome A :=
  match l !! i with
  | Some a => Ok a
  | None => Raise "list index out of range"
  end.

(* ===================================================================== *)
(** * Reference String Parser -- [main.py], [parse_reference_data] *)
(* ===================================================================== *)

Module Parser.
Import Re.

Record reference : Type := mkReference {
  name : string;
  email : string;
  phone_number : string;
  company : string;
  relationship : string
}.

Definition sentinel : string := "Unknown Reference".

Definition alnum : cls := [Range "A" "Z"; Range "a" "z"; Range "0" "9"]%char.

(** [r'\b[A-Za-z0-9._%+-]+@[A-Za-z0-9.-]+\.[A-Z|a-z]{2,}\b'] *)
Definition email_pattern : regex :=
  cats [ WordB;
         plus (alnum ++ [One "."; One "_"; One "%"; One "+"; One "-"]%char)%list;
         lit "@";
         plus (alnum ++ [One "."; One "-"]%char)%list;
         lit ".";
         Rep [Range "A" "Z"; One "|"; Range "a" "z"]%char 2 None;
         WordB ].

Definition dash_dot_space : cls := [One "-"; One "."; Space]%char.

(** [r'(\+?\d{1,3}[-.\s]?)?\(?\d{3}\)?[-.\s]?\d{3}[-.\s]?\d{4}'] *)
Definition phone_pattern : regex :=
  cats [ Opt (cats [opt_cls [One "+"]%char; Rep [Digit] 1 (Some 3); opt_cls dash_dot_space]);
         opt_cls [One "("]%char;
         times [Digit] 3;
         opt_cls [One ")"]%char;
         opt_cls dash_dot_space;
         times [Digit] 3;
         opt_cls dash_dot_space;
         times [Digit] 4 ].

Definition separators : list ascii := ["|"; ","; ";"; "-"]%char.

Definition relationship_keywords : list string :=
  ["relationship"; "relation"; "worked"; "manager"; "supervisor"; "colleague"].

(** The loop over the separators: the first separator that occurs in the
    text splits it, and the stripped non-empty pieces are the parts. *)
Fixpoint split_parts (seps : list ascii) (reference_text : string) : list string :=
  match seps with
  | [] => []
  | separator :: seps' =>
      if Str.has_char separator reference_text
      then List.filter Str.nonempty (map Str.strip (Str.split separator reference_text))
      else split_parts seps' reference_text
  end.

(** One iteration of [for part in parts[1:]], on the pair
    (company, relationship). *)
Definition scan_part (acc : string * string) (part : string) : string * string :=
  let '(company, relationship) := acc in
  let part_lower := Str.lower part in
  if existsb (fun keyword => Str.contains keyword part_lower) relationship_keywords
  then (company, Str.strip part)
  else if negb (Str.nonempty company) && (2 <? String.length part)%nat
       then (Str.strip part, relationship)
       else (company, relationship).

(** The [try] block up to and including the final cleanup of [name]: the
    value the local variable [reference_text] holds when the block is left,
    and the five locals (or the exception raised). *)
Definition extract_fields (reference_text : string)
    : string * outcome (string * string * string * string * string) :=
  let reference_text := Str.strip reference_text in
  let email_match := search email_pattern reference_text in
  let email := default "" email_match in
  let reference_text :=
    match email_match with
    | Some _ => Str.strip (sub_empty email_pattern reference_text)
    | None => reference_text
    end in
  let phone_match := search phone_pattern reference_text in
  let phone_number := default "" (Str.strip <$> phone_match) in
  let reference_text :=
    match phone_match with
    | Some _ => Str.strip (sub_empty phone_pattern reference_text)
    | None => reference_text
    end in
  let parts := split_parts separators reference_text in
  let parts := match parts with [] => [reference_text] | _ => parts end in
  (reference_text,
   '(name, company) ←
      match parts with
      | [] => Ok ("", "")
      | _ =>
          name_company_part ← getitem parts 0;
          if Str.has_char "," name_company_part
          then
            let name_company_split := Str.split1 "," name_company_part in
            name ← Str.strip <$> getitem name_company_split 0;
            company ← Str.strip <$> getitem name_company_split 1;
            let company_words :=
              List.filter
                (fun word => negb (Str.has_char "@" word || Str.any_char Chars.isdigit word))
                (Str.words company) in
            Ok (name, Str.strip (Str.join " " company_words))
          else Ok (name_company_part, "")
      end;
   let '(company, relationship) := fold_left scan_part (drop 1 parts) (company, "") in
   let name :=
     if Str.has_char "@" name
     then Str.strip (Str.join " "
            (List.filter (fun part => negb (Str.has_char "@" part)) (Str.words name)))
     else name in
   Ok (name, email, phone_number, company, relationship)).

(** The whole [try] block: the fields, then [if not name: name = "Unknown
    Reference"] and the returned dict. *)
Definition try_body (reference_text : string) : string * outcome reference :=
  let '(reference_text, fields) := extract_fields reference_text in
  (reference_text,
   '(name, email, phone_number, company, relationship) ← fields;
   let name := if Str.nonempty name then name else sentinel in
   Ok (mkReference name email phone_number company relationship)).

(** The [except Exception] handler, reading the local [reference_text]. *)
Definition except_handler (reference_text : string) : reference :=
  mkReference
    (if Str.nonempty reference_text then Str.prefix_of 100 reference_text else sentinel)
    "" "" "" "".

(** The record [parse_reference_data(reference_text)] returns when its
    [print] calls succeed: the [try] block and its handler.  The function
    with its [print] calls is [ParserConsole.parse_reference_data]. *)
Definition parse_reference_data (reference_text : string) : reference :=
  let '(reference_text, body) := try_body reference_text in
  try_except body (fun _ => except_handler reference_text).

End Parser.

(* ===================================================================== *)
(** * The reference line parser with its console output -- [main.py] *)
(* ===================================================================== *)

Module ParserConsole.
Import Parser.

(** The [print] calls of [parse_reference_data]. *)
Inductive print_site : Type :=
  | ParsingText      (** line 63, before the [try]: the argument *)
  | NameNotFound     (** line 138 *)
  | EmailNotFound    (** line 141 *)
  | PhoneNotFound    (** line 144 *)
  | ParsedData       (** line 154: the dict about to be returned *)
  | ParsingError.    (** line 158, in the handler: the text and the exception *)

(** [print(...)] at a site, given the values formatted into its message.
    Writing to [sys.stdout] raises [UnicodeEncodeError] when the message
    holds a code point the stream cannot encode (on a UTF-8 stream a lone
    surrogate of the argument), and [OSError] when the stream is a pipe
    whose reader has gone. *)
Definition console : Type := print_site -> list string -> outcome unit.

(** [except Exception as e: ...] around a block that returns. *)
Definition try_catch {A} (body : outcome A) (handler : exn -> outcome A) : outcome A :=
  match body with
  | Ok a => Ok a
  | Raise e => handler e
  end.

(** [parse_reference_data(reference_text)], lines 61-165. *)
Definition parse_reference_data (print : console) (reference_text : string)
    : outcome reference :=
  _ ← print ParsingText [reference_text];
  let '(reference_text, fields) := extract_fields reference_text in
  try_catch
    ('(name, email, phone_number, company, relationship) ← fields;
     name ← (if Str.nonempty name then Ok name
             else _ ← print NameNotFound []; Ok sentinel);
     _ ← (if Str.nonempty email then Ok tt else print EmailNotFound []);
     _ ← (if Str.nonempty phone_number then Ok tt else print PhoneNotFound []);
     _ ← print ParsedData [name; email; phone_number; company; relationship];
     Ok (mkReference name email phone_number company relationship))
    (fun e =>
       _ ← print ParsingError [reference_text; e];
       Ok (except_handler reference_text)).

End ParserConsole.

(* ===================================================================== *)
(** * Python values *)
(* ===================================================================== *)

(** The dynamically typed values the program passes around: what
    [json.loads] produces and what the dictionaries of the pipeline hold.
    A [VDict] lists the items of a dict in insertion order. *)

Module Py.

#[warnings="-register-all"]
Inductive val : Type :=
  | VNone
  | VBool (b : bool)
  | VInt (z : Z)
  | VFloat (f : float)
  | VStr (s : string)
  | VList (l : list val)
  | VDict (items : list (string * val)).

(** [bool(v)] *)
Definition truthy (v : val) : bool :=
  match v with
  | VNone => false
  | VBool b => b
  | VInt z => negb (z =? 0)%Z
  | VFloat f => negb (PrimFloat.eqb f 0%float)
  | VStr s => Str.nonempty s
  | VList l => match l with [] => false | _ => true end
  | VDict items => match items with [] => false | _ => true end
  end.

(** [a or b] *)
Definition or_ (a b : val) : val := if truthy a then a else b.

(** [isinstance(v, str)], [isinstance(v, list)], [isinstance(v, dict)] *)
Definition is_str (v : val) : bool := match v with VStr _ => true | _ => false end.
Definition is_list (v : val) : bool := match v with VList _ => true | _ => false end.
Definition is_dict (v : val) : bool := match v with VDict _ => true | _ => false end.

(** Lookup in the items of a dict. *)
Fixpoint assoc (k : string) (items : list (string * val)) : option val :=
  match items with
  | [] => None
  | (k', v) :: items' => if String.eqb k k' then Some v else assoc k items'
  end.

(** [d.get(k, dflt)] on a value known to be a dict *)
Definition dict_get (items : list (string * val)) (k : string) (dflt : val) : val :=
  default dflt (assoc k items).

(** [v.get(k, dflt)] on any value: only a dict has [get]. *)
Definition get (v : val) (k : string) (dflt : val) : outcome val :=
  match v with
  | VDict items => Ok (dict_get items k dflt)
  | _ => Raise "object has no attribute 'get'"
  end.

(** [v == s] for a string literal [s] *)
Definition eq_str (v : val) (s : string) : bool :=
  match v with VStr t => String.eqb t s | _ => false end.

(** [len(v)] *)
Definition len (v : val) : outcome Z :=
  match v with
  | VStr s => Ok (Z.of_nat (String.length s))
  | VList l => Ok (Z.of_nat (length l))
  | VDict items => Ok (Z.of_nat (length items))
  | _ => Raise "object has no len()"
  end.

(** The elements a [for] loop over [v] visits. *)
Definition iter (v : val) : outcome (list val) :=
  match v with
  | VList l => Ok l
  | VDict items => Ok (map (fun kv => VStr (fst kv)) items)
  | VStr s => Ok (map (fun c => VStr (String c EmptyString)) (Str.chars s))
  | _ => Raise "object is not iterable"
  end.

End Py.

(* ===================================================================== *)
(** * Validation pass -- [main.py], [validate_extracted_data] *)
(* ===================================================================== *)

Module Validation.
Import Py Parser.

(** The dict [parse_reference_data] returns, as a Python value. *)
Definition reference_dict (r : reference) : val :=
  VDict [ ("name", VStr (name r)); ("email", VStr (email r));
          ("phone_number", VStr (phone_number r)); ("company", VStr (company r));
          ("relationship", VStr (relationship r)) ].

(** [sum(1 for ref in refs if p(ref))] *)
Fixpoint sum_ones (p : reference -> bool) (refs : list reference) : Z :=
  match refs with
  | [] => 0
  | ref :: refs' => ((if p ref then 1 else 0) + sum_ones p refs')%Z
  end.

Definition summary_dict (total with_email with_phone missing_info : Z) : val :=
  VDict [ ("total_references", VInt total); ("with_email", VInt with_email);
          ("with_phone", VInt with_phone); ("missing_info", VInt missing_info) ].

(** The minimum requirement on a parsed entry (the negation of the test
    that makes the loop [continue]). *)
Definition has_valid_name (parsed_ref : reference) : bool :=
  negb (negb (Str.nonempty (name parsed_ref)) || String.eqb (name parsed_ref) "Unknown Reference").

(** The loop [for i, ref in enumerate(references)], appending to
    [valid_references]. *)
Fixpoint validate_loop (references : list val) (valid_references : list reference)
    : outcome (list reference) :=
  match references with
  | [] => Ok valid_references
  | ref :: references' =>
      if negb (truthy ref) then validate_loop references' valid_references
      else
        match ref with
        | VStr line =>
            if negb (Str.nonempty (Str.strip line))
            then validate_loop references' valid_references
            else
              let parsed_ref := parse_reference_data line in
              if has_valid_name parsed_ref
              then validate_loop references' (valid_references ++ [parsed_ref])
              else validate_loop references' valid_references
        | _ => Raise "object has no attribute 'strip'"
        end
  end.

Definition validate_extracted_data (result : gmap string val) : outcome (gmap string val) :=
  if decide (result = ∅) then
    Ok {[ "error" := VStr "No data extracted from resume" ]}
  else
    let references := default (VList []) (result !! "references") in
    if negb (truthy references) then
      Ok (<["validation_summary" := summary_dict 0 0 0 0]>
            (<["validated_references" := VList []]> result))
    else
      refs ← iter references;
      valid_references ← validate_loop refs [];
      let total := Z.of_nat (length valid_references) in
      Ok (<["validation_summary" :=
              summary_dict
                total
                (sum_ones (fun ref => Str.nonempty (email ref)) valid_references)
                (sum_ones (fun ref => Str.nonempty (phone_number ref)) valid_references)
                (total - sum_ones (fun ref => Str.nonempty (email ref)
                                              || Str.nonempty (phone_number ref))
                                  valid_references)%Z]>
            (<["validated_references" := VList (map reference_dict valid_references)]> result)).


Definition count_if (p : reference -> bool) (refs : list reference) : Z :=
  Z.of_nat (length (List.filter p refs)).

End Validation.

(* ===================================================================== *)
(** * Fallback extractor and merge -- [main.py], [process_resume] *)
(* ===================================================================== *)

Module Fallback.
Import Re Py.

Definition letters : cls := [Range "a" "z"; Range "A" "Z"]%char.
Definition upper : cls := [Range "A" "Z"]%char.
Definition lower : cls := [Range "a" "z"]%char.

(** [r"[a-zA-Z0-9._%+-]+@[a-zA-Z0-9.-]+\.[a-zA-Z]{2,}"] *)
Definition email_pattern : regex :=
  cats [ plus (letters ++ [Range "0" "9"; One "."; One "_"; One "%"; One "+"; One "-"]%char)%list;
         lit "@";
         plus (letters ++ [Range "0" "9"; One "."; One "-"]%char)%list;
         lit ".";
         Rep letters 2 None ].

(** [r"(\+?61\s?)?\(?0?\)?\s?[1-9]\d{1}\s?\d{3}\s?\d{3}|04\d{2}\s?\d{3}\s?\d{3}"] *)
Definition phone_pattern : regex :=
  Alt
    (cats [ Opt (cats [opt_cls [One "+"]%char; lit "6"; lit "1"; opt_cls [Space]]);
            opt_cls [One "("]%char;
            opt_cls [One "0"]%char;
            opt_cls [One ")"]%char;
            opt_cls [Space];
            Chr [Range "1" "9"]%char;
            times [Digit] 1;
            opt_cls [Space];
            times [Digit] 3;
            opt_cls [Space];
            times [Digit] 3 ])
    (cats [ lit "0"; lit "4";
            times [Digit] 2;
            opt_cls [Space];
            times [Digit] 3;
            opt_cls [Space];
            times [Digit] 3 ]).

(** [r"^([A-Z][a-z]+(?:\s+[A-Z][a-z]+){1,2})(?:\s|$)"] with [re.MULTILINE] *)
Definition name_token : regex := Cat (Chr upper) (plus lower).
Definition more_token : regex := Cat (plus [Space]) name_token.
Definition name_pattern : regex :=
  cats [ Bol;
         name_token;
         more_token; Opt more_token;
         Alt (Chr [Space]) Eol ].

Record fallback : Type := mkFallback {
  name : string;
  email : string;
  phone : string
}.

(** Step 4 of [process_resume]: the regex fallback extractor. *)
Definition fallback_data (text : string) : fallback :=
  let email_match := search email_pattern text in
  let phone_match := search phone_pattern text in
  let name_match := search name_pattern (Str.prefix_of 500 text) in
  mkFallback
    (default "" (Str.strip <$> name_match))
    (default "" email_match)
    (default "" phone_match).

(** [ai_result.get(k)] *)
Definition ai_get (ai_result : gmap string val) (k : string) : val :=
  default VNone (ai_result !! k).

(** Step 5 of [process_resume]: the dict [extracted_data["final"]]. *)
Definition final (ai_result : gmap string val) (fallback_data : fallback)
    (resume_url : string) : gmap string val :=
  <["resume_url" := VStr resume_url]>
  (<["references" := default (VList []) (ai_result !! "references")]>
  (<["phone" := or_ (ai_get ai_result "phone") (VStr (phone fallback_data))]>
  (<["email" := or_ (ai_get ai_result "email") (VStr (email fallback_data))]>
  (<["name" := or_ (ai_get ai_result "name") (VStr (name fallback_data))]> ∅)))).

(** The fallback value of an identity field. *)
Definition fallback_field (fallback_data : fallback) (k : string) : string :=
  if String.eqb k "name" then name fallback_data
  else if String.eqb k "email" then email fallback_data
  else phone fallback_data.

Definition identity_fields : list string := ["name"; "email"; "phone"].

(** [s] has no decimal digit. *)
Definition no_digit (s : string) : bool := negb (Str.any_char Chars.isdecimal s).

(** [s] is a year: four decimal digits. *)
Definition is_year (s : string) : bool :=
  (String.length s =? 4)%nat && forallb Chars.isdecimal (Str.chars s).

End Fallback.

(* ===================================================================== *)
(** * The outside world *)
(* ===================================================================== *)

(** The libraries and services the program calls but does not define.
    Each is a function from the call's arguments to its outcome, so one
    [world] fixes how every external call of a run answers. *)

Definition bytes : Type := list Byte.byte.

(** A document opened by [docx.Document]: the text of its paragraphs and,
    per table, per row, the text of its cells. *)
Record docx_document : Type := mkDocx {
  paragraphs : list string;
  tables : list (list (list string))
}.

Record world : Type := mkWorld {
  (** [PyPDF2.PdfReader(f).pages], with each page's [extract_text()] *)
  pdf_reader : bytes -> outcome (list (outcome string));
  (** [docx.Document(f)] *)
  docx_reader : bytes -> outcome docx_document;
  (** [str(b, 'utf-8', errors='ignore')] *)
  decode_utf8_ignore : bytes -> string;
  (** [open(path, 'rb')]: the bytes of the file *)
  open_rb : string -> outcome bytes;
  (** [os.path.splitext(name)[1]] *)
  splitext_ext : string -> string;
  (** [tempfile.NamedTemporaryFile(delete=False, suffix=...)] and the write
      of the content into it: the path of the file *)
  named_temporary_file : string -> outcome string;
  (** [os.unlink(path)] *)
  unlink : string -> outcome unit;
  (** [requests.get(url)] then [raise_for_status()]: the response body *)
  requests_get : string -> outcome bytes;
  (** [pdfplumber.open(f).pages], with each page's [extract_text()] *)
  pdfplumber_pages : bytes -> outcome (list (outcome (option string)));
  (** [RecursiveCharacterTextSplitter(...).split_text(text)] *)
  split_text : string -> outcome (list string);
  (** [llm.invoke(prompt).content] for the applicant prompt filled with
      the given resume text *)
  llm_applicant : string -> outcome string;
  (** the same for the reference prompt, filled with the text and the role *)
  llm_references : string -> string -> outcome string;
  (** [json.loads] *)
  json_loads : string -> outcome Py.val;
  (** [os.makedirs(path, exist_ok=True)] *)
  makedirs : string -> outcome unit;
  (** [datetime.now().strftime('%Y%m%d_%H%M%S')] *)
  now_stamp : string;
  (** [create_client(...)] and the query on table [questions] filtered by
      role and organization: [response.data] *)
  supabase_questions : string -> string -> outcome Py.val
}.

(* ===================================================================== *)
(** * Document text extraction *)
(* ===================================================================== *)

(** [backend/parser.py], class [ResumeParser]. *)
Module ResumeParser.
Section WithWorld.
Context (w : world).

(** [for page in pdf_reader.pages: text += page.extract_text() + "\n"] *)
Fixpoint pdf_loop (pages : list (outcome string)) (text : string) : outcome string :=
  match pages with
  | [] => Ok text
  | page :: pages' => page_text ← page; pdf_loop pages' (text +:+ page_text +:+ Str.nl)
  end.

(** [for paragraph in doc.paragraphs: text += paragraph.text + "\n"] *)
Definition paragraph_loop (paras : list string) (text : string) : string :=
  fold_left (fun text paragraph => text +:+ paragraph +:+ Str.nl) paras text.

Definition extract_text_from_pdf (file_content : bytes) : string :=
  try_except
    (pages ← pdf_reader w file_content;
     text ← pdf_loop pages "";
     Ok (Str.strip text))
    (fun _ => "").

Definition extract_text_from_docx (file_content : bytes) : string :=
  try_except
    (doc ← docx_reader w file_content;
     Ok (Str.strip (paragraph_loop (paragraphs doc) "")))
    (fun _ => "").

Definition extract_text_from_file (file_content : bytes) (file_extension : string) : string :=
  if String.eqb (Str.lower file_extension) ".pdf" then
    extract_text_from_pdf file_content
  else if existsb (String.eqb (Str.lower file_extension)) [".docx"; ".doc"] then
    extract_text_from_docx file_content
  else
    decode_utf8_ignore w file_content.

End WithWorld.
End ResumeParser.

(** [agents/tools/resume_tools.py]: the parser tool the workflow uses. *)
Module ResumeTools.
Section WithWorld.
Context (w : world).

Definition _extract_pdf_text (file_content : bytes) : string :=
  try_except
    (pages ← pdf_reader w file_content;
     text ← ResumeParser.pdf_loop pages "";
     Ok (Str.strip text))
    (fun e => "Error reading PDF: " +:+ e).

(** [for cell in row.cells: text += cell.text + " "], then [text += "\n"],
    for every row of every table. *)
Definition row_text (text : string) (row : list string) : string :=
  fold_left (fun text cell => text +:+ cell +:+ " ") row text +:+ Str.nl.

Definition tables_loop (tbls : list (list (list string))) (text : string) : string :=
  fold_left (fun text table => fold_left row_text table text) tbls text.

Definition _extract_docx_text (file_content : bytes) : string :=
  try_except
    (doc ← docx_reader w file_content;
     let text := ResumeParser.paragraph_loop (paragraphs doc) "" in
     let text := tables_loop (tables doc) text in
     Ok (Str.strip text))
    (fun e => "Error reading DOCX: " +:+ e).

(** [parse_resume(file_path)], reading files through [fs]. *)
Definition parse_resume (fs : string -> outcome bytes) (file_path : string) : string :=
  try_except
    (file ← fs file_path;
     let filename := Str.lower file_path in
     if Str.endswith ".pdf" filename then Ok (_extract_pdf_text file)
     else if existsb (fun suffix => Str.endswith suffix filename) [".docx"; ".doc"]
          then Ok (_extract_docx_text file)
          else Ok "Unsupported file format")
    (fun e => "Error parsing file: " +:+ e).

(** The file system after [tmp_file.write(content)] on the file [path]. *)
Definition fs_write (path : string) (content : bytes) (fs : string -> outcome bytes)
    : string -> outcome bytes :=
  fun p => if String.eqb p path then Ok content else fs p.

(** [ResumeParserTool.parse_file_content(file_content, filename)] *)
Definition parse_file_content (file_content : bytes) (filename : string) : string :=
  try_except
    (tmp_file_path ← named_temporary_file w (splitext_ext w filename);
     let result := parse_resume (fs_write tmp_file_path file_content (open_rb w)) tmp_file_path in
     _ ← unlink w tmp_file_path;
     Ok result)
    (fun e => "Error parsing file content: " +:+ e).

End WithWorld.
End ResumeTools.

(* ===================================================================== *)
(** * Question lookup -- [python_backend/agents/tools/database_tools.py] *)
(* ===================================================================== *)

Module Questions.
Import Py.

Definition software_questions : list string :=
  [ "How would you rate the candidate's technical skills and problem-solving abilities?";
    "Can you describe a challenging project they worked on and how they approached it?";
    "How did they collaborate with team members and handle code reviews?";
    "What are their strongest programming languages and technical competencies?";
    "Would you recommend them for a senior software development position?" ].

Definition marketing_questions : list string :=
  [ "How would you evaluate their campaign management and strategic thinking?";
    "Can you provide examples of successful marketing initiatives they led?";
    "How did they handle budget management and performance metrics?";
    "What are their strengths in team leadership and client relations?";
    "Would you hire them again for a marketing leadership role?" ].

Definition management_questions : list string :=
  [ "How would you assess their leadership and team management skills?";
    "Can you describe how they handled difficult situations or conflicts?";
    "How did they contribute to achieving team and organizational goals?";
    "What are their strengths in communication and decision-making?";
    "Would you recommend them for a senior management position?" ].

Definition default_questions : list string :=
  [ "How would you describe the candidate's work performance and professionalism?";
    "What are their key strengths and areas of expertise?";
    "How did they handle challenges and work under pressure?";
    "Can you provide examples of their contributions to team success?";
    "Would you recommend them for a position in their field of expertise?" ].

Definition any_in (terms : list string) (s : string) : bool :=
  existsb (fun term => Str.contains term s) terms.

Definition _get_generic_questions (role : string) : list string :=
  let role := if Str.nonempty role then role else "default" in
  let role_lower := Str.lower role in
  if any_in ["software"; "developer"; "engineer"; "programmer"] role_lower then software_questions
  else if any_in ["marketing"; "brand"; "campaign"; "digital"] role_lower then marketing_questions
  else if any_in ["manager"; "director"; "lead"; "supervisor"] role_lower then management_questions
  else default_questions.

Definition str_list (l : list string) : val := VList (map VStr l).

(** [v[0]] *)
Definition first_item (v : val) : outcome val :=
  match v with
  | VList l => getitem l 0
  | VStr s => match s with String c _ => Ok (VStr (String c EmptyString))
                         | EmptyString => Raise "string index out of range" end
  | VDict _ => Raise "KeyError: 0"
  | _ => Raise "object is not subscriptable"
  end.

(** [v[k]] for a string key *)
Definition item (v : val) (k : string) : outcome val :=
  match v with
  | VDict items => match assoc k items with Some x => Ok x | None => Raise ("KeyError: " +:+ k) end
  | VList _ | VStr _ => Raise "indices must be integers"
  | _ => Raise "object is not subscriptable"
  end.

(** [fetch_questions(role, organization)], which [get_questions] calls. *)
Definition fetch_questions (w : world) (role organization : string) : val :=
  try_except
    (data ← supabase_questions w role organization;
     if truthy data then
       row ← first_item data;
       questions_data ← item row "question";
       if is_list questions_data then Ok questions_data
       else match questions_data with
            | VStr text => json_loads w text
            | _ => Ok (str_list (_get_generic_questions role))
            end
     else Ok (str_list (_get_generic_questions role)))
    (fun _ => str_list (_get_generic_questions (if Str.nonempty role then role else "default"))).

Definition get_questions (w : world) (role organization : string) : val :=
  fetch_questions w role organization.

End Questions.

(* ===================================================================== *)
(** * Pipeline orchestrator --
      [python_backend/agents/reference_checking_workflow.py] *)
(* ===================================================================== *)

Module Workflow.
Import Py.

(** [class WorkflowState(TypedDict)], with the extra key [resume_chunks]
    the parse stage adds. *)
Record WorkflowState : Type := mkState {
  resume_url : string;
  role : string;
  organization : string;
  resume_text : string;
  applicant_info : val;
  references : list val;
  questions : val;
  vectorstore_path : string;
  error_message : string;
  status : string;
  resume_chunks : option (list string)
}.

Definition set_resume_text (v : string) (s : WorkflowState) : WorkflowState :=
  mkState (resume_url s) (role s) (organization s) v (applicant_info s) (references s)
          (questions s) (vectorstore_path s) (error_message s) (status s) (resume_chunks s).
Definition set_applicant_info (v : val) (s : WorkflowState) : WorkflowState :=
  mkState (resume_url s) (role s) (organization s) (resume_text s) v (references s)
          (questions s) (vectorstore_path s) (error_message s) (status s) (resume_chunks s).
Definition set_references (v : list val) (s : WorkflowState) : WorkflowState :=
  mkState (resume_url s) (role s) (organization s) (resume_text s) (applicant_info s) v
          (questions s) (vectorstore_path s) (error_message s) (status s) (resume_chunks s).
Definition set_questions (v : val) (s : WorkflowState) : WorkflowState :=
  mkState (resume_url s) (role s) (organization s) (resume_text s) (applicant_info s)
          (references s) v (vectorstore_path s) (error_message s) (status s) (resume_chunks s).
Definition set_vectorstore_path (v : string) (s : WorkflowState) : WorkflowState :=
  mkState (resume_url s) (role s) (organization s) (resume_text s) (applicant_info s)
          (references s) (questions s) v (error_message s) (status s) (resume_chunks s).
Definition set_error_message (v : string) (s : WorkflowState) : WorkflowState :=
  mkState (resume_url s) (role s) (organization s) (resume_text s) (applicant_info s)
          (references s) (questions s) (vectorstore_path s) v (status s) (resume_chunks s).
Definition set_status (v : string) (s : WorkflowState) : WorkflowState :=
  mkState (resume_url s) (role s) (organization s) (resume_text s) (applicant_info s)
          (references s) (questions s) (vectorstore_path s) (error_message s) v (resume_chunks s).
Definition set_resume_chunks (v : list string) (s : WorkflowState) : WorkflowState :=
  mkState (resume_url s) (role s) (organization s) (resume_text s) (applicant_info s)
          (references s) (questions s) (vectorstore_path s) (error_message s) (status s) (Some v).

(** ** Stateful code that may raise *)

(** A block of a node: it reads and assigns the state dict and either runs
    to its end or raises; the assignments made before a raise stay. *)
Definition stm (A : Type) : Type := WorkflowState -> WorkflowState * outcome A.

#[export] Instance stm_ret : MRet stm := fun A a st => (st, Ok a).
#[export] Instance stm_bind : MBind stm := fun A B f m st =>
  let '(st', r) := m st in
  match r with
  | Ok a => f a st'
  | Raise e => (st', Raise e)
  end.

Definition get_state : stm WorkflowState := fun st => (st, Ok st).
Definition assign (f : WorkflowState -> WorkflowState) : stm unit := fun st => (f st, Ok tt).
Definition lift {A} (o : outcome A) : stm A := fun st => (st, o).
Definition done_ : stm unit := mret tt.

(** [try: body  except Exception as e: handler(e)], then [return state]. *)
Definition node (body : stm unit) (handler : exn -> stm unit)
    : WorkflowState -> WorkflowState :=
  fun st =>
    let '(st', r) := body st in
    match r with
    | Ok _ => st'
    | Raise e => fst (handler e st')
    end.

(** [try: body  except Exception as e: handler(e)] where the handler may
    itself raise. *)
Definition try_with {A} (body : outcome A) (handler : exn -> outcome A) : outcome A :=
  match body with Ok a => Ok a | Raise e => handler e end.

(** ** Direct LLM extraction *)

Definition default_applicant_info : val :=
  VDict [ ("full_name", VStr "Unknown"); ("email", VStr "Unknown");
          ("phone", VStr "Unknown"); ("current_position", VStr "Unknown");
          ("experience_years", VStr "Unknown"); ("key_skills", VList []) ].

(** [resume_text[:3000] + "..." if len(resume_text) > 3000 else resume_text] *)
Definition limited_text (resume_text : string) : string :=
  if (3000 <? String.length resume_text)%nat
  then Str.prefix_of 3000 resume_text +:+ "..."
  else resume_text.

Definition _extract_applicant_info_direct (w : world) (resume_text : string) : val :=
  try_except
    (content ← Str.strip <$> llm_applicant w (limited_text resume_text);
     let start_idx := Str.find "{" content in
     let end_idx := (Str.rfind "}" content + 1)%Z in
     if (0 <=? start_idx)%Z && (start_idx <? end_idx)%Z
     then json_loads w (Str.slice start_idx end_idx content)
     else Raise "No JSON found in response")
    (fun _ => default_applicant_info).

(** The record built for one kept reference. *)
Definition reference_record (items : list (string * val)) : val :=
  VDict [ ("name", dict_get items "name" (VStr "Unknown"));
          ("email", dict_get items "email" (VStr ""));
          ("company", dict_get items "company" (VStr ""));
          ("relationship", dict_get items "relationship" (VStr "Professional contact"));
          ("years_worked", dict_get items "years_worked" (VStr ""));
          ("context", dict_get items "context" (VStr "")) ].

(** [for ref in references: if isinstance(ref, dict) and ref.get("name"):
    valid_references.append({...})] *)
Fixpoint validate_references (refs : list val) (valid_references : list val) : list val :=
  match refs with
  | [] => valid_references
  | ref :: refs' =>
      match ref with
      | VDict items =>
          if truthy (dict_get items "name" VNone)
          then validate_references refs' (valid_references ++ [reference_record items])
          else validate_references refs' valid_references
      | _ => validate_references refs' valid_references
      end
  end.

Definition no_reference_terms : list string := ["no references"; "[]"; "none"; "not found"].

Definition _extract_references_direct (w : world) (resume_text role : string) : list val :=
  try_except
    (content ← Str.strip <$> llm_references w (limited_text resume_text) role;
     let start_idx := Str.find "[" content in
     let end_idx := (Str.rfind "]" content + 1)%Z in
     if (0 <=? start_idx)%Z && (start_idx <? end_idx)%Z
     then
       references ← json_loads w (Str.slice start_idx end_idx content);
       refs ← iter references;
       Ok (validate_references refs [])
     else
       if existsb (fun term => Str.contains term (Str.lower content)) no_reference_terms
       then Ok []
       else Raise "No valid JSON array found in response")
    (fun _ => []).

(** ** The nodes *)

(** The pdfplumber fallback of the download stage:
    [if page_text: resume_text += page_text + "\n"] for every page. *)
Fixpoint plumber_loop (pages : list (outcome (option string))) (resume_text : string)
    : outcome string :=
  match pages with
  | [] => Ok resume_text
  | page :: pages' =>
      page_text ← page;
      match page_text with
      | Some t => if Str.nonempty t then plumber_loop pages' (resume_text +:+ t +:+ Str.nl)
                  else plumber_loop pages' resume_text
      | None => plumber_loop pages' resume_text
      end
  end.

Definition _download_resume_node (w : world) : WorkflowState -> WorkflowState :=
  node
    (state ← get_state;
     content ← lift (requests_get w (resume_url state));
     resume_text ← lift
       (try_with
          (Ok (ResumeTools.parse_file_content w content (resume_url state)))
          (fun parse_error =>
             pages ← pdfplumber_pages w content;
             plumber_loop pages ""));
     if negb (Str.nonempty (Str.strip resume_text))
     then lift (Raise "No text could be extracted from resume")
     else
       _ ← assign (set_resume_text resume_text);
       assign (set_status "downloaded"))
    (fun e =>
       _ ← assign (set_error_message ("Failed to download resume: " +:+ e));
       assign (set_status "error")).

Definition _parse_resume_node (w : world) : WorkflowState -> WorkflowState :=
  node
    (state ← get_state;
     if String.eqb (status state) "error" then done_
     else
       chunks ← lift (split_text w (resume_text state));
       _ ← assign (set_resume_chunks chunks);
       assign (set_status "parsed"))
    (fun e =>
       _ ← assign (set_error_message ("Failed to parse resume: " +:+ e));
       assign (set_status "error")).

Definition _extract_applicant_node (w : world) : WorkflowState -> WorkflowState :=
  node
    (state ← get_state;
     if String.eqb (status state) "error" then done_
     else
       let applicant_info := _extract_applicant_info_direct w (resume_text state) in
       _ ← assign (set_applicant_info applicant_info);
       _ ← assign (set_status "applicant_extracted");
       (* print(... applicant_info.get('full_name', 'Unknown') ...) *)
       _ ← lift (Py.get applicant_info "full_name" (VStr "Unknown"));
       done_)
    (fun e =>
       _ ← assign (set_applicant_info default_applicant_info);
       assign (set_status "applicant_extracted")).

Definition _extract_references_node (w : world) : WorkflowState -> WorkflowState :=
  node
    (state ← get_state;
     if String.eqb (status state) "error" then done_
     else
       let references := _extract_references_direct w (resume_text state) (role state) in
       _ ← assign (set_references references);
       _ ← assign (set_status "references_extracted");
       (* print(... len(references) ...) *)
       _ ← lift (Py.len (VList references));
       done_)
    (fun e =>
       _ ← assign (set_references []);
       assign (set_status "references_extracted")).

Definition _build_vectorstore_node (w : world) : WorkflowState -> WorkflowState :=
  node
    (state ← get_state;
     if String.eqb (status state) "error" then done_
     else
       let vectorstore_path :=
         "./vectorstore/" +:+ role state +:+ "_" +:+ organization state +:+ "_" +:+ now_stamp w in
       _ ← lift (makedirs w vectorstore_path);
       _ ← assign (set_vectorstore_path vectorstore_path);
       assign (set_status "vectorstore_built"))
    (fun e =>
       _ ← assign (set_vectorstore_path "");
       assign (set_status "vectorstore_built")).

Definition _fetch_questions_node (w : world) : WorkflowState -> WorkflowState :=
  node
    (state ← get_state;
     if String.eqb (status state) "error" then done_
     else
       let questions := Questions.get_questions w (role state) (organization state) in
       _ ← assign (set_questions questions);
       _ ← assign (set_status "questions_fetched");
       (* print(... len(questions) ...) *)
       _ ← lift (Py.len questions);
       done_)
    (fun e =>
       _ ← assign (set_questions (VList []));
       assign (set_status "questions_fetched")).

Definition _finalize_node : WorkflowState -> WorkflowState :=
  node
    (state ← get_state;
     if String.eqb (status state) "error" then done_
     else assign (set_status "completed"))
    (fun e =>
       _ ← assign (set_error_message ("Failed to finalize: " +:+ e));
       assign (set_status "error")).

(** ** The compiled graph and the entry point *)

(** [_build_workflow]: entry point [download_resume], then one edge from
    each node to the next, [finalize] last. *)
Definition ainvoke (w : world) (initial_state : WorkflowState) : WorkflowState :=
  _finalize_node
    (_fetch_questions_node w
       (_build_vectorstore_node w
          (_extract_references_node w
             (_extract_applicant_node w
                (_parse_resume_node w
                   (_download_resume_node w initial_state)))))).

Definition initial_state (resume_url role organization : string) : WorkflowState :=
  mkState resume_url role organization "" (VDict []) [] (VList []) "" "" "initialized" None.

Definition run_workflow (w : world) (resume_url role organization : string)
    : outcome (gmap string val) :=
  Ok (try_except
    (let final_state := ainvoke w (initial_state resume_url role organization) in
     (* print(... len(final_state.get('references', [])) ...) *)
     _ ← Py.len (VList (references final_state));
     let result : gmap string val :=
       <["error_message" := VStr (error_message final_state)]>
       (<["status" := VStr (status final_state)]>
       (<["vectorstore_path" := VStr (vectorstore_path final_state)]>
       (<["questions" := questions final_state]>
       (<["references" := VList (references final_state)]>
       (<["applicant_info" := applicant_info final_state]> ∅))))) in
     let result :=
       if negb (truthy (default VNone (result !! "references")))
       then <["references" := VList []]> result
       else result in
     Ok result)
    (fun e =>
       <["error_message" := VStr ("Workflow execution failed: " +:+ e)]>
       (<["status" := VStr "error"]>
       (<["vectorstore_path" := VStr ""]>
       (<["questions" := VList []]>
       (<["references" := VList []]>
       (<["applicant_info" := VDict []]> ∅))))))).

(** The order of the pipeline statuses; [error] has no rank. *)
Definition status_rank (s : string) : option nat :=
  if String.eqb s "initialized" then Some 0
  else if String.eqb s "downloaded" then Some 1
  else if String.eqb s "parsed" then Some 2
  else if String.eqb s "applicant_extracted" then Some 3
  else if String.eqb s "references_extracted" then Some 4
  else if String.eqb s "vectorstore_built" then Some 5
  else if String.eqb s "questions_fetched" then Some 6
  else if String.eqb s "completed" then Some 7
  else None.

(** ** Notions used to state the properties of a run *)

(** The text the download stage acquires, or the exception its [try]
    block raises. *)
Definition acquire (w : world) (resume_url : string) : outcome string :=
  content ← requests_get w resume_url;
  let resume_text := ResumeTools.parse_file_content w content resume_url in
  if negb (Str.nonempty (Str.strip resume_text))
  then Raise "No text could be extracted from resume"
  else Ok resume_text.

(** The directory the vectorstore stage creates. *)
Definition vectorstore_dir (w : world) (s : WorkflowState) : string :=
  "./vectorstore/" +:+ role s +:+ "_" +:+ organization s +:+ "_" +:+ now_stamp w.

(** The state in which a run enters the reference-extraction stage. *)
Definition state_before_references (w : world) (resume_url role organization : string)
    : WorkflowState :=
  _extract_applicant_node w
    (_parse_resume_node w
       (_download_resume_node w (initial_state resume_url role organization))).

(** The reference-extraction stage makes its LLM call unless it finds the
    run in the error status. *)
Definition calls_llm_references (w : world) (resume_url role organization : string) : bool :=
  negb (String.eqb (status (state_before_references w resume_url role organization)) "error").

(** [ref] is an object with a truthy name: the elements of the model's
    array the AI reference extraction keeps. *)
Definition has_name (ref : val) : bool :=
  match ref with
  | VDict items => truthy (default VNone (assoc "name" items))
  | _ => false
  end.

(** [record] is what the AI reference extraction builds from the object
    [items] of the model: the name, which is truthy, and for each of the
    five other keys the model's value if the key is there, else the default. *)
Definition kept_record (items : list (string * val)) (record : val) : Prop :=
  exists name_value,
    assoc "name" items = Some name_value /\ truthy name_value = true /\
    record = VDict [ ("name", name_value);
                     ("email", default (VStr "") (assoc "email" items));
                     ("company", default (VStr "") (assoc "company" items));
                     ("relationship",
                      default (VStr "Professional contact") (assoc "relationship" items));
                     ("years_worked", default (VStr "") (assoc "years_worked" items));
                     ("context", default (VStr "") (assoc "context" items)) ].

End Workflow.

(* ===================================================================== *)
(** * Concrete scenarios *)
(* ===================================================================== *)

Module Scenario.
Import Py.

(** Worlds for the examples. A resume is served as a PDF; the temporary
    file keeps the suffix it is given; the rest varies per scenario. *)
Definition page_text : string := "John Smith".

Definition scenario
    (reader : bytes -> outcome (list (outcome string)))
    (get : string -> outcome bytes)
    (split : string -> outcome (list string))
    (llm_refs : string -> string -> outcome string)
    (loads : string -> outcome val)
    (question_rows : string -> string -> outcome val) : world :=
  {| pdf_reader := reader;
     docx_reader := fun _ => Raise "Package not found";
     decode_utf8_ignore := fun _ => "";
     open_rb := fun _ => Raise "No such file or directory";
     splitext_ext := fun name => if Str.endswith ".pdf" name then ".pdf" else "";
     named_temporary_file := fun suffix => Ok ("/tmp/tmpk3v9x2ab" +:+ suffix);
     unlink := fun _ => Ok tt;
     requests_get := get;
     pdfplumber_pages := fun _ => Ok [Ok (Some page_text)];
     split_text := split;
     llm_applicant := fun _ => Raise "Connection error.";
     llm_references := llm_refs;
     json_loads := loads;
     makedirs := fun _ => Ok tt;
     now_stamp := "20250801_093000";
     supabase_questions := question_rows |}.

Definition url : string := "https://files.example.org/resumes/cv.pdf".
Definition nurse : string := "Registered Nurse".
Definition camden : string := "Camden Care".

Definition one_page : bytes -> outcome (list (outcome string)) := fun _ => Ok [Ok page_text].
Definition get_ok : string -> outcome bytes := fun _ => Ok [].
Definition split_ok : string -> outcome (list string) := fun text => Ok [text].
Definition llm_down : string -> string -> outcome string :=
  fun _ _ => Raise "Connection error.".
Definition loads_fails : string -> outcome val := fun _ => Raise "Expecting value".
(** [isinstance(e, json.JSONDecodeError)] on the exceptions of the
    examples. *)
Definition expecting_error (e : exn) : bool := String.prefix "Expecting" e.
Definition no_rows : string -> string -> outcome val := fun _ _ => Ok (VList []).

(** The document cannot be fetched. *)
Definition world_fetch_fails : world :=
  scenario one_page (fun _ => Raise "404 Client Error: Not Found")
           split_ok llm_down loads_fails no_rows.

(** The document is fetched and read; the text splitter raises. *)
Definition world_parse_fails : world :=
  scenario one_page get_ok (fun _ => Raise "maximum recursion depth exceeded")
           llm_down loads_fails no_rows.

(** The document is fetched, read and split; the LLM is unreachable. *)
Definition world_llm_fails : world :=
  scenario one_page get_ok split_ok llm_down loads_fails no_rows.

(** The PDF reader rejects every buffer. *)
Definition world_broken_pdf : world :=
  scenario (fun _ => Raise "EOF marker not found") get_ok split_ok llm_down loads_fails no_rows.


(** A double quote, and a quoted JSON string. *)
Definition dq : string := String (ascii_of_nat 34) EmptyString.
Definition quoted (s : string) : string := dq +:+ s +:+ dq.

(** The JSON text of an object with one question under the key 1, and the
    dict [json.loads] makes of it. *)
Definition question_text : string := "How long have you known the candidate?".
Definition question_json : string :=
  "{" +:+ quoted "1" +:+ ": " +:+ quoted question_text +:+ "}".
Definition question_dict : val := VDict [("1", VStr question_text)].

(** The [question] column of the matching row holds that JSON text. *)
Definition world_json_questions : world :=
  scenario one_page get_ok split_ok llm_down
    (fun text => if String.eqb text question_json then Ok question_dict
                 else Raise "Expecting value")
    (fun _ _ => Ok (VList [VDict [("question", VStr question_json)]])).

(** The JSON text of an array with one object: name Ann Lee, email null. *)
Definition null_email_json : string :=
  "[{" +:+ quoted "name" +:+ ": " +:+ quoted "Ann Lee" +:+ ", "
       +:+ quoted "email" +:+ ": null}]".

(** The LLM answers with a reference whose email is [null]. *)
Definition world_null_email : world :=
  scenario one_page get_ok split_ok
    (fun _ _ => Ok null_email_json)
    (fun text =>
       if String.eqb text null_email_json
       then Ok (VList [VDict [("name", VStr "Ann Lee"); ("email", VNone)]])
       else Raise "Expecting value")
    no_rows.

(** A file system with one plain-text file. *)
Definition notes_fs : string -> outcome bytes :=
  fun path => if String.eqb path "notes.txt" then Ok [] else Raise "No such file or directory".

(** The same world with a text put behind every buffer of bytes. *)
Definition notes_text : string := "Referees: Ann Lee, Camden Care".
Definition world_notes : world :=
  {| pdf_reader := pdf_reader world_broken_pdf;
     docx_reader := docx_reader world_broken_pdf;
     decode_utf8_ignore := fun _ => notes_text;
     open_rb := open_rb world_broken_pdf;
     splitext_ext := splitext_ext world_broken_pdf;
     named_temporary_file := named_temporary_file world_broken_pdf;
     unlink := unlink world_broken_pdf;
     requests_get := requests_get world_broken_pdf;
     pdfplumber_pages := pdfplumber_pages world_broken_pdf;
     split_text := split_text world_broken_pdf;
     llm_applicant := llm_applicant world_broken_pdf;
     llm_references := llm_references world_broken_pdf;
     json_loads := json_loads world_broken_pdf;
     makedirs := makedirs world_broken_pdf;
     now_stamp := now_stamp world_broken_pdf;
     supabase_questions := supabase_questions world_broken_pdf |}.

(** A standard output that takes every message, and one that is a pipe
    whose reader has gone. *)
Definition utf8_console : ParserConsole.console := fun _ _ => Ok tt.
Definition broken_pipe_console : ParserConsole.console :=
  fun _ _ => Raise "[Errno 32] Broken pipe".

(** Inputs of the validation pass. *)
Definition jane_line : string := "Jane Doe, Acme Corp, jane@acme.com, 555-123-4567".

Definition two_lines : gmap string val :=
  {[ "references" := VList (map VStr [jane_line; "@@@"]) ]}.

Definition jane_reference : Parser.reference :=
  Parser.mkReference "Jane Doe" "jane@acme.com" "555-123-4567" "Acme Corp" "".

End Scenario.

(* ===================================================================== *)
(** * The services behind the API -- [main.py] *)
(* ===================================================================== *)

(** The row [SupabaseService.update_application] writes. *)
Record update_data : Type := mkUpdateData {
  ud_role : string;
  ud_organization : string;
  ud_extracted_data : gmap string Py.val;
  ud_status : string;
  ud_has_extracted_data : bool;
  ud_extracted_data_keys : string;
  ud_updated_at : string;
  ud_user_id : string;
  ud_resume_url : option Py.val
}.

(** What the endpoints of [main.py] call besides the libraries of the
    workflow: the HTTP client, the Supabase client of [db_service] and the
    SMTP session of [email_service]. *)
(** How the [try] block of [send_reference_request] ends. *)
Inductive smtp_result : Type :=
  | Delivered
      (** the server accepted the message and the block ran to its end *)
  | AcceptedThenRaised (e : exn)
      (** the server accepted the message; leaving the [with smtplib.SMTP]
          block then raised (the reply to QUIT was not 221), and the
          handler returns [False] *)
  | NotAccepted (e : exn).
      (** an exception before the server accepted the message *)

Record services : Type := mkServices {
  libs : world;
  (** [requests.get(url)]: [status_code] and [content] of the response *)
  http_get : string -> outcome (Z * bytes);
  (** [str(HTTPException(status_code, detail))] *)
  http_exception_str : Z -> string -> string;
  (** [db_service.demo_mode]; then [db_service.supabase] is [None] *)
  demo_mode : bool;
  (** [datetime.now().isoformat()] *)
  now_iso : string;
  (** [table('applications').update(update_data).eq('id', id).execute().data] *)
  applications_update : update_data -> string -> outcome Py.val;
  (** [table('applications').select('*').eq('id', id).execute().data] *)
  applications_select : string -> outcome Py.val;
  (** [table('applications').update({'status': status, 'updated_at': ...})
      .eq('id', id).execute()] *)
  applications_set_status : string -> string -> outcome unit;
  (** the active rows of [questions] for the role of that name: [.data] *)
  role_questions : Py.val -> outcome Py.val;
  (** [table('reference_requests').insert(row).execute()] *)
  reference_requests_insert : list (string * Py.val) -> outcome unit;
  (** [email_service.enabled] *)
  email_enabled : bool;
  (** building the message and the SMTP session of [send_reference_request],
      from the address, the names, the role, the organization, the
      questions and the request id *)
  smtp_session : Py.val -> Py.val -> Py.val -> Py.val -> Py.val -> list Py.val -> string
                 -> smtp_result
}.

(** What the HTTP layer makes of an endpoint: the value it returns, or the
    [HTTPException] it raises. *)
Inductive http_result (A : Type) : Type :=
  | Response (a : A)
  | HttpError (status_code : Z) (detail : string).
Arguments Response {A} a.
Arguments HttpError {A} status_code detail.

(** [db_service.supabase.table(...)]: an attribute of [None] in demo mode. *)
Definition supabase_table (sv : services) : outcome unit :=
  if demo_mode sv then Raise "'NoneType' object has no attribute 'table'" else Ok tt.

(** [python_backend/services/supabase_service.py] *)
Module Supabase.
Import Py.

Definition update_application (sv : services)
    (application_id : string) (extracted_data : gmap string val)
    (role organization user_id status : string)
    (has_extracted_data : bool) (extracted_data_keys : string) : val :=
  if demo_mode sv then
    VDict [ ("success", VBool true); ("demo_mode", VBool true);
            ("message", VStr "Demo mode - application would be updated") ]
  else if negb (Str.nonempty application_id) then
    VDict [ ("error", VStr "application_id is required") ]
  else
    try_except
      (let update_data :=
         mkUpdateData role organization extracted_data status has_extracted_data
                      extracted_data_keys (now_iso sv) user_id
                      (if decide (extracted_data = ∅) then None
                       else extracted_data !! "resume_url") in
       data ← applications_update sv update_data application_id;
       Ok (VDict [ ("success", VBool true); ("application_id", VStr application_id);
                   ("data", data) ]))
      (fun e => VDict [ ("error", VStr ("Failed to update application: " +:+ e)) ]).

End Supabase.

(** [services/email_service.py] *)
Module Email.
Import Py.

(** [send_reference_request(...)]: whether a message went out to the
    address, and the value returned. *)
Definition send_reference_request (sv : services)
    (reference_email reference_name candidate_name role organization : val)
    (questions : list val) (application_id : string) : bool * bool :=
  let request_id := application_id in
  if negb (email_enabled sv) then (false, false)
  else if negb (truthy reference_email) then (false, false)
  else
    match smtp_session sv reference_email reference_name candidate_name role organization
                       questions request_id with
    | Delivered => (true, true)
    | AcceptedThenRaised _ => (true, false)
    | NotAccepted _ => (false, false)
    end.

End Email.

(** [main.py], [_get_questions_for_role] *)
Module RoleQuestions.
Import Py.

Definition role_mapping : list (string * string) :=
  [ ("Registered Nurse", "Registered Nurse");
    ("Assistant in Nursing (AIN)", "Assistant in Nursing (AIN)");
    ("Disability Support Worker", "Disability Support Worker");
    ("Allied Health Professional", "Allied Health Professional") ].

Definition fallback_questions : list val :=
  map VStr
    [ "How long have you known the candidate and in what capacity?";
      "What were the candidate's main responsibilities while working with you?";
      "What are the candidate's greatest strengths?";
      "Are there any areas where the candidate could improve?";
      "Would you recommend this candidate for employment?" ].

(** [role_mapping.get(role, role)]: a list or a dict is not hashable. *)
Definition mapped_role (role : val) : outcome val :=
  match role with
  | VList _ | VDict _ => Raise "unhashable type"
  | VStr s =>
      Ok (default role
            (VStr <$> (snd <$> List.find (fun kv => String.eqb (fst kv) s) role_mapping)))
  | _ => Ok role
  end.

(** [[q['question'] for q in data]] *)
Fixpoint question_column (rows : list val) : outcome (list val) :=
  match rows with
  | [] => Ok []
  | q :: rows' =>
      question ← Questions.item q "question";
      questions ← question_column rows';
      Ok (question :: questions)
  end.

Definition _get_questions_for_role (sv : services) (role : val) : list val :=
  try_except
    (db_role_name ← mapped_role role;
     _ ← supabase_table sv;
     data ← role_questions sv db_role_name;
     if truthy data then
       rows ← iter data;
       questions ← question_column rows;
       Ok questions
     else Ok fallback_questions)
    (fun _ => fallback_questions).

End RoleQuestions.

(** [main.py], [process_resume] *)
Module ProcessResume.
Import Py.

Record ProcessResumeRequest : Type := mkRequest {
  resume_url : string;
  role : string;
  organization : string;
  user_id : string;
  application_id : string
}.

(** The dict the endpoint returns; [success] is [True]. *)
Record response : Type := mkResponse {
  r_application_id : string;
  r_status : string;
  r_ai_used : bool;
  r_data : gmap string val
}.

(** Step 3: the text for the fallback extractor. *)
Definition fallback_text (w : world) (resume_url : string) (content : bytes) : string :=
  let filename := Str.lower (List.last (Str.split "/" resume_url) "") in
  if Str.endswith ".docx" filename then
    try_except
      (doc ← docx_reader w content;
       Ok (ResumeParser.paragraph_loop (paragraphs doc) ""))
      (fun _ => decode_utf8_ignore w content)
  else if Str.endswith ".pdf" filename then
    try_except
      (pages ← pdfplumber_pages w content;
       Workflow.plumber_loop pages "")
      (fun _ => decode_utf8_ignore w content)
  else decode_utf8_ignore w content.

(** [final.get(k) and final[k] != 'Unknown'], as a truth value *)
Definition meaningful (final : gmap string val) (k : string) : bool :=
  let v := default VNone (final !! k) in
  truthy v && negb (eq_str v "Unknown").

(** Step 6: the list given to [any]; its last element calls [len]. *)
Definition has_meaningful_data (final : gmap string val) : outcome bool :=
  let references := default VNone (final !! "references") in
  with_references ←
    (if truthy references then n ← len references; Ok (0 <? n)%Z else Ok false);
  Ok (meaningful final "name" || meaningful final "email" || meaningful final "phone"
      || with_references).

(** The body of the [try] block. *)
Definition try_body (sv : services) (request : ProcessResumeRequest) : outcome response :=
  let ai_result :=
    try_except
      (Workflow.run_workflow (libs sv) (resume_url request) (role request)
                             (organization request))
      (fun _ => ∅) in
  '(status_code, content) ← http_get sv (resume_url request);
  if negb (status_code =? 200)%Z
  then Raise (http_exception_str sv 400 "Failed to download resume")
  else
    let text := fallback_text (libs sv) (resume_url request) content in
    if negb (Str.nonempty (Str.strip text))
    then Raise (http_exception_str sv 400 "No text found in resume")
    else
      let fallback_data := Fallback.fallback_data text in
      let final := Fallback.final ai_result fallback_data (resume_url request) in
      has_meaningful_data ← has_meaningful_data final;
      let status := if (has_meaningful_data : bool) then "extracted" else "processing" in
      let has_extracted_data := has_meaningful_data in
      let extracted_data_keys := if has_meaningful_data then "name,email,phone" else "none" in
      let update_result :=
        Supabase.update_application sv (application_id request) final (role request)
          (organization request) (user_id request) status has_extracted_data
          extracted_data_keys in
      Ok (mkResponse (application_id request) status
                     (bool_decide (ai_result <> ∅)) final).

Definition process_resume (sv : services) (request : ProcessResumeRequest)
    : http_result response :=
  match try_body sv request with
  | Ok r => Response r
  | Raise e => HttpError 500 ("Error processing resume: " +:+ e)
  end.

End ProcessResume.

(** [main.py], [send_reference_requests] *)
Module SendReferenceRequests.
Import Py.

Record SendQuestionsRequest : Type := mkRequest {
  application_id : string;
  questions : list string;
  references : list val
}.

(** What the endpoint does to the outside: the emails that went out, the
    rows written to [reference_requests], the status set on the
    application. *)
Inductive effect : Type :=
  | EmailSent (reference_email : val)
  | RequestInserted (row : list (string * val))
  | StatusSet (application_id status : string).

(** The dict the endpoint returns; [success] is [True]. *)
Record response : Type := mkResponse {
  r_application_id : string;
  r_candidate_name : val;
  r_role : val;
  r_organization : val;
  r_questions_sent : list val;
  r_sent_emails : list val;
  r_failed_emails : list val;
  r_total_sent : Z;
  r_total_failed : Z
}.

(** [isinstance(ref, dict) and ref.get('email')], as a truth value *)
Definition has_email (ref : val) : bool :=
  match ref with
  | VDict items => truthy (dict_get items "email" VNone)
  | _ => false
  end.

Definition entry (items : list (string * val)) : val :=
  VDict [ ("email", dict_get items "email" VNone);
          ("name", dict_get items "name" (VStr "Unknown")) ].

Definition request_row (sv : services) (application_id : string)
    (items : list (string * val)) (questions : list val) : list (string * val) :=
  [ ("application_id", VStr application_id);
    ("reference_name", dict_get items "name" (VStr "Unknown"));
    ("reference_email", dict_get items "email" VNone);
    ("reference_phone", dict_get items "phone_number" (VStr ""));
    ("reference_company", dict_get items "company" (VStr ""));
    ("reference_relationship", dict_get items "relationship" (VStr ""));
    ("status", VStr "sent");
    ("questions_sent", VList questions);
    ("sent_at", VStr (now_iso sv)) ].

(** The loop [for ref in request.references], on the two lists and the
    effects so far. *)
Fixpoint send_loop (sv : services) (application_id : string)
    (candidate_name role organization : val) (questions : list val)
    (references : list val) (sent_emails failed_emails : list val) (log : list effect)
    : list effect * outcome (list val * list val) :=
  match references with
  | [] => (log, Ok (sent_emails, failed_emails))
  | ref :: references' =>
      match ref with
      | VDict items =>
          if truthy (dict_get items "email" VNone) then
            let '(went_out, success) :=
              Email.send_reference_request sv
                (dict_get items "email" VNone) (dict_get items "name" (VStr "Reference"))
                candidate_name role organization questions application_id in
            let log :=
              if went_out then log ++ [EmailSent (dict_get items "email" VNone)] else log in
            if success then
              let sent_emails := sent_emails ++ [entry items] in
              match supabase_table sv with
              | Raise e => (log, Raise e)
              | Ok _ =>
                  let row := request_row sv application_id items questions in
                  match reference_requests_insert sv row with
                  | Raise e => (log, Raise e)
                  | Ok _ =>
                      send_loop sv application_id candidate_name role organization questions
                                references' sent_emails failed_emails
                                (log ++ [RequestInserted row])
                  end
              end
            else
              send_loop sv application_id candidate_name role organization questions
                        references' sent_emails (failed_emails ++ [entry items]) log
          else
            send_loop sv application_id candidate_name role organization questions
                      references' sent_emails failed_emails log
      | _ =>
          send_loop sv application_id candidate_name role organization questions
                    references' sent_emails failed_emails log
      end
  end.

(** The body of the [try] block, with the effects it had when it ended
    or raised. *)
Definition try_body (sv : services) (request : SendQuestionsRequest)
    : list effect * outcome response :=
  match
    (_ ← supabase_table sv;
     data ← applications_select sv (application_id request);
     if negb (truthy data)
     then Raise (http_exception_str sv 404 "Application not found")
     else
       application ← Questions.first_item data;
       extracted_data ← get application "extracted_data" (VDict []);
       candidate_name ← get extracted_data "name" (VStr "The candidate");
       role ← get application "role" (VStr "");
       organization ← get application "organization" (VStr "Camden Care & Support Services");
       Ok (candidate_name, role, organization))
  with
  | Raise e => ([], Raise e)
  | Ok (candidate_name, role, organization) =>
      let questions :=
        match questions request with
        | [] => RoleQuestions._get_questions_for_role sv role
        | _ => map VStr (questions request)
        end in
      match send_loop sv (application_id request) candidate_name role organization questions
                      (references request) [] [] [] with
      | (log, Raise e) => (log, Raise e)
      | (log, Ok (sent_emails, failed_emails)) =>
          match (_ ← supabase_table sv;
                 applications_set_status sv (application_id request)
                                         "reference_requests_sent") with
          | Raise e => (log, Raise e)
          | Ok _ =>
              (log ++ [StatusSet (application_id request) "reference_requests_sent"],
               Ok (mkResponse (application_id request) candidate_name role organization
                              questions sent_emails failed_emails
                              (Z.of_nat (length sent_emails))
                              (Z.of_nat (length failed_emails))))
          end
      end
  end.

Definition send_reference_requests (sv : services) (request : SendQuestionsRequest)
    : list effect * http_result response :=
  let '(log, r) := try_body sv request in
  (log,
   match r with
   | Ok r => Response r
   | Raise e => HttpError 500 ("Error sending reference requests: " +:+ e)
   end).

End SendReferenceRequests.

(** [main.py], [debug_workflow_test] *)
Module DebugWorkflow.
Import Py.

(** The dict the endpoint returns: the two results, or [{"error": str(e)}]. *)
Inductive response : Type :=
  | Success (raw_result validated_result : gmap string val)
  | Error (e : string).

Definition debug_workflow_test (w : world) (resume_url role organization : string)
    : response :=
  match
    (result ← Workflow.run_workflow w resume_url role organization;
     validated_result ← Validation.validate_extracted_data result;
     (* a non-empty [result] is updated in place and is the dict returned *)
     let result := if decide (result = ∅) then result else validated_result in
     Ok (result, validated_result))
  with
  | Ok (raw_result, validated_result) => Success raw_result validated_result
  | Raise e => Error e
  end.

End DebugWorkflow.

(* ===================================================================== *)
(** * LLM resume parsing -- [backend/parser.py] *)
(* ===================================================================== *)

(** Operations on the items of a dict. *)
Module Dict.
Import Py.

(** [d[k] = v]: the value of an existing key is replaced where it stands, a
    new key goes last. *)
Fixpoint setitem (k : string) (v : val) (items : list (string * val))
    : list (string * val) :=
  match items with
  | [] => [(k, v)]
  | (k', v') :: items' =>
      if String.eqb k k' then (k, v) :: items' else (k', v') :: setitem k v items'
  end.

(** [d.setdefault(k, v)] *)
Definition setdefault (k : string) (v : val) (items : list (string * val))
    : list (string * val) :=
  match assoc k items with
  | Some _ => items
  | None => setitem k v items
  end.

End Dict.

Module GroqParser.
Import Re Py.

(** [r'^```json\s*']: without [re.MULTILINE] the anchor holds at the start
    of the string only. *)
Definition fence_open : regex :=
  cats [ lit "`"; lit "`"; lit "`"; lit "j"; lit "s"; lit "o"; lit "n"; Rep [Space] 0 None ].

(** [re.sub(r'^```json\s*', '', s)] *)
Definition sub_fence_open (s : string) : string :=
  match match_here fence_open None (Str.chars s) with
  | Some rest => Str.of_chars rest
  | None => s
  end.

(** [r'\s*```$']: without [re.MULTILINE] the anchor holds at the end of the
    string and before a newline that ends the string. *)
Definition fence_close : regex :=
  cats [ Rep [Space] 0 None; lit "`"; lit "`"; lit "`" ].

Definition at_end (s : list ascii) : bool :=
  match s with
  | [] => true
  | [c] => Ascii.eqb c Chars.newline
  | _ => false
  end.

Definition match_fence_close (prev : option ascii) (s : list ascii) : option (list ascii) :=
  rmatch fence_close prev s (fun _ rest => if at_end rest then Some rest else None).

(** [re.sub(r'\s*```$', '', s)]: every match, leftmost first, is deleted;
    [skip] counts the characters of the current match still to delete. *)
Fixpoint sub_fence_close_go (prev : option ascii) (s : list ascii) (skip : nat)
    : list ascii :=
  match s with
  | [] => []
  | c :: s' =>
      match skip with
      | S n => sub_fence_close_go (Some c) s' n
      | 0 =>
          match match_fence_close prev s with
          | Some rest =>
              match length s - length rest with
              | S n => sub_fence_close_go (Some c) s' n
              | 0 => c :: sub_fence_close_go (Some c) s' 0
              end
          | None => c :: sub_fence_close_go (Some c) s' 0
          end
      end
  end.

Definition sub_fence_close (s : string) : string :=
  Str.of_chars (sub_fence_close_go None (Str.chars s) 0).

Definition _clean_json_response (response : string) : outcome string :=
  let start_idx := Str.find "{" response in
  if (start_idx =? -1)%Z then Raise "No JSON object found in response"
  else
    let end_idx := Str.rfind "}" response in
    if (end_idx =? -1)%Z then Raise "No valid JSON object found in response"
    else
      (* empty when the last closing brace comes before the first opening one *)
      let cleaned := Str.slice start_idx (end_idx + 1) response in
      let cleaned := sub_fence_open cleaned in
      let cleaned := sub_fence_close cleaned in
      Ok (Str.strip cleaned).

(** The dict built for one reference of the LLM's answer. *)
Definition cleaned_ref (items : list (string * val)) : val :=
  VDict [ ("name", dict_get items "name" VNone);
          ("email", dict_get items "email" VNone);
          ("company", dict_get items "company" VNone);
          ("worked_together_context", dict_get items "worked_together_context" VNone);
          ("year", dict_get items "year" VNone) ].

(** [for ref in parsed_data["references"]: if isinstance(ref, dict): ...] *)
Fixpoint clean_references (refs : list val) (cleaned_references : list val) : list val :=
  match refs with
  | [] => cleaned_references
  | ref :: refs' =>
      match ref with
      | VDict items => clean_references refs' (cleaned_references ++ [cleaned_ref items])
      | _ => clean_references refs' cleaned_references
      end
  end.

Definition failure (error message : string) : val :=
  VDict [ ("success", VBool false); ("error", VStr error); ("message", VStr message) ].

(** The two handlers of [parse_resume_with_groq]: [except
    json.JSONDecodeError as e], then [except Exception as e]. *)
Definition groq_handlers (json_decode_error : exn -> bool) (e : exn) : val :=
  if json_decode_error e
  then failure ("Invalid JSON response: " +:+ e) "Failed to parse LLM response as JSON"
  else failure e "Failed to parse resume with Groq".

(** [parse_resume_with_groq(resume_text)]; [groq] is the chat completion
    for the prompt filled with the resume text: the content of its first
    choice; [json_decode_error e] is [isinstance(e, json.JSONDecodeError)]. *)
Definition parse_resume_with_groq (w : world) (json_decode_error : exn -> bool)
    (groq : string -> outcome string) (resume_text : string) : val :=
  match (response_content ← Str.strip <$> groq resume_text;
         _clean_json_response response_content) with
  | Raise e => groq_handlers json_decode_error e
  | Ok response_content =>
      match json_loads w response_content with
      | Raise e => groq_handlers json_decode_error e
      | Ok parsed_data =>
          match parsed_data with
          | VDict items =>
              let items := Dict.setdefault "full_name" VNone items in
              let items := Dict.setdefault "references" (VList []) items in
              let items :=
                if is_list (dict_get items "references" VNone) then items
                else Dict.setitem "references" (VList []) items in
              let cleaned_references :=
                match dict_get items "references" VNone with
                | VList refs => clean_references refs []
                | _ => []
                end in
              let items := Dict.setitem "references" (VList cleaned_references) items in
              VDict [ ("success", VBool true); ("data", VDict items);
                      ("message", VStr "Resume parsed successfully") ]
          | _ => failure "Response is not a dictionary" "Failed to parse resume with Groq"
          end
      end
  end.

(** [parse_resume_from_file(file_content, file_path)]; nothing in its [try]
    block raises. *)
Definition parse_resume_from_file (w : world) (json_decode_error : exn -> bool)
    (groq : string -> outcome string) (file_content : bytes) (file_path : string) : val :=
  let file_extension := splitext_ext w file_path in
  let resume_text := ResumeParser.extract_text_from_file w file_content file_extension in
  if negb (Str.nonempty (Str.strip resume_text))
  then VDict [ ("success", VBool false);
               ("error", VStr "No text content found in file");
               ("message", VStr "Could not extract text from resume file") ]
  else parse_resume_with_groq w json_decode_error groq resume_text.

End GroqParser.

(* ===================================================================== *)
(** * The LLM tools -- [agents/tools/resume_tools.py] *)
(* ===================================================================== *)

Module LlmTools.
Import Py.


(** [_parse_analysis_response(response)] *)
Definition _parse_analysis_response (w : world) (json_decode_error : exn -> bool)
    (response : string) : outcome val :=
  let start_idx := Str.find "{" response in
  let end_idx := (Str.rfind "}" response + 1)%Z in
  if (0 <=? start_idx)%Z && (start_idx <? end_idx)%Z
  then
    match json_loads w (Str.slice start_idx end_idx response) with
    | Ok parsed => Ok parsed
    | Raise e =>
        if json_decode_error e
        then Ok (VDict [ ("error", VStr "Invalid JSON in analysis response");
                         ("raw_response", VStr response) ])
        else Raise e
    end
  else
    Ok (VDict [ ("error", VStr "Failed to parse analysis response");
                ("raw_response", VStr response) ]).


(** [analyze_resume(resume_text, target_role)] *)
Definition analyze_resume (w : world) (json_decode_error : exn -> bool)
    (llm : string -> string -> outcome string) (resume_text target_role : string) : val :=
  try_except
    (content ← llm resume_text target_role;
     _parse_analysis_response w json_decode_error content)
    (fun e => VDict [ ("error", VStr ("Failed to analyze resume: " +:+ e)) ]).

End LlmTools.

(* ===================================================================== *)
(** * Notions used to state further properties *)
(* ===================================================================== *)

Module Notions.
Import Re Py Parser.

(** [strip] on the characters of a string. *)
Definition strip_chars (l : list ascii) : list ascii :=
  rev (Str.lstrip_chars (rev (Str.lstrip_chars l))).

Definition is_at (c : ascii) : bool := Ascii.eqb c "@".

(** An upper-case or lower-case ASCII letter, or whitespace. *)
Definition letter_or_space (c : ascii) : bool :=
  Chars.between 65 90 c || Chars.between 97 122 c || Chars.isspace c.

(** The stages of [parse_reference_data] on the text: the email match, the
    text once the email is removed, the phone match, the text once the phone
    is removed. *)
Definition email_found (line : string) : option string :=
  search email_pattern (Str.strip line).

Definition text_without_email (line : string) : string :=
  match email_found line with
  | Some _ => Str.strip (sub_empty email_pattern (Str.strip line))
  | None => Str.strip line
  end.

Definition phone_found (line : string) : option string :=
  search phone_pattern (text_without_email line).

Definition text_without_phone (line : string) : string :=
  match phone_found line with
  | Some _ => Str.strip (sub_empty phone_pattern (text_without_email line))
  | None => text_without_email line
  end.

(** An element that makes the loop of the validation pass raise: truthy
    and not a string. *)
Definition not_a_line (ref : val) : bool := truthy ref && negb (is_str ref).

(** A reference of a successful answer of the LLM parser: a dict with
    exactly the five keys, in this order. *)
Definition five_keys (ref : val) : Prop :=
  exists name email company worked_together_context year,
    ref = VDict [ ("name", name); ("email", email); ("company", company);
                  ("worked_together_context", worked_together_context); ("year", year) ].

End Notions.

(* ===================================================================== *)
(** * Notions and scenarios for the endpoints *)
(* ===================================================================== *)

(** Notions used to state the properties of the endpoints. *)
Module ApiNotions.
Import Py SendReferenceRequests.

(** A fallback value that counts as extracted data: not empty and not
    ["Unknown"]. *)
Definition meaningful_text (s : string) : bool :=
  Str.nonempty s && negb (String.eqb s "Unknown").

(** The addresses the emails of a run went to, and the rows it wrote. *)
Definition emails_sent (log : list effect) : list val :=
  omap (fun ev => match ev with EmailSent a => Some a | _ => None end) log.

Definition rows_inserted (log : list effect) : list (list (string * val)) :=
  omap (fun ev => match ev with RequestInserted row => Some row | _ => None end) log.

Definition is_status_set (ev : effect) : bool :=
  match ev with StatusSet _ _ => true | _ => false end.

(** No SMTP session fails once the server has accepted the message. *)
Definition closes_cleanly (sv : services) : Prop :=
  forall reference_email reference_name candidate_name role organization questions
         request_id e,
    smtp_session sv reference_email reference_name candidate_name role organization
                 questions request_id
    <> AcceptedThenRaised e.

End ApiNotions.

(** Services for the examples. *)
Module ApiScenario.
Import Py Scenario.

(** What the validation pass returns for [two_lines]. *)
Definition two_lines_validated : gmap string val :=
  <["validation_summary" := Validation.summary_dict 1 1 1 0]>
    (<["validated_references" := VList [Validation.reference_dict jane_reference]]> two_lines).

(** A text of 3001 characters. *)
Definition long_text : string := Str.of_chars (repeat "a"%char 3001).

(** What [run_workflow] returns when the text splitter raises. *)
Definition parse_failure_result : gmap string val :=
  <["error_message" := VStr "Failed to parse resume: maximum recursion depth exceeded"]>
  (<["status" := VStr "error"]>
  (<["vectorstore_path" := VStr ""]>
  (<["questions" := VList []]>
  (<["references" := VList []]>
  (<["applicant_info" := VDict []]> ∅))))).

Definition starlette_str (status_code : Z) (detail : string) : string :=
  (if (status_code =? 404)%Z then "404" else "400") +:+ ": " +:+ detail.

Definition application_row : val :=
  VDict [ ("id", VStr "app-17");
          ("role", VStr nurse);
          ("organization", VStr camden);
          ("extracted_data", VDict [("name", VStr "John Smith")]) ].

(** A world whose documents have no text. *)
Definition world_blank_file : world :=
  {| pdf_reader := fun _ => Ok [];
     docx_reader := fun _ => Raise "Package not found";
     decode_utf8_ignore := fun _ => "";
     open_rb := fun _ => Raise "No such file or directory";
     splitext_ext := fun _ => ".pdf";
     named_temporary_file := fun suffix => Ok ("/tmp/tmpk3v9x2ab" +:+ suffix);
     unlink := fun _ => Ok tt;
     requests_get := get_ok;
     pdfplumber_pages := fun _ => Ok [Ok None];
     split_text := split_ok;
     llm_applicant := fun _ => Raise "Connection error.";
     llm_references := llm_down;
     json_loads := loads_fails;
     makedirs := fun _ => Ok tt;
     now_stamp := "20250801_093000";
     supabase_questions := no_rows |}.

(** A resume that opens with a heading, and the answer of the LLM to the
    applicant prompt: the JSON text of an object, and the dict [json.loads]
    makes of it. *)
Definition cv_text : string :=
  "Curriculum Vitae" +:+ Str.nl +:+ "Jane Doe" +:+ Str.nl
  +:+ "Registered nurse since 2015".
Definition jane_json : string :=
  "{" +:+ quoted "full_name" +:+ ": " +:+ quoted "Jane Doe" +:+ ", "
      +:+ quoted "email" +:+ ": " +:+ quoted "jane.doe@example.org" +:+ "}".
Definition jane_dict : val :=
  VDict [("full_name", VStr "Jane Doe"); ("email", VStr "jane.doe@example.org")].

(** The file holds that resume and the LLM gives that answer. *)
Definition world_jane : world :=
  {| pdf_reader := fun _ => Ok [Ok cv_text];
     docx_reader := fun _ => Raise "Package not found";
     decode_utf8_ignore := fun _ => "";
     open_rb := fun _ => Raise "No such file or directory";
     splitext_ext := fun _ => ".pdf";
     named_temporary_file := fun suffix => Ok ("/tmp/tmpk3v9x2ab" +:+ suffix);
     unlink := fun _ => Ok tt;
     requests_get := get_ok;
     pdfplumber_pages := fun _ => Ok [Ok (Some cv_text)];
     split_text := split_ok;
     llm_applicant := fun _ => Ok jane_json;
     llm_references := llm_down;
     json_loads := fun text => if String.eqb text jane_json then Ok jane_dict
                               else Raise "Expecting value";
     makedirs := fun _ => Ok tt;
     now_stamp := "20250801_093000";
     supabase_questions := no_rows |}.

Definition services_of (w : world) (demo enabled : bool)
    (insert : list (string * val) -> outcome unit) : services :=
  {| libs := w;
     http_get := fun _ => Ok (200%Z, []);
     http_exception_str := starlette_str;
     demo_mode := demo;
     now_iso := "2025-08-01T09:30:00";
     applications_update := fun _ _ => Raise "connection reset";
     applications_select := fun id => if String.eqb id "app-17" then Ok (VList [application_row])
                                      else Ok (VList []);
     applications_set_status := fun _ _ => Ok tt;
     role_questions := fun _ => Ok (VList []);
     reference_requests_insert := insert;
     email_enabled := enabled;
     smtp_session := fun reference_email _ _ _ _ _ _ =>
       if eq_str reference_email "ann@example.org" then Delivered
       else NotAccepted "Recipient address rejected" |}.

(** The database is reachable, its updates fail, mail goes out. *)
Definition live_services : services :=
  services_of world_llm_fails false true (fun _ => Ok tt).

(** No database client. *)
Definition demo_services : services :=
  services_of world_llm_fails true true (fun _ => Ok tt).

(** The table [reference_requests] rejects every row. *)
Definition no_insert_services : services :=
  services_of world_llm_fails false true (fun _ => Raise "permission denied").

(** The LLM names the applicant. *)
Definition jane_services : services :=
  services_of world_jane false true (fun _ => Ok tt).

(** The file is fetched but holds no text. *)
Definition blank_services : services :=
  services_of world_blank_file false true (fun _ => Ok tt).

Definition ann : val := VDict [("name", VStr "Ann Lee"); ("email", VStr "ann@example.org")].
Definition bob : val := VDict [("name", VStr "Bob Ray"); ("email", VStr "bob@example.org")].
Definition cy : val := VDict [("name", VStr "Cy Dean")].
Definition dee : val := VDict [("name", VStr "Dee Fox"); ("email", VStr "dee@example.org")].

Definition send_request : SendReferenceRequests.SendQuestionsRequest :=
  SendReferenceRequests.mkRequest "app-17" [] [ann; bob; cy].

(** The mail server accepts the message to Dee Fox and then answers QUIT
    with 451 instead of 221. *)
Definition closing_services : services :=
  {| libs := libs live_services;
     http_get := http_get live_services;
     http_exception_str := http_exception_str live_services;
     demo_mode := demo_mode live_services;
     now_iso := now_iso live_services;
     applications_update := applications_update live_services;
     applications_select := applications_select live_services;
     applications_set_status := applications_set_status live_services;
     role_questions := role_questions live_services;
     reference_requests_insert := reference_requests_insert live_services;
     email_enabled := email_enabled live_services;
     smtp_session := fun reference_email _ _ _ _ _ _ =>
       if eq_str reference_email "dee@example.org"
       then AcceptedThenRaised "(451, b'Requested action aborted')"
       else Delivered |}.

Definition send_request_dee : SendReferenceRequests.SendQuestionsRequest :=
  SendReferenceRequests.mkRequest "app-17" [] [ann; dee].

Definition resume_request : ProcessResume.ProcessResumeRequest :=
  ProcessResume.mkRequest url nurse camden "user-4" "app-17".

End ApiScenario.

(* ===================================================================== *)
(** * Properties of the matcher *)
(* ===================================================================== *)

Module ReFacts.
Import Re.

Lemma all_chars_complete (x : ascii) : In x all_chars.
Proof.
  unfold all_chars. rewrite <- (ascii_nat_embedding x).
  apply in_map, in_seq. pose proof (nat_ascii_bounded x). lia.
Qed.

Lemma cls_within_spec c f x :
  cls_within c f = true -> cls_mem c x = true -> f x = true.
Proof.
  unfold cls_within. rewrite forallb_forall. intros H Hx.
  specialize (H x (all_chars_complete x)). rewrite Hx in H. exact H.
Qed.

Lemma cls_mem_app c1 c2 x : cls_mem (c1 ++ c2) x = cls_mem c1 x || cls_mem c2 x.
Proof. unfold cls_mem. apply existsb_app. Qed.

Lemma count_app f l1 l2 : count f (l1 ++ l2) = count f l1 + count f l2.
Proof. unfold count. rewrite List.filter_app, length_app. reflexivity. Qed.

Lemma count_all f l : Forall (fun x => f x = true) l -> count f l = length l.
Proof.
  unfold count. induction 1 as [|x l Hx _ IH]; simpl; [reflexivity|].
  rewrite Hx. simpl. congruence.
Qed.

Lemma count_le_length f l : count f l <= length l.
Proof. unfold count. apply filter_length_le. Qed.

Lemma count_piece f (a m b : list ascii) : count f m <= count f (a ++ m ++ b).
Proof. rewrite !count_app. lia. Qed.

Lemma or_else_Some {A} (x y : option A) v :
  or_else x y = Some v -> x = Some v \/ (x = None /\ y = Some v).
Proof. destruct x; simpl; intros; [left|right]; auto. Qed.

(** A greedy class repetition that succeeds took at least [lo] characters,
    all of the class. *)
Lemma rep_inv {A} c lo hi prev s (k : cont A) v :
  rep c lo hi prev s k = Some v ->
  exists m rest prev',
    s = m ++ rest /\ k prev' rest = Some v /\
    Forall (fun x => cls_mem c x = true) m /\ lo <= length m.
Proof.
  revert lo hi prev. induction s as [|x s IH]; intros lo hi prev H; simpl in H.
  - destruct lo; [|discriminate]. exists [], [], prev. repeat split; auto.
  - destruct (cls_mem c x && can_take hi) eqn:E.
    + apply or_else_Some in H as [H|[_ H]].
      * apply andb_true_iff in E as [E _].
        apply IH in H as (m & rest & p' & -> & Hk & Hall & Hlen).
        exists (x :: m), rest, p'. repeat split; auto. simpl. lia.
      * destruct lo; [|discriminate]. exists [], (x :: s), prev. repeat split; auto.
    + destruct lo; [|discriminate]. exists [], (x :: s), prev. repeat split; auto.
Qed.

Lemma Forall_alphabet_l c1 c2 (m : list ascii) :
  Forall (fun x => cls_mem c1 x = true) m ->
  Forall (fun x => cls_mem (c1 ++ c2) x = true) m.
Proof.
  apply List.Forall_impl. intros x Hx. rewrite cls_mem_app, Hx. reflexivity.
Qed.

Lemma Forall_alphabet_r c1 c2 (m : list ascii) :
  Forall (fun x => cls_mem c2 x = true) m ->
  Forall (fun x => cls_mem (c1 ++ c2) x = true) m.
Proof.
  apply List.Forall_impl. intros x Hx. rewrite cls_mem_app, Hx. apply orb_true_r.
Qed.

Lemma consumes_nothing f al {A} prev s (k : cont A) v :
  k prev s = Some v -> consumes f al 0 s k v.
Proof. intros H. exists [], s, prev. repeat split; auto; lia. Qed.

(** The matcher only steps over characters of the pattern's classes, and
    over at least [min_count f r] characters satisfying [f]. *)
Lemma rmatch_consumes f r : forall {A} prev s (k : cont A) v,
  rmatch r prev s k = Some v -> consumes f (alphabet r) (min_count f r) s k v.
Proof.
  induction r as [|c|c lo hi|r1 IH1 r2 IH2|r1 IH1 r2 IH2|r1 IH1| | |];
    intros A prev s k v H; simpl in H.
  - by eapply consumes_nothing; eauto.
  - destruct s as [|x s]; [discriminate|].
    destruct (cls_mem c x) eqn:E; [|discriminate].
    exists [x], s, (Some x). repeat split; auto.
    simpl. destruct (cls_within c f) eqn:W; [|lia].
    unfold count. simpl. rewrite (cls_within_spec _ _ _ W E). simpl. lia.
  - apply rep_inv in H as (m & rest & p' & -> & Hk & Hall & Hlen).
    exists m, rest, p'. repeat split; auto.
    simpl. destruct (cls_within c f) eqn:W; [|lia].
    rewrite count_all; [lia|].
    eapply List.Forall_impl; [|exact Hall]. intros x. apply cls_within_spec, W.
  - apply IH1 in H as (m1 & rest1 & p1 & -> & Hk1 & Hall1 & Hc1).
    apply IH2 in Hk1 as (m2 & rest2 & p2 & -> & Hk2 & Hall2 & Hc2).
    exists (m1 ++ m2), rest2, p2. repeat split; auto.
    + by rewrite <- app_assoc.
    + simpl. apply Forall_app. split; [by apply Forall_alphabet_l | by apply Forall_alphabet_r].
    + simpl. rewrite count_app. lia.
  - apply or_else_Some in H as [H|[_ H]].
    + apply IH1 in H as (m & rest & p' & -> & Hk & Hall & Hc).
      exists m, rest, p'. repeat split; auto; simpl; [by apply Forall_alphabet_l | lia].
    + apply IH2 in H as (m & rest & p' & -> & Hk & Hall & Hc).
      exists m, rest, p'. repeat split; auto; simpl; [by apply Forall_alphabet_r | lia].
  - apply or_else_Some in H as [H|[_ H]].
    + apply IH1 in H as (m & rest & p' & -> & Hk & Hall & Hc).
      exists m, rest, p'. repeat split; auto. simpl. lia.
    + by eapply consumes_nothing; eauto.
  - destruct (xorb _ _); [|discriminate]. by eapply consumes_nothing; eauto.
  - destruct (at_bol _); [|discriminate]. by eapply consumes_nothing; eauto.
  - destruct (at_eol _); [|discriminate]. by eapply consumes_nothing; eauto.
Qed.

Lemma match_here_prefix f r prev s rest :
  match_here r prev s = Some rest ->
  exists m, s = m ++ rest /\
    Forall (fun x => cls_mem (alphabet r) x = true) m /\ min_count f r <= count f m.
Proof.
  intros H. apply (rmatch_consumes f) in H as (m & rest' & p' & -> & Hk & Hall & Hc).
  injection Hk as <-. by exists m.
Qed.

(** A text none of whose pieces could be a match has no match. *)
Lemma search_from_none f r s :
  (forall a m b, s = a ++ m ++ b ->
     Forall (fun x => cls_mem (alphabet r) x = true) m ->
     min_count f r <= count f m -> False) ->
  forall prev, search_from r prev s = None.
Proof.
  induction s as [|c s IH]; intros Hno prev; simpl.
  - destruct (match_here r prev []) as [rest|] eqn:E; [|reflexivity].
    apply (match_here_prefix f) in E as (m & Hs & Hall & Hc).
    exfalso. apply (Hno [] m rest); auto.
  - destruct (match_here r prev (c :: s)) as [rest|] eqn:E.
    + apply (match_here_prefix f) in E as (m & Hs & Hall & Hc).
      exfalso. apply (Hno [] m rest); auto.
    + rewrite IH; [reflexivity|].
      intros a m b -> Hall Hc. apply (Hno (c :: a) m b); auto.
Qed.

(** A prefix of [l ++ x :: r] that avoids [x] is a prefix of [l]. *)
Lemma prefix_avoiding {A} (x : A) (m b l r : list A) :
  m ++ b = l ++ x :: r -> ~ In x m -> exists b', l = m ++ b'.
Proof.
  revert l. induction m as [|m0 m IH]; intros l H Hx.
  - by exists l.
  - destruct l as [|l0 l]; simpl in H; injection H as -> H.
    + exfalso. apply Hx. by left.
    + destruct (IH l H) as [b' ->].
      * intros K. apply Hx. by right.
      * by exists b'.
Qed.

(** A piece of [l ++ x :: r] that avoids [x] lies within [l] or within [r]. *)
Lemma piece_avoiding {A} (x : A) (l r a m b : list A) :
  a ++ m ++ b = l ++ x :: r -> ~ In x m ->
  (exists b', l = a ++ m ++ b') \/ (exists a', r = a' ++ m ++ b).
Proof.
  revert l. induction a as [|a0 a IH]; intros l H Hx; simpl in H.
  - left. by apply (prefix_avoiding x m b l r).
  - destruct l as [|l0 l]; simpl in H; injection H as -> H.
    + right. by exists a.
    + destruct (IH l H Hx) as [[b' ->]|[a' ->]].
      * left. by exists b'.
      * right. by exists a'.
Qed.

End ReFacts.

(* ===================================================================== *)
(** * Properties of the Reference String Parser *)
(* ===================================================================== *)

Module ParserFacts.
Import Re Parser.

Lemma bind_Ok {A B} (a : A) (f : A -> outcome B) : (Ok a ≫= f) = f a.
Proof. reflexivity. Qed.

Lemma fmap_Ok {A B} (a : A) (f : A -> B) : f <$> Ok a = Ok (f a).
Proof. reflexivity. Qed.

Lemma getitem_0 {A} (x : A) (l : list A) : getitem (x :: l) 0 = Ok x.
Proof. reflexivity. Qed.

Lemma getitem_1 {A} (x y : A) (l : list A) : getitem (x :: y :: l) 1 = Ok y.
Proof. reflexivity. Qed.

(** [s.split(sep, 1)] has two elements when [sep] occurs in [s]. *)
Lemma split1_of_has (sep : ascii) (s : string) (cur : list ascii) :
  Str.has_char sep s = true ->
  exists a b, Str.split1_go sep cur s = [a; b].
Proof.
  revert cur. induction s as [|c s IH]; intros cur H; simpl in *; [discriminate|].
  rewrite Ascii.eqb_sym in H. destruct (Ascii.eqb c sep); simpl in H.
  - eauto.
  - by apply IH.
Qed.

Lemma nonempty_ne (s : string) : Str.nonempty s = true <-> s <> "".
Proof. destruct s; simpl; split; congruence. Qed.

(** Neither [parts[0]] nor [name_company_split[1]] is ever out of range. *)
Lemma extract_fields_ok (line : string) :
  exists fields, snd (extract_fields line) = Ok fields.
Proof.
  unfold extract_fields. cbv zeta.
  match goal with
  | |- context [split_parts separators ?t] =>
      generalize (split_parts separators t); generalize t
  end.
  intros text parts. simpl snd.
  set (parts' := match parts with [] => [text] | _ => parts end).
  assert (Hne : exists p ps, parts' = p :: ps).
  { subst parts'. destruct parts; eauto. }
  destruct Hne as (p & ps & ->).
  rewrite getitem_0, bind_Ok.
  destruct (Str.has_char "," p) eqn:Hc.
  - destruct (split1_of_has _ _ [] Hc) as (a & b & Hs).
    unfold Str.split1. rewrite Hs.
    rewrite getitem_0, getitem_1, !fmap_Ok, !bind_Ok.
    match goal with |- context [fold_left ?f ?l ?x] => destruct (fold_left f l x) end.
    eauto.
  - rewrite bind_Ok.
    match goal with |- context [fold_left ?f ?l ?x] => destruct (fold_left f l x) end.
    eauto.
Qed.

Lemma handler_name_nonempty (text : string) : name (except_handler text) <> "".
Proof.
  unfold except_handler. simpl. destruct text as [|c text]; simpl; discriminate.
Qed.

(** C6: the line "Jane Doe, Acme Corp, jane@acme.com, 555-123-4567" parses
    to name "Jane Doe", company "Acme Corp", email "jane@acme.com" and
    phone_number "555-123-4567" (and an empty relationship). *)
Theorem parse_jane_doe :
  parse_reference_data "Jane Doe, Acme Corp, jane@acme.com, 555-123-4567"
  = mkReference "Jane Doe" "jane@acme.com" "555-123-4567" "Acme Corp" "".
Proof. vm_compute. reflexivity. Qed.

(** On every line the [try] block of the parser runs to its end and gives
    the record built there; the name of the record is never empty: it is
    the name found, or the sentinel "Unknown Reference" when none was
    found. *)
Lemma try_block_runs_to_its_end (line : string) :
  (exists r, snd (try_body line) = Ok r /\ parse_reference_data line = r) /\
  name (parse_reference_data line) <> "" /\
  (exists n e p c rel,
      snd (extract_fields line) = Ok (n, e, p, c, rel) /\
      parse_reference_data line
      = mkReference (if Str.nonempty n then n else sentinel) e p c rel).
Proof.
  destruct (extract_fields_ok line) as [[[[[n e] p] c] rel] Hf].
  assert (Hp : parse_reference_data line
               = mkReference (if Str.nonempty n then n else sentinel) e p c rel).
  { unfold parse_reference_data, try_body.
    destruct (extract_fields line) as [text fields]. simpl in Hf. subst fields.
    reflexivity. }
  assert (Hb : snd (try_body line)
               = Ok (mkReference (if Str.nonempty n then n else sentinel) e p c rel)).
  { unfold try_body. destruct (extract_fields line) as [text fields].
    simpl in Hf. subst fields. reflexivity. }
  split; [|split].
  - eexists. split; [exact Hb | exact Hp].
  - rewrite Hp. simpl. destruct (Str.nonempty n) eqn:E.
    + by apply nonempty_ne.
    + discriminate.
  - exists n, e, p, c, rel. split; [exact Hf | exact Hp].
Qed.

End ParserFacts.

(* ===================================================================== *)
(** * Properties of the parser with its console output *)
(* ===================================================================== *)

Module ParserConsoleFacts.
Import Parser ParserFacts Scenario.

(** When every [print] succeeds, the function returns the record of
    [Parser.parse_reference_data]. *)
Lemma quiet_console (print : ParserConsole.console) (line : string) :
  (forall site values, print site values = Ok tt) ->
  ParserConsole.parse_reference_data print line = Ok (parse_reference_data line).
Proof.
  intros Hq. unfold ParserConsole.parse_reference_data, parse_reference_data, try_body.
  rewrite (Hq ParserConsole.ParsingText), bind_Ok.
  rewrite (Hq ParserConsole.NameNotFound), (Hq ParserConsole.EmailNotFound),
    (Hq ParserConsole.PhoneNotFound).
  destruct (extract_fields_ok line) as [[[[[n e] p] c] rel] Hf].
  destruct (extract_fields line) as [text fields]. simpl in Hf. subst fields.
  rewrite !bind_Ok. cbv beta iota.
  destruct (Str.nonempty n), (Str.nonempty e), (Str.nonempty p);
    rewrite ?bind_Ok, Hq; reflexivity.
Qed.

(** Whatever the console does, a record the function returns has a name
    that is not empty: it is the record of the [try] block or the one the
    handler builds from the text left of the line. *)
Lemma returned_record (print : ParserConsole.console) (line : string) (r : reference) :
  ParserConsole.parse_reference_data print line = Ok r ->
  (r = parse_reference_data line \/ r = except_handler (fst (extract_fields line))) /\
  name r <> "".
Proof.
  intros Hr.
  assert (Hcases : r = parse_reference_data line
                   \/ r = except_handler (fst (extract_fields line))).
  { revert Hr.
    unfold ParserConsole.parse_reference_data, parse_reference_data, try_body.
    destruct (print ParserConsole.ParsingText [line]) as [[]|e0]; [|discriminate].
    rewrite bind_Ok.
    destruct (extract_fields_ok line) as [[[[[n e] p] c] rel] Hf].
    destruct (extract_fields line) as [text fields]. simpl in Hf. subst fields.
    simpl fst. rewrite !bind_Ok. cbv beta iota.
    assert (Hhandler : forall e1,
              (_ ← print ParserConsole.ParsingError [text; e1]; Ok (except_handler text))
              = Ok r -> r = except_handler text).
    { intros e1 H. destruct (print _ _) as [[]|]; [|discriminate].
      rewrite bind_Ok in H. congruence. }
    destruct (Str.nonempty n) eqn:Hn.
    - rewrite bind_Ok.
      destruct (if Str.nonempty e then Ok () else print ParserConsole.EmailNotFound [])
        as [[]|e1]; [|intros H; right; exact (Hhandler _ H)].
      rewrite bind_Ok.
      destruct (if Str.nonempty p then Ok () else print ParserConsole.PhoneNotFound [])
        as [[]|e1]; [|intros H; right; exact (Hhandler _ H)].
      rewrite bind_Ok.
      destruct (print ParserConsole.ParsedData _) as [[]|e1];
        [|intros H; right; exact (Hhandler _ H)].
      rewrite bind_Ok. cbn [ParserConsole.try_catch try_except]. intros [= <-]. by left.
    - destruct (print ParserConsole.NameNotFound []) as [[]|e1];
        [|intros H; right; exact (Hhandler _ H)].
      rewrite !bind_Ok.
      destruct (if Str.nonempty e then Ok () else print ParserConsole.EmailNotFound [])
        as [[]|e1]; [|intros H; right; exact (Hhandler _ H)].
      rewrite bind_Ok.
      destruct (if Str.nonempty p then Ok () else print ParserConsole.PhoneNotFound [])
        as [[]|e1]; [|intros H; right; exact (Hhandler _ H)].
      rewrite bind_Ok.
      destruct (print ParserConsole.ParsedData _) as [[]|e1];
        [|intros H; right; exact (Hhandler _ H)].
      rewrite bind_Ok. cbn [ParserConsole.try_catch try_except]. intros [= <-]. by left. }
  split; [exact Hcases|].
  destruct Hcases as [-> | ->].
  - exact (proj1 (proj2 (try_block_runs_to_its_end line))).
  - apply handler_name_nonempty.
Qed.

(** C8, on the inputs on which it fails: the function prints its argument
    before it enters the [try] block, so an exception of that [print]
    leaves the function: the parser raises. When every [print] succeeds the
    function returns the record of the [try] block, whose name is not
    empty. *)
Theorem print_before_try_escapes (print : ParserConsole.console) (line : string) :
  (forall e,
     print ParserConsole.ParsingText [line] = Raise e ->
     ParserConsole.parse_reference_data print line = Raise e) /\
  ((forall site values, print site values = Ok tt) ->
     ParserConsole.parse_reference_data print line = Ok (parse_reference_data line) /\
     name (parse_reference_data line) <> "").
Proof.
  split.
  - intros e He. unfold ParserConsole.parse_reference_data. by rewrite He.
  - intros Hq. split; [by apply quiet_console|].
    exact (proj1 (proj2 (try_block_runs_to_its_end line))).
Qed.

Lemma print_before_try_escapes_witness :
  broken_pipe_console ParserConsole.ParsingText [jane_line]
  = Raise "[Errno 32] Broken pipe" /\
  ParserConsole.parse_reference_data broken_pipe_console jane_line
  = Raise "[Errno 32] Broken pipe" /\
  (forall site values, utf8_console site values = Ok tt) /\
  ParserConsole.parse_reference_data utf8_console jane_line
  = Ok (parse_reference_data jane_line).
Proof.
  split; [reflexivity|]. split.
  - exact (proj1 (print_before_try_escapes broken_pipe_console jane_line) _ eq_refl).
  - split; [reflexivity|].
    exact (proj1 (proj2 (print_before_try_escapes utf8_console jane_line)
                    (fun _ _ => eq_refl))).
Defined.

End ParserConsoleFacts.

(* ===================================================================== *)
(** * Properties of the validation pass *)
(* ===================================================================== *)

Module ValidationFacts.
Import Py Parser Validation ParserFacts Scenario.

Lemma sum_ones_count p refs : sum_ones p refs = count_if p refs.
Proof.
  unfold count_if. induction refs as [|r refs IH]; simpl; [reflexivity|].
  rewrite IH. destruct (p r); simpl; lia.
Qed.






End ValidationFacts.

(* ===================================================================== *)
(** * Properties of the fallback extractor and of the merge *)
(* ===================================================================== *)

Module FallbackFacts.
Import Re ReFacts Py Fallback Scenario.

Lemma chars_app (a b : string) : Str.chars (a +:+ b) = Str.chars a ++ Str.chars b.
Proof.
  induction a as [|c a IH]; simpl; [reflexivity|].
  unfold Str.chars in *. simpl. by rewrite IH.
Qed.

Lemma length_chars (s : string) : length (Str.chars s) = String.length s.
Proof.
  induction s as [|c s IH]; simpl; [reflexivity|].
  unfold Str.chars in *. simpl. by rewrite IH.
Qed.

Lemma no_digit_count (s : string) :
  no_digit s = true -> count Chars.isdecimal (Str.chars s) = 0.
Proof.
  unfold no_digit. intros H. apply negb_true_iff in H.
  induction s as [|c s IH]; [reflexivity|].
  simpl in H. apply orb_false_iff in H as [Hc Hs].
  unfold count, Str.chars in *. simpl. rewrite Hc. by apply IH.
Qed.

Lemma is_year_count (s : string) :
  is_year s = true -> count Chars.isdecimal (Str.chars s) <= 4.
Proof.
  unfold is_year. intros H. apply andb_true_iff in H as [H _].
  apply Nat.eqb_eq in H. rewrite <- H, <- length_chars. apply count_le_length.
Qed.

(** Every match of the fallback phone pattern holds eight decimal digits,
    and the pattern cannot step over a hyphen. *)
Lemma phone_min_digits : min_count Chars.isdecimal phone_pattern = 8.
Proof. vm_compute. reflexivity. Qed.

Lemma phone_no_hyphen : cls_mem (alphabet phone_pattern) "-" = false.
Proof. vm_compute. reflexivity. Qed.

(** C7: on a text whose only digits are those of a year range, two years
    of four digits joined by a hyphen, the fallback extractor finds no
    phone: the phone of the fallback data is the empty string. *)
Theorem phone_never_year_range (pre y1 y2 post : string) :
  no_digit pre = true -> is_year y1 = true -> is_year y2 = true ->
  no_digit post = true ->
  phone (fallback_data (pre +:+ y1 +:+ "-" +:+ y2 +:+ post)) = "".
Proof.
  intros Hpre Hy1 Hy2 Hpost.
  unfold fallback_data. simpl. unfold search.
  rewrite (search_from_none Chars.isdecimal); [reflexivity|].
  intros a m b Htext Hall Hcount.
  rewrite phone_min_digits in Hcount.
  rewrite !chars_app in Htext.
  change (Str.chars "-") with ["-"%char] in Htext.
  assert (Hm : ~ In "-"%char m).
  { intros K. rewrite List.Forall_forall in Hall. apply Hall in K.
    rewrite phone_no_hyphen in K. discriminate. }
  symmetry in Htext.
  replace (Str.chars pre ++ Str.chars y1 ++ ["-"%char] ++ Str.chars y2 ++ Str.chars post)
    with ((Str.chars pre ++ Str.chars y1) ++ "-"%char :: (Str.chars y2 ++ Str.chars post))
    in Htext by (by rewrite <- app_assoc).
  apply no_digit_count in Hpre, Hpost. apply is_year_count in Hy1, Hy2.
  destruct (piece_avoiding _ _ _ _ _ _ Htext Hm) as [[b' E]|[a' E]].
  - pose proof (count_piece Chars.isdecimal a m b') as Hle.
    rewrite <- E, count_app in Hle. lia.
  - pose proof (count_piece Chars.isdecimal a' m b) as Hle.
    rewrite <- E, count_app in Hle. lia.
Qed.

Lemma phone_never_year_range_witness :
  no_digit "Ward nurse, " = true /\ is_year "2020" = true /\ is_year "2022" = true /\
  no_digit " at Acme" = true /\
  phone (fallback_data ("Ward nurse, " +:+ "2020" +:+ "-" +:+ "2022" +:+ " at Acme")) = "".
Proof.
  repeat (split; [reflexivity|]).
  apply (phone_never_year_range "Ward nurse, " "2020" "2022" " at Acme"); reflexivity.
Defined.

Lemma final_lookup ai fb url k :
  In k identity_fields ->
  final ai fb url !! k = Some (or_ (ai_get ai k) (VStr (fallback_field fb k))).
Proof.
  intros Hk. unfold final. simpl in Hk.
  destruct Hk as [<-|[<-|[<-|[]]]]; by simplify_map_eq.
Qed.

(** The merge expression [ai_result.get(k) or fallback_data[k]]: the
    value under [k] of the dict the caller passes when it is truthy, the
    fallback value otherwise. *)
Lemma final_merge (ai_result : gmap string val) (fb : fallback)
    (resume_url k : string) :
  In k identity_fields ->
  (truthy (ai_get ai_result k) = true ->
     final ai_result fb resume_url !! k = Some (ai_get ai_result k)) /\
  (truthy (ai_get ai_result k) = false ->
     final ai_result fb resume_url !! k = Some (VStr (fallback_field fb k))).
Proof.
  intros Hk. rewrite (final_lookup _ _ _ _ Hk). unfold or_.
  split; by intros ->.
Qed.

End FallbackFacts.

(* ===================================================================== *)
(** * Properties of the document text extractors *)
(* ===================================================================== *)

Module ExtractFacts.
Import Scenario ParserFacts.

Lemma pdf_loop_raise (pages : list (outcome string)) (e : exn) :
  In (Raise e) pages -> forall text, exists e', ResumeParser.pdf_loop pages text = Raise e'.
Proof.
  induction pages as [|page pages IH]; intros Hin text; [destruct Hin|].
  simpl. destruct page as [page_text|e0].
  - rewrite bind_Ok. destruct Hin as [Hin|Hin]; [discriminate|]. by apply IH.
  - by exists e0.
Qed.

(** What the two extractors answer. Both are total: every exception is
    caught inside them. [ResumeParser.extract_text_from_file] decodes a
    buffer whose extension is none of .pdf, .docx, .doc as UTF-8 with the
    invalid sequences dropped, and yields the empty string when the PDF or
    DOCX reader, or a page, raises. The tool [parse_resume] of the workflow
    instead answers "Unsupported file format" for any other file name, and
    a non-empty message "Error reading PDF: ...", "Error reading DOCX: ..."
    or "Error parsing file: ..." when reading fails. *)
Lemma extractors_degrade (w : world) (file_content : bytes) :
  (forall ext,
     existsb (String.eqb (Str.lower ext)) [".pdf"; ".docx"; ".doc"] = false ->
     ResumeParser.extract_text_from_file w file_content ext
     = decode_utf8_ignore w file_content) /\
  (forall ext e,
     Str.lower ext = ".pdf" -> pdf_reader w file_content = Raise e ->
     ResumeParser.extract_text_from_file w file_content ext = "") /\
  (forall ext pages e,
     Str.lower ext = ".pdf" -> pdf_reader w file_content = Ok pages ->
     In (Raise e) pages ->
     ResumeParser.extract_text_from_file w file_content ext = "") /\
  (forall ext e,
     Str.lower ext = ".docx" \/ Str.lower ext = ".doc" ->
     docx_reader w file_content = Raise e ->
     ResumeParser.extract_text_from_file w file_content ext = "") /\
  (forall fs file_path,
     fs file_path = Ok file_content ->
     existsb (fun suffix => Str.endswith suffix (Str.lower file_path))
             [".pdf"; ".docx"; ".doc"] = false ->
     ResumeTools.parse_resume w fs file_path = "Unsupported file format") /\
  (forall fs file_path e,
     fs file_path = Ok file_content ->
     Str.endswith ".pdf" (Str.lower file_path) = true ->
     pdf_reader w file_content = Raise e ->
     ResumeTools.parse_resume w fs file_path = "Error reading PDF: " +:+ e) /\
  (forall fs file_path e,
     fs file_path = Ok file_content ->
     Str.endswith ".pdf" (Str.lower file_path) = false ->
     existsb (fun suffix => Str.endswith suffix (Str.lower file_path)) [".docx"; ".doc"]
     = true ->
     docx_reader w file_content = Raise e ->
     ResumeTools.parse_resume w fs file_path = "Error reading DOCX: " +:+ e) /\
  (forall fs file_path e,
     fs file_path = Raise e ->
     ResumeTools.parse_resume w fs file_path = "Error parsing file: " +:+ e).
Proof.
  unfold ResumeParser.extract_text_from_file, ResumeParser.extract_text_from_pdf,
    ResumeParser.extract_text_from_docx, ResumeTools.parse_resume,
    ResumeTools._extract_pdf_text, ResumeTools._extract_docx_text.
  split; [|split; [|split; [|split; [|split; [|split; [|split]]]]]].
  - intros ext H. simpl in H. apply orb_false_iff in H as [H1 H2].
    rewrite H1. cbn [existsb]. by rewrite H2.
  - intros ext e -> He. by rewrite He.
  - intros ext pages e -> Hp Hin. rewrite Hp, bind_Ok.
    destruct (pdf_loop_raise pages e Hin "") as [e' ->]. reflexivity.
  - intros ext e Hext He.
    assert (Hx : existsb (String.eqb (Str.lower ext)) [".docx"; ".doc"] = true).
    { destruct Hext as [-> | ->]; reflexivity. }
    assert (Hp : String.eqb (Str.lower ext) ".pdf" = false).
    { destruct Hext as [-> | ->]; reflexivity. }
    by rewrite Hp, Hx, He.
  - intros fs file_path Hfs H. rewrite Hfs, bind_Ok.
    simpl in H. apply orb_false_iff in H as [H1 H2]. rewrite H1.
    cbn [existsb]. by rewrite H2.
  - intros fs file_path e Hfs Hpdf He. by rewrite Hfs, bind_Ok, Hpdf, He.
  - intros fs file_path e Hfs Hpdf Hdocx He. by rewrite Hfs, bind_Ok, Hpdf, Hdocx, He.
  - intros fs file_path e Hfs. by rewrite Hfs.
Qed.

(** C9, on inputs on which it fails. For a PDF the reader rejects, the
    extractor of the backend parser yields the empty string, but the tool
    the workflow uses yields the message "Error reading PDF: EOF marker not
    found"; the download stage, which takes a blank text or an exception
    for a failure, takes the message for the text of the resume and ends
    with status "downloaded" and no error message. For a plain-text file
    the extractor of the backend parser yields the decoded bytes, the tool
    the text "Unsupported file format". *)
Theorem tool_answers_with_error_text :
  ResumeParser.extract_text_from_file world_broken_pdf [] ".pdf" = "" /\
  ResumeTools.parse_file_content world_broken_pdf [] url
  = "Error reading PDF: EOF marker not found" /\
  Workflow.resume_text
    (Workflow._download_resume_node world_broken_pdf (Workflow.initial_state url nurse camden))
  = "Error reading PDF: EOF marker not found" /\
  Workflow.status
    (Workflow._download_resume_node world_broken_pdf (Workflow.initial_state url nurse camden))
  = "downloaded" /\
  Workflow.error_message
    (Workflow._download_resume_node world_broken_pdf (Workflow.initial_state url nurse camden))
  = "" /\
  ResumeParser.extract_text_from_file world_notes [] ".txt" = notes_text /\
  ResumeTools.parse_resume world_notes notes_fs "notes.txt" = "Unsupported file format".
Proof.
  split; [exact (proj1 (proj2 (extractors_degrade world_broken_pdf []))
                   ".pdf" "EOF marker not found" eq_refl eq_refl)|].
  split; [vm_compute; reflexivity|].
  split; [vm_compute; reflexivity|].
  split; [vm_compute; reflexivity|].
  split; [vm_compute; reflexivity|].
  split; [exact (proj1 (extractors_degrade world_notes []) ".txt" eq_refl)|].
  exact (proj1 (proj2 (proj2 (proj2 (proj2 (extractors_degrade world_notes [])))))
           notes_fs "notes.txt" eq_refl eq_refl).
Qed.

End ExtractFacts.

(* ===================================================================== *)
(** * Properties of the pipeline orchestrator *)
(* ===================================================================== *)

Module WorkflowFacts.
Import Py Workflow Scenario ParserFacts.

Ltac run_node :=
  unfold node, mbind, stm_bind, mret, stm_ret, get_state, assign, lift, done_;
  cbn beta iota.

Lemma not_error (s : WorkflowState) :
  status s <> "error" -> String.eqb (status s) "error" = false.
Proof. apply String.eqb_neq. Qed.

(** ** What each node does to a state *)

Lemma download_node_eq w s :
  _download_resume_node w s =
  match acquire w (resume_url s) with
  | Ok t => set_status "downloaded" (set_resume_text t s)
  | Raise e => set_status "error" (set_error_message ("Failed to download resume: " +:+ e) s)
  end.
Proof.
  unfold _download_resume_node, acquire. run_node.
  destruct (requests_get w (resume_url s)) as [content|e]; cbn; [|reflexivity].
  destruct (negb _); reflexivity.
Qed.

Lemma parse_node_eq w s :
  status s <> "error" ->
  _parse_resume_node w s =
  match split_text w (resume_text s) with
  | Ok chunks => set_status "parsed" (set_resume_chunks chunks s)
  | Raise e => set_status "error" (set_error_message ("Failed to parse resume: " +:+ e) s)
  end.
Proof.
  intros H. unfold _parse_resume_node. run_node. rewrite (not_error _ H).
  destruct (split_text w (resume_text s)); reflexivity.
Qed.

Lemma applicant_node_eq w s :
  status s <> "error" ->
  _extract_applicant_node w s =
  set_status "applicant_extracted"
    (set_applicant_info
       (let applicant_info := _extract_applicant_info_direct w (resume_text s) in
        if is_dict applicant_info then applicant_info else default_applicant_info) s).
Proof.
  intros H. unfold _extract_applicant_node. run_node. rewrite (not_error _ H).
  destruct (_extract_applicant_info_direct w (resume_text s)); reflexivity.
Qed.

Lemma references_node_eq w s :
  status s <> "error" ->
  _extract_references_node w s =
  set_status "references_extracted"
    (set_references (_extract_references_direct w (resume_text s) (role s)) s).
Proof.
  intros H. unfold _extract_references_node. run_node. rewrite (not_error _ H).
  reflexivity.
Qed.

Lemma vectorstore_node_eq w s :
  status s <> "error" ->
  _build_vectorstore_node w s =
  set_status "vectorstore_built"
    (set_vectorstore_path
       (match makedirs w (vectorstore_dir w s) with
        | Ok _ => vectorstore_dir w s
        | Raise _ => ""
        end) s).
Proof.
  intros H. unfold _build_vectorstore_node, vectorstore_dir. run_node.
  rewrite (not_error _ H). destruct (makedirs w _); reflexivity.
Qed.

Lemma questions_node_eq w s :
  status s <> "error" ->
  _fetch_questions_node w s =
  set_status "questions_fetched"
    (set_questions
       (let questions := Questions.get_questions w (role s) (organization s) in
        match Py.len questions with
        | Ok _ => questions
        | Raise _ => VList []
        end) s).
Proof.
  intros H. unfold _fetch_questions_node. run_node. rewrite (not_error _ H).
  destruct (Questions.get_questions w (role s) (organization s)); reflexivity.
Qed.

Lemma finalize_node_eq s :
  status s <> "error" -> _finalize_node s = set_status "completed" s.
Proof.
  intros H. unfold _finalize_node. run_node. by rewrite (not_error _ H).
Qed.

(** Once the status is [error], every later node returns the state as it
    found it. *)
Lemma later_nodes_skip w s :
  status s = "error" ->
  _parse_resume_node w s = s /\ _extract_applicant_node w s = s /\
  _extract_references_node w s = s /\ _build_vectorstore_node w s = s /\
  _fetch_questions_node w s = s /\ _finalize_node s = s.
Proof.
  intros H.
  unfold _parse_resume_node, _extract_applicant_node, _extract_references_node,
    _build_vectorstore_node, _fetch_questions_node, _finalize_node.
  run_node. rewrite H. cbn. repeat split; reflexivity.
Qed.

Lemma ainvoke_from_error w s :
  status s = "error" ->
  _finalize_node
    (_fetch_questions_node w
       (_build_vectorstore_node w
          (_extract_references_node w
             (_extract_applicant_node w (_parse_resume_node w s))))) = s.
Proof.
  intros H. destruct (later_nodes_skip w s H) as (-> & -> & -> & -> & -> & ->).
  reflexivity.
Qed.

(** ** The three ways a run can go *)

Lemma ainvoke_download_failed w url rl org e :
  acquire w url = Raise e ->
  ainvoke w (initial_state url rl org)
  = set_status "error"
      (set_error_message ("Failed to download resume: " +:+ e) (initial_state url rl org)).
Proof.
  intros H. unfold ainvoke. rewrite download_node_eq. cbn [resume_url initial_state].
  rewrite H. by apply ainvoke_from_error.
Qed.

Lemma ainvoke_parse_failed w url rl org t e :
  acquire w url = Ok t -> split_text w t = Raise e ->
  ainvoke w (initial_state url rl org)
  = set_status "error"
      (set_error_message ("Failed to parse resume: " +:+ e)
         (set_status "downloaded" (set_resume_text t (initial_state url rl org)))).
Proof.
  intros H Hs. unfold ainvoke. rewrite download_node_eq. cbn [resume_url initial_state].
  rewrite H. rewrite parse_node_eq by discriminate.
  cbn [resume_text set_status set_resume_text]. rewrite Hs.
  destruct (later_nodes_skip w
    (set_status "error"
      (set_error_message ("Failed to parse resume: " +:+ e)
         (set_status "downloaded" (set_resume_text t (initial_state url rl org))))))
    as (_ & -> & -> & -> & -> & ->); reflexivity.
Qed.

Lemma ainvoke_completed w url rl org t chunks :
  acquire w url = Ok t -> split_text w t = Ok chunks ->
  status (ainvoke w (initial_state url rl org)) = "completed" /\
  error_message (ainvoke w (initial_state url rl org)) = "" /\
  references (ainvoke w (initial_state url rl org)) = _extract_references_direct w t rl /\
  applicant_info (ainvoke w (initial_state url rl org))
  = (let applicant_info := _extract_applicant_info_direct w t in
     if is_dict applicant_info then applicant_info else default_applicant_info) /\
  questions (ainvoke w (initial_state url rl org))
  = (let questions := Questions.get_questions w rl org in
     match Py.len questions with Ok _ => questions | Raise _ => VList [] end).
Proof.
  intros H Hs. unfold ainvoke. rewrite download_node_eq. cbn [resume_url initial_state].
  rewrite H. rewrite parse_node_eq by discriminate.
  cbn [resume_text set_status set_resume_text]. rewrite Hs.
  rewrite applicant_node_eq by discriminate.
  rewrite references_node_eq by discriminate.
  rewrite vectorstore_node_eq by discriminate.
  rewrite questions_node_eq by discriminate.
  rewrite finalize_node_eq by discriminate.
  cbn. repeat split; reflexivity.
Qed.

Lemma run_cases w url rl org :
  (exists e, acquire w url = Raise e /\
      status (ainvoke w (initial_state url rl org)) = "error" /\
      error_message (ainvoke w (initial_state url rl org))
      = "Failed to download resume: " +:+ e) \/
  (exists t e, acquire w url = Ok t /\ split_text w t = Raise e /\
      status (ainvoke w (initial_state url rl org)) = "error" /\
      error_message (ainvoke w (initial_state url rl org))
      = "Failed to parse resume: " +:+ e) \/
  (exists t chunks, acquire w url = Ok t /\ split_text w t = Ok chunks /\
      status (ainvoke w (initial_state url rl org)) = "completed" /\
      error_message (ainvoke w (initial_state url rl org)) = "").
Proof.
  destruct (acquire w url) as [t|e] eqn:Ha.
  - destruct (split_text w t) as [chunks|e] eqn:Hs.
    + right. right. exists t, chunks.
      destruct (ainvoke_completed w url rl org t chunks Ha Hs) as (H1 & H2 & _).
      auto.
    + right. left. exists t, e.
      rewrite (ainvoke_parse_failed w url rl org t e Ha Hs). auto.
  - left. exists e. rewrite (ainvoke_download_failed w url rl org e Ha). auto.
Qed.

Lemma state_before_references_cases w url rl org :
  status (state_before_references w url rl org) = "error" \/
  (exists t chunks, acquire w url = Ok t /\ split_text w t = Ok chunks /\
     resume_text (state_before_references w url rl org) = t).
Proof.
  unfold state_before_references. rewrite download_node_eq. cbn [resume_url initial_state].
  destruct (acquire w url) as [t|e] eqn:Ha.
  - rewrite parse_node_eq by discriminate.
    cbn [resume_text set_status set_resume_text].
    destruct (split_text w t) as [chunks|e] eqn:Hs.
    + right. exists t, chunks. rewrite applicant_node_eq by discriminate. auto.
    + left.
      match goal with |- status (_extract_applicant_node w ?s) = _ =>
        destruct (later_nodes_skip w s eq_refl) as (_ & -> & _) end.
      reflexivity.
  - left.
    match goal with |- status (_extract_applicant_node w (_parse_resume_node w ?s)) = _ =>
      destruct (later_nodes_skip w s eq_refl) as (-> & -> & _) end.
    reflexivity.
Qed.

Lemma requests_raise_acquire w url e :
  requests_get w url = Raise e -> acquire w url = Raise e.
Proof. intros H. unfold acquire. by rewrite H. Qed.

Lemma direct_references_llm_raise w text rl e :
  llm_references w (limited_text text) rl = Raise e ->
  _extract_references_direct w text rl = [].
Proof. intros H. unfold _extract_references_direct. by rewrite H. Qed.

Lemma direct_applicant_llm_raise w text e :
  llm_applicant w (limited_text text) = Raise e ->
  _extract_applicant_info_direct w text = default_applicant_info.
Proof. intros H. unfold _extract_applicant_info_direct. by rewrite H. Qed.

(** ** The entry point *)

(** [run_workflow] always returns, and returns a dict with exactly the
    six keys, each holding the field of the final state; [references] is a
    list. *)
Lemma run_workflow_result w url rl org :
  exists r : gmap string val,
    run_workflow w url rl org = Ok r /\
    dom r = ({["applicant_info"; "references"; "questions"; "vectorstore_path";
               "status"; "error_message"]} : gset string) /\
    r !! "applicant_info" = Some (applicant_info (ainvoke w (initial_state url rl org))) /\
    r !! "references" = Some (VList (references (ainvoke w (initial_state url rl org)))) /\
    r !! "questions" = Some (questions (ainvoke w (initial_state url rl org))) /\
    r !! "vectorstore_path"
    = Some (VStr (vectorstore_path (ainvoke w (initial_state url rl org)))) /\
    r !! "status" = Some (VStr (status (ainvoke w (initial_state url rl org)))) /\
    r !! "error_message"
    = Some (VStr (error_message (ainvoke w (initial_state url rl org)))).
Proof.
  unfold run_workflow.
  change (Py.len (VList ?l)) with (Ok (Z.of_nat (length l))).
  rewrite bind_Ok. cbv zeta.
  rewrite lookup_insert_ne, lookup_insert_ne, lookup_insert_ne, lookup_insert_ne,
    lookup_insert_eq by discriminate.
  cbn [default from_option]. unfold id.
  eexists. split; [reflexivity|].
  destruct (references (ainvoke w (initial_state url rl org))) as [|x l] eqn:E;
    cbn [truthy negb try_except].
  - split; [rewrite !dom_insert_L; set_solver|].
    repeat split; by simplify_map_eq.
  - split; [rewrite !dom_insert_L; set_solver|].
    repeat split; by simplify_map_eq.
Qed.

(** The dict [run_workflow] returns has none of the keys [name], [email],
    [phone], so when [process_resume] merges it with the fallback data every
    identity field takes the fallback value. *)
Lemma merge_of_workflow_result w url rl org r fb k :
  run_workflow w url rl org = Ok r ->
  In k Fallback.identity_fields ->
  Fallback.final r fb url !! k = Some (VStr (Fallback.fallback_field fb k)).
Proof.
  intros Hrun Hk.
  destruct (run_workflow_result w url rl org) as (r' & Hr' & Hdom & _).
  rewrite Hrun in Hr'. injection Hr' as <-.
  assert (Hnone : r !! k = None).
  { apply not_elem_of_dom. rewrite Hdom. simpl in Hk.
    rewrite !elem_of_union, !elem_of_singleton.
    destruct Hk as [<-|[<-|[<-|[]]]]; intros H; repeat destruct H as [H|H]; discriminate. }
  rewrite (FallbackFacts.final_lookup _ _ _ _ Hk).
  unfold Fallback.ai_get. rewrite Hnone. reflexivity.
Qed.

(** C2, as the code has it: a run ends in the error status exactly when
    the download stage or the parse stage fails, and then error_message is
    populated; otherwise it ends completed with an empty error_message.
    Each of the stages extract_applicant, extract_references,
    build_vectorstore and fetch_questions, entered with a non-error status,
    leaves with its own stage status and error_message untouched, whatever
    fails inside it, and substitutes its default output: the all-"Unknown"
    applicant info when its LLM call raises, no references when its LLM
    call raises, an empty vectorstore path when the directory cannot be
    made, no questions when the fetched value has no length. *)
Theorem failure_containment (w : world) (url rl org : string) :
  (status (ainvoke w (initial_state url rl org)) = "error" <->
     (exists e, acquire w url = Raise e) \/
     (exists t e, acquire w url = Ok t /\ split_text w t = Raise e)) /\
  (status (ainvoke w (initial_state url rl org)) = "error" ->
     error_message (ainvoke w (initial_state url rl org)) <> "") /\
  (status (ainvoke w (initial_state url rl org)) <> "error" ->
     status (ainvoke w (initial_state url rl org)) = "completed" /\
     error_message (ainvoke w (initial_state url rl org)) = "") /\
  (forall s, status s <> "error" ->
     (status (_extract_applicant_node w s) = "applicant_extracted" /\
      error_message (_extract_applicant_node w s) = error_message s) /\
     (status (_extract_references_node w s) = "references_extracted" /\
      error_message (_extract_references_node w s) = error_message s) /\
     (status (_build_vectorstore_node w s) = "vectorstore_built" /\
      error_message (_build_vectorstore_node w s) = error_message s) /\
     (status (_fetch_questions_node w s) = "questions_fetched" /\
      error_message (_fetch_questions_node w s) = error_message s)) /\
  (forall s e, status s <> "error" ->
     llm_applicant w (limited_text (resume_text s)) = Raise e ->
     applicant_info (_extract_applicant_node w s) = default_applicant_info) /\
  (forall s e, status s <> "error" ->
     llm_references w (limited_text (resume_text s)) (role s) = Raise e ->
     references (_extract_references_node w s) = []) /\
  (forall s e, status s <> "error" ->
     makedirs w (vectorstore_dir w s) = Raise e ->
     vectorstore_path (_build_vectorstore_node w s) = "") /\
  (forall s e, status s <> "error" ->
     Py.len (Questions.get_questions w (role s) (organization s)) = Raise e ->
     questions (_fetch_questions_node w s) = VList []).
Proof.
  pose proof (run_cases w url rl org) as Hcases.
  split; [|split; [|split; [|split; [|split; [|split; [|split]]]]]].
  - split.
    + intros Herr.
      destruct Hcases as [(e & Ha & _)|[(t & e & Ha & Hs & _)|(t & c & _ & _ & Hst & _)]].
      * left. eauto.
      * right. eauto.
      * rewrite Hst in Herr. discriminate.
    + intros H.
      destruct Hcases
        as [(e & Ha & Hst & _)|[(t & e & Ha & Hs & Hst & _)|(t & c & Ha & Hs & _)]];
        [exact Hst | exact Hst |].
      destruct H as [[e He]|(t' & e & Ha' & Hs')]; congruence.
  - intros Herr.
    destruct Hcases
      as [(e & _ & _ & ->)|[(t & e & _ & _ & _ & ->)|(t & c & _ & _ & Hst & _)]].
    + discriminate.
    + discriminate.
    + rewrite Hst in Herr. discriminate.
  - intros Hne.
    destruct Hcases
      as [(e & _ & Hst & _)|[(t & e & _ & _ & Hst & _)|(t & c & _ & _ & Hst & Hm)]];
      [contradiction | contradiction | auto].
  - intros s Hs.
    rewrite applicant_node_eq, references_node_eq, vectorstore_node_eq, questions_node_eq
      by assumption.
    repeat split; reflexivity.
  - intros s e Hs Hllm. rewrite applicant_node_eq by assumption.
    cbn. rewrite (direct_applicant_llm_raise _ _ _ Hllm). reflexivity.
  - intros s e Hs Hllm. rewrite references_node_eq by assumption.
    cbn. apply (direct_references_llm_raise _ _ _ _ Hllm).
  - intros s e Hs Hmk. rewrite vectorstore_node_eq by assumption.
    cbn. by rewrite Hmk.
  - intros s e Hs Hlen. rewrite questions_node_eq by assumption.
    cbn. by rewrite Hlen.
Qed.

Lemma failure_containment_witness :
  status (ainvoke world_llm_fails (initial_state url nurse camden)) <> "error" /\
  status (ainvoke world_llm_fails (initial_state url nurse camden)) = "completed" /\
  error_message (ainvoke world_llm_fails (initial_state url nurse camden)) = "".
Proof.
  assert (H : status (ainvoke world_llm_fails (initial_state url nurse camden)) <> "error").
  { vm_compute. discriminate. }
  split; [exact H|].
  exact (proj1 (proj2 (proj2 (failure_containment world_llm_fails url nurse camden))) H).
Defined.

(** C2 as stated fails: the download stage succeeds, the text splitter of
    the parse stage raises, and the run ends in the error status with the
    error message of the parse stage. *)
Lemma parse_failure_is_fatal :
  status (_download_resume_node world_parse_fails (initial_state url nurse camden))
  = "downloaded" /\
  split_text world_parse_fails
    (resume_text (_download_resume_node world_parse_fails (initial_state url nurse camden)))
  = Raise "maximum recursion depth exceeded" /\
  exists r, run_workflow world_parse_fails url nurse camden = Ok r /\
    r !! "status" = Some (VStr "error") /\
    r !! "error_message"
    = Some (VStr "Failed to parse resume: maximum recursion depth exceeded").
Proof.
  split; [vm_compute; reflexivity|]. split; [vm_compute; reflexivity|].
  destruct (run_workflow_result world_parse_fails url nurse camden)
    as (r & Hr & _ & _ & _ & _ & _ & Hst & Hmsg).
  exists r. split; [exact Hr|]. split.
  - rewrite Hst. vm_compute. reflexivity.
  - rewrite Hmsg. vm_compute. reflexivity.
Qed.

(** C3: a run whose document fetch fails (the request raises, or no text
    comes out of the document) returns status "error", no references, no
    questions and a non-empty error_message. A run whose fetch succeeds and
    whose reference-extraction LLM call is made and raises returns status
    "completed", which is later than "downloaded", no references, and an
    empty error_message. *)
Theorem fetch_failure_and_llm_failure (w : world) (url rl org : string) :
  (forall e, requests_get w url = Raise e \/ acquire w url = Raise e ->
     exists r msg, run_workflow w url rl org = Ok r /\
       r !! "status" = Some (VStr "error") /\
       r !! "references" = Some (VList []) /\
       r !! "questions" = Some (VList []) /\
       r !! "error_message" = Some (VStr msg) /\ msg <> "") /\
  (forall content e,
     requests_get w url = Ok content ->
     calls_llm_references w url rl org = true ->
     llm_references w (limited_text (resume_text (state_before_references w url rl org))) rl
     = Raise e ->
     exists r, run_workflow w url rl org = Ok r /\
       r !! "status" = Some (VStr "completed") /\
       status_rank "downloaded" = Some 1 /\ status_rank "completed" = Some 7 /\
       r !! "references" = Some (VList []) /\
       r !! "error_message" = Some (VStr "")).
Proof.
  destruct (run_workflow_result w url rl org)
    as (r & Hr & _ & _ & Hrefs & Hq & _ & Hst & Hmsg).
  split.
  - intros e He.
    assert (Ha : acquire w url = Raise e).
    { destruct He as [He|He]; [by apply requests_raise_acquire | exact He]. }
    rewrite (ainvoke_download_failed w url rl org e Ha) in Hrefs, Hq, Hst, Hmsg.
    exists r, ("Failed to download resume: " +:+ e). repeat split; auto; discriminate.
  - intros content e _ Hcall Hllm.
    unfold calls_llm_references in Hcall. apply negb_true_iff, String.eqb_neq in Hcall.
    destruct (state_before_references_cases w url rl org)
      as [Herr|(t & chunks & Ha & Hs & Ht)]; [contradiction|].
    rewrite Ht in Hllm.
    destruct (ainvoke_completed w url rl org t chunks Ha Hs) as (H1 & H2 & H3 & _).
    rewrite H1 in Hst. rewrite H2 in Hmsg.
    rewrite H3, (direct_references_llm_raise _ _ _ _ Hllm) in Hrefs.
    exists r. repeat split; auto.
Qed.

Lemma fetch_failure_and_llm_failure_witness :
  (exists r msg, run_workflow world_fetch_fails url nurse camden = Ok r /\
     r !! "status" = Some (VStr "error") /\
     r !! "references" = Some (VList []) /\
     r !! "questions" = Some (VList []) /\
     r !! "error_message" = Some (VStr msg) /\ msg <> "") /\
  (exists r, run_workflow world_llm_fails url nurse camden = Ok r /\
     r !! "status" = Some (VStr "completed") /\
     status_rank "downloaded" = Some 1 /\ status_rank "completed" = Some 7 /\
     r !! "references" = Some (VList []) /\
     r !! "error_message" = Some (VStr "")).
Proof.
  split.
  - apply (proj1 (fetch_failure_and_llm_failure world_fetch_fails url nurse camden)
             "404 Client Error: Not Found").
    left. reflexivity.
  - apply (proj2 (fetch_failure_and_llm_failure world_llm_fails url nurse camden)
             [] "Connection error.").
    + reflexivity.
    + vm_compute. reflexivity.
    + vm_compute. reflexivity.
Defined.

(** C4, at the input on which it fails: when the [question] column of the
    matching row holds the JSON text of an object, [run_workflow] returns a
    dict whose [questions] is that object, not a list. *)
Theorem questions_not_a_list :
  exists r, run_workflow world_json_questions url nurse camden = Ok r /\
    r !! "questions" = Some question_dict /\
    is_list question_dict = false.
Proof.
  destruct (run_workflow_result world_json_questions url nurse camden)
    as (r & Hr & _ & _ & _ & Hq & _).
  exists r. split; [exact Hr|]. split; [|reflexivity].
  rewrite Hq. vm_compute. reflexivity.
Qed.

(** The loop keeps, in order, the objects with a truthy name, each as the
    record built from it. *)
Lemma validate_references_kept refs acc :
  exists kept,
    validate_references refs acc = acc ++ kept /\
    Forall2 (fun ref record => exists items, ref = VDict items /\ kept_record items record)
            (List.filter has_name refs) kept.
Proof.
  revert acc. induction refs as [|ref refs IH]; intros acc.
  - exists []. split; [by rewrite app_nil_r | constructor].
  - cbn [validate_references List.filter].
    destruct ref as [| | | | | |items];
      try (destruct (IH acc) as (kept & E & HF); exists kept; by split).
    unfold has_name at 1. unfold dict_get at 1.
    destruct (truthy (default VNone (assoc "name" items))) eqn:Hn.
    + destruct (IH (acc ++ [reference_record items])) as (kept & E & HF).
      exists (reference_record items :: kept). split.
      * rewrite E. by rewrite <- app_assoc.
      * constructor; [|exact HF].
        exists items. split; [reflexivity|].
        unfold kept_record, reference_record, dict_get.
        destruct (assoc "name" items) as [v|]; [|discriminate].
        exists v. auto.
    + destruct (IH acc) as (kept & E & HF). exists kept. by split.
Qed.

(** C10, as the code has it: the AI reference extraction returns no record,
    or the model's answer holds a JSON array and the records returned are,
    in order, one for each element of the array that is an object with a
    truthy name. The record of an object has exactly the six keys name,
    email, company, relationship, years_worked and context, so never a
    phone_number; its name is the object's; each of the five other fields
    is the object's value for that key when the object has the key, of
    whatever JSON type, null included, and otherwise the default "", "",
    "Professional contact", "", "". *)
Theorem reference_records_shape (w : world) (text rl : string) :
  _extract_references_direct w text rl = [] \/
  exists answer parsed refs,
    llm_references w (limited_text text) rl = Ok answer /\
    json_loads w (Str.slice (Str.find "[" (Str.strip answer))
                            (Str.rfind "]" (Str.strip answer) + 1)
                            (Str.strip answer)) = Ok parsed /\
    iter parsed = Ok refs /\
    Forall2 (fun ref record => exists items, ref = VDict items /\ kept_record items record)
            (List.filter has_name refs)
            (_extract_references_direct w text rl).
Proof.
  unfold _extract_references_direct.
  destruct (llm_references w (limited_text text) rl) as [content|e]; [|by left].
  rewrite fmap_Ok, bind_Ok. cbv zeta.
  destruct (_ && _).
  - destruct (json_loads w _) as [references|e] eqn:Hj; [|by left].
    rewrite bind_Ok. destruct (iter references) as [refs|e] eqn:Hi; [|by left].
    rewrite bind_Ok. cbn [try_except].
    destruct (validate_references_kept refs []) as (kept & E & HF).
    right. exists content, references, refs.
    split; [reflexivity|]. split; [exact Hj|]. split; [exact Hi|].
    rewrite E. exact HF.
  - left. destruct (existsb _ _); reflexivity.
Qed.

(** C10 as stated fails: a [null] email of the model is kept as it is, so
    the email of the record is not a string. *)
Lemma reference_email_may_be_null :
  _extract_references_direct world_null_email page_text nurse
  = [VDict [ ("name", VStr "Ann Lee"); ("email", VNone); ("company", VStr "");
             ("relationship", VStr "Professional contact");
             ("years_worked", VStr ""); ("context", VStr "") ]]
  /\ is_str VNone = false.
Proof. split; [vm_compute; reflexivity | reflexivity]. Qed.

End WorkflowFacts.

(* ===================================================================== *)
(** * Properties of the string methods *)
(* ===================================================================== *)

Module StrFacts.
Import Notions.

Lemma chars_of_chars (l : list ascii) : Str.chars (Str.of_chars l) = l.
Proof. apply list_ascii_of_string_of_list_ascii. Qed.

Lemma of_chars_chars (s : string) : Str.of_chars (Str.chars s) = s.
Proof. apply string_of_list_ascii_of_string. Qed.

Lemma has_char_In (c : ascii) (s : string) :
  Str.has_char c s = true <-> In c (Str.chars s).
Proof.
  induction s as [|d s IH]; simpl; [split; [discriminate | intros []]|].
  rewrite orb_true_iff, IH, Ascii.eqb_eq. unfold Str.chars. simpl.
  split; intros [H|H]; auto.
Qed.

Lemma has_char_false (c : ascii) (s : string) :
  Str.has_char c s = false <-> ~ In c (Str.chars s).
Proof. rewrite <- has_char_In. destruct (Str.has_char c s); split; congruence. Qed.

Lemma any_char_In (p : ascii -> bool) (s : string) :
  Str.any_char p s = true <-> exists c, In c (Str.chars s) /\ p c = true.
Proof.
  induction s as [|d s IH]; simpl.
  - split; [discriminate | intros (c & [] & _)].
  - rewrite orb_true_iff, IH. unfold Str.chars. simpl. split.
    + intros [H|(c & Hc & Hp)]; [exists d; auto | exists c; auto].
    + intros (c & [<-|Hc] & Hp); [by left | right; eauto].
Qed.

(** [lstrip] drops a run of whitespace from the front. *)
Lemma lstrip_split (l : list ascii) :
  exists ws, l = ws ++ Str.lstrip_chars l /\ Forall (fun c => Chars.isspace c = true) ws.
Proof.
  induction l as [|c l (ws & IH & Hws)]; simpl.
  - by exists [].
  - destruct (Chars.isspace c) eqn:E.
    + exists (c :: ws). split; [simpl; by rewrite <- IH | by constructor].
    + by exists [].
Qed.

Lemma lstrip_head (l : list ascii) :
  match Str.lstrip_chars l with
  | [] => True
  | c :: _ => Chars.isspace c = false
  end.
Proof.
  induction l as [|c l IH]; simpl; [exact I|].
  destruct (Chars.isspace c) eqn:E; [exact IH | exact E].
Qed.

Lemma lstrip_id (l : list ascii) :
  match l with [] => True | c :: _ => Chars.isspace c = false end ->
  Str.lstrip_chars l = l.
Proof. destruct l as [|c l]; simpl; [reflexivity|]. by intros ->. Qed.

Lemma chars_strip (s : string) : Str.chars (Str.strip s) = strip_chars (Str.chars s).
Proof. unfold Str.strip. by rewrite chars_of_chars. Qed.

(** [strip] drops whitespace at both ends and nothing else. *)
Lemma strip_split (l : list ascii) :
  exists a b, l = a ++ strip_chars l ++ b /\
    Forall (fun c => Chars.isspace c = true) a /\
    Forall (fun c => Chars.isspace c = true) b.
Proof.
  unfold strip_chars.
  destruct (lstrip_split l) as (a & Ha & Hsa).
  destruct (lstrip_split (rev (Str.lstrip_chars l))) as (b & Hb & Hsb).
  exists a, (rev b). split; [|split; [exact Hsa | by apply Forall_rev]].
  rewrite Ha at 1. f_equal.
  rewrite <- (rev_involutive (Str.lstrip_chars l)) at 1.
  rewrite Hb at 1. by rewrite rev_app_distr.
Qed.

Lemma strip_chars_In (c : ascii) (l : list ascii) : In c (strip_chars l) -> In c l.
Proof.
  destruct (strip_split l) as (a & b & Hl & _). intros H. rewrite Hl.
  apply in_or_app. right. apply in_or_app. by left.
Qed.

Lemma has_char_strip (c : ascii) (s : string) :
  Str.has_char c s = false -> Str.has_char c (Str.strip s) = false.
Proof.
  rewrite !has_char_false, chars_strip. intros H K. apply H. by apply strip_chars_In.
Qed.

Lemma strip_ends (l : list ascii) :
  match strip_chars l with [] => True | c :: _ => Chars.isspace c = false end /\
  match rev (strip_chars l) with [] => True | c :: _ => Chars.isspace c = false end.
Proof.
  unfold strip_chars. rewrite rev_involutive. split; [|apply lstrip_head].
  (* the first character of the result is the first of [lstrip l] *)
  pose proof (lstrip_head l) as H1.
  destruct (lstrip_split (rev (Str.lstrip_chars l))) as (b & Hb & Hsb).
  pose proof (lstrip_head (rev (Str.lstrip_chars l))) as H2.
  assert (E : Str.lstrip_chars l = rev (Str.lstrip_chars (rev (Str.lstrip_chars l))) ++ rev b).
  { rewrite <- rev_app_distr, <- Hb. by rewrite rev_involutive. }
  destruct (rev (Str.lstrip_chars (rev (Str.lstrip_chars l)))) as [|c t] eqn:Et; [exact I|].
  rewrite E in H1. exact H1.
Qed.

(** [strip] is idempotent. *)
Lemma strip_chars_idem (l : list ascii) : strip_chars (strip_chars l) = strip_chars l.
Proof.
  destruct (strip_ends l) as [H1 H2].
  unfold strip_chars at 1. rewrite (lstrip_id _ H1), (lstrip_id _ H2).
  apply rev_involutive.
Qed.

Lemma strip_idem (s : string) : Str.strip (Str.strip s) = Str.strip s.
Proof.
  unfold Str.strip at 1. rewrite chars_strip.
  fold (strip_chars (strip_chars (Str.chars s))).
  by rewrite strip_chars_idem.
Qed.

Lemma lstrip_all_space (l : list ascii) :
  Forall (fun c => Chars.isspace c = true) l -> Str.lstrip_chars l = [].
Proof. induction 1 as [|c l Hc _ IH]; simpl; [reflexivity|]. by rewrite Hc. Qed.

(** [strip] gives the empty string exactly on strings of whitespace. *)
Lemma strip_chars_nil (l : list ascii) :
  strip_chars l = [] <-> Forall (fun c => Chars.isspace c = true) l.
Proof.
  split.
  - intros H. destruct (strip_split l) as (a & b & Hl & Ha & Hb).
    rewrite H in Hl. rewrite Hl. simpl. by apply Forall_app.
  - intros H. unfold strip_chars. by rewrite (lstrip_all_space _ H).
Qed.

Lemma nonempty_chars (s : string) : Str.nonempty s = false <-> Str.chars s = [].
Proof. destruct s; simpl; split; (reflexivity || discriminate). Qed.

Lemma strip_blank (s : string) :
  Str.nonempty (Str.strip s) = false <->
  Forall (fun c => Chars.isspace c = true) (Str.chars s).
Proof. by rewrite nonempty_chars, chars_strip, strip_chars_nil. Qed.

(** Counting characters that are not whitespace is not affected by [strip]. *)
Lemma count_strip (f : ascii -> bool) (l : list ascii) :
  (forall c, f c = true -> Chars.isspace c = false) ->
  Re.count f (strip_chars l) = Re.count f l.
Proof.
  intros Hf. destruct (strip_split l) as (a & b & Hl & Ha & Hb).
  assert (Hz : forall ws, Forall (fun c => Chars.isspace c = true) ws -> Re.count f ws = 0).
  { intros ws Hws. unfold Re.count. induction Hws as [|c ws Hc _ IH]; simpl; [reflexivity|].
    destruct (f c) eqn:E; [|exact IH]. apply Hf in E. congruence. }
  rewrite Hl at 2. unfold Re.count in *. rewrite !List.filter_app, !length_app.
  rewrite (Hz a Ha), (Hz b Hb). lia.
Qed.

End StrFacts.

(* ===================================================================== *)
(** * Further properties of the Reference String Parser *)
(* ===================================================================== *)

Module SearchFacts.
Import Re Notions ReFacts StrFacts.

Lemma consumed_app (m rest : list ascii) : consumed (m ++ rest) rest = m.
Proof.
  unfold consumed. rewrite length_app.
  replace (length m + length rest - length rest) with (length m) by lia.
  by rewrite take_app_length.
Qed.

Lemma match_here_consumed f r prev s rest :
  match_here r prev s = Some rest ->
  s = consumed s rest ++ rest /\
  Forall (fun x => cls_mem (alphabet r) x = true) (consumed s rest) /\
  min_count f r <= count f (consumed s rest).
Proof.
  intros E. apply (match_here_prefix f) in E as (m & -> & Hall & Hc).
  rewrite consumed_app. auto.
Qed.

(** A match found by [search_from] is a piece of the text made of the
    pattern's characters, with at least [min_count f r] characters
    satisfying [f]. *)
Lemma search_from_some f r prev s i m :
  search_from r prev s = Some (i, m) ->
  exists a b, s = a ++ m ++ b /\ length a = i /\
    Forall (fun x => cls_mem (alphabet r) x = true) m /\ min_count f r <= count f m.
Proof.
  revert prev i. induction s as [|c s IH]; intros prev i H; simpl in H.
  - destruct (match_here r prev []) as [rest|] eqn:E; [|discriminate].
    injection H as <- <-.
    apply (match_here_consumed f) in E as (Hs & Hall & Hc).
    exists [], rest. auto.
  - destruct (match_here r prev (c :: s)) as [rest|] eqn:E.
    + injection H as <- <-.
      apply (match_here_consumed f) in E as (Hs & Hall & Hc).
      exists [], rest. auto.
    + destruct (search_from r (Some c) s) as [[j m']|] eqn:E'; [|discriminate].
      injection H as <- <-.
      apply IH in E' as (a & b & -> & <- & Hall & Hc).
      exists (c :: a), b. auto.
Qed.

Lemma search_some f r s m :
  search r s = Some m ->
  exists a b, Str.chars s = a ++ Str.chars m ++ b /\
    Forall (fun x => cls_mem (alphabet r) x = true) (Str.chars m) /\
    min_count f r <= count f (Str.chars m).
Proof.
  unfold search. destruct (search_from r None (Str.chars s)) as [[i m']|] eqn:E; [|discriminate].
  intros H. injection H as <-.
  apply (search_from_some f) in E as (a & b & Hs & _ & Hall & Hc).
  exists a, b. by rewrite chars_of_chars.
Qed.

Lemma search_none f r s :
  Re.count f (Str.chars s) < min_count f r -> search r s = None.
Proof.
  intros H. unfold search. rewrite (search_from_none f); [reflexivity|].
  intros a m b Hs _ Hc. rewrite Hs in H. pose proof (count_piece f a m b). lia.
Qed.

End SearchFacts.

Module ParserFieldFacts.
Import Re Parser Notions ReFacts ParserFacts StrFacts SearchFacts.

Lemma email_needs_at : min_count is_at email_pattern = 1.
Proof. vm_compute. reflexivity. Qed.

Lemma email_min_length : min_count (fun _ => true) email_pattern = 6.
Proof. vm_compute. reflexivity. Qed.

Lemma phone_needs_digits : min_count Chars.isdecimal phone_pattern = 10.
Proof. vm_compute. reflexivity. Qed.

Lemma email_no_space :
  forallb (fun x => implb (cls_mem (alphabet email_pattern) x) (negb (Chars.isspace x)))
          all_chars = true.
Proof. vm_compute. reflexivity. Qed.

Lemma count_pos_In f (l : list ascii) : 0 < count f l -> exists c, In c l /\ f c = true.
Proof.
  unfold count. induction l as [|c l IH]; simpl; [lia|].
  destruct (f c) eqn:E.
  - intros _. exists c. auto.
  - intros H. destruct (IH H) as (d & Hd & Hf). exists d. auto.
Qed.

Lemma count_true (l : list ascii) : count (fun _ => true) l = length l.
Proof. apply count_all. by apply Forall_forall. Qed.


Lemma has_char_append c a b :
  Str.has_char c (a +:+ b) = Str.has_char c a || Str.has_char c b.
Proof.
  induction a as [|d a IH]; simpl; [reflexivity|]. by rewrite IH, orb_assoc.
Qed.

Lemma has_char_join c sep l :
  Str.has_char c sep = false ->
  Forall (fun x => Str.has_char c x = false) l ->
  Str.has_char c (Str.join sep l) = false.
Proof.
  intros Hsep. induction 1 as [|x l Hx Hl IH]; [reflexivity|].
  destruct l as [|y l]; [exact Hx|].
  change (Str.join sep (x :: y :: l)) with (x +:+ sep +:+ Str.join sep (y :: l)).
  by rewrite !has_char_append, Hx, Hsep, IH.
Qed.

Lemma name_cleanup_no_at (name : string) :
  Str.has_char "@"
    (if Str.has_char "@" name
     then Str.strip (Str.join " "
            (List.filter (fun part => negb (Str.has_char "@" part)) (Str.words name)))
     else name) = false.
Proof.
  destruct (Str.has_char "@" name) eqn:E; [|exact E].
  apply has_char_strip, has_char_join; [reflexivity|].
  apply List.Forall_forall. intros x Hx. apply List.filter_In in Hx as [_ Hx].
  by apply negb_true_iff in Hx.
Qed.

Lemma extract_fields_shape (line : string) :
  exists n c rel,
    snd (extract_fields line)
    = Ok (n, default "" (email_found line),
          default "" (Str.strip <$> phone_found line), c, rel) /\
    fst (extract_fields line) = text_without_phone line /\
    Str.has_char "@" n = false.
Proof.
  unfold extract_fields, text_without_phone, phone_found, text_without_email, email_found.
  cbv zeta.
  match goal with
  | |- context [split_parts separators ?t] =>
      generalize (split_parts separators t); set (text := t)
  end.
  intros parts. simpl snd. simpl fst.
  set (parts' := match parts with [] => [text] | _ => parts end).
  assert (Hne : exists p ps, parts' = p :: ps).
  { subst parts'. destruct parts; eauto. }
  destruct Hne as (p & ps & ->).
  rewrite getitem_0, bind_Ok.
  destruct (Str.has_char "," p) eqn:Hc.
  - destruct (split1_of_has _ _ [] Hc) as (a & b & Hs).
    unfold Str.split1. rewrite Hs.
    rewrite getitem_0, getitem_1, !fmap_Ok, !bind_Ok.
    match goal with |- context [fold_left ?f ?l ?x] => destruct (fold_left f l x) end.
    eexists _, _, _. split; [reflexivity|]. split; [reflexivity|].
    apply name_cleanup_no_at.
  - rewrite bind_Ok.
    match goal with |- context [fold_left ?f ?l ?x] => destruct (fold_left f l x) end.
    eexists _, _, _. split; [reflexivity|]. split; [reflexivity|].
    apply name_cleanup_no_at.
Qed.

Lemma parse_shape (line : string) :
  exists n c rel,
    parse_reference_data line
    = mkReference (if Str.nonempty n then n else sentinel)
        (default "" (email_found line))
        (default "" (Str.strip <$> phone_found line)) c rel /\
    Str.has_char "@" n = false.
Proof.
  destruct (extract_fields_shape line) as (n & c & rel & Hs & _ & Hn).
  exists n, c, rel. split; [|exact Hn].
  unfold parse_reference_data, try_body.
  destruct (extract_fields line) as [text fields]. simpl in Hs. subst fields.
  reflexivity.
Qed.

(** X1: for every input line, the name of the reference that
    parse_reference_data returns contains no '@' character. *)
Theorem name_has_no_at (line : string) :
  Str.has_char "@" (name (parse_reference_data line)) = false.
Proof.
  destruct (parse_shape line) as (n & c & rel & -> & Hn). simpl.
  destruct (Str.nonempty n); [exact Hn | reflexivity].
Qed.

Lemma prefix_cons c a d s :
  String.prefix (String c a) (String d s) = (Ascii.eqb c d && String.prefix a s).
Proof.
  simpl. destruct (Ascii.ascii_dec c d) as [->|Hn].
  - by rewrite Ascii.eqb_refl.
  - apply Ascii.eqb_neq in Hn. by rewrite Hn.
Qed.

Lemma prefix_chars (a s : string) :
  String.prefix a s = true <-> exists b, Str.chars s = Str.chars a ++ b.
Proof.
  revert s. induction a as [|c a IH]; intros s.
  - split; [intros _; by exists (Str.chars s) | by destruct s].
  - destruct s as [|d s]; [split; [discriminate | intros (b & Hb); discriminate]|].
    rewrite prefix_cons, andb_true_iff, Ascii.eqb_eq, IH. unfold Str.chars. simpl. split.
    + intros (-> & b & Hb). exists b. by rewrite Hb.
    + intros (b & Hb). injection Hb as -> Hb. split; [reflexivity | by exists b].
Qed.

Lemma contains_chars (m s : string) :
  Str.contains m s = true <-> exists a b, Str.chars s = a ++ Str.chars m ++ b.
Proof.
  induction s as [|d s IH].
  - change (Str.contains m "") with (String.prefix m "" || false).
    rewrite orb_false_r, prefix_chars. split.
    + intros (b & Hb). by exists [], b.
    + intros (a & b & Hb). destruct a; [by exists b|discriminate].
  - change (Str.contains m (String d s))
      with (String.prefix m (String d s) || Str.contains m s).
    rewrite orb_true_iff, prefix_chars, IH. split.
    + intros [(b & Hb)|(a & b & Hb)]; [by exists [], b|].
      exists (d :: a), b. unfold Str.chars in *. simpl. by rewrite Hb.
    + intros (a & b & Hb). destruct a as [|x a].
      * left. by exists b.
      * right. exists a, b. unfold Str.chars in *. simpl in Hb. by injection Hb.
Qed.


Lemma decimal_not_space (x : ascii) : Chars.isdecimal x = true -> Chars.isspace x = false.
Proof. destruct x as [[] [] [] [] [] [] [] []]; vm_compute; congruence. Qed.

(** X2: for every input line, the email returned by parse_reference_data is
    empty or is a substring of the line with an '@', no whitespace and at
    least six characters; the phone_number is empty or holds at least ten
    decimal digits. *)
Theorem email_and_phone_shape (line : string) :
  (email (parse_reference_data line) = "" \/
   (Str.has_char "@" (email (parse_reference_data line)) = true /\
    Str.any_char Chars.isspace (email (parse_reference_data line)) = false /\
    6 <= String.length (email (parse_reference_data line)) /\
    Str.contains (email (parse_reference_data line)) line = true)) /\
  (phone_number (parse_reference_data line) = "" \/
   10 <= count Chars.isdecimal (Str.chars (phone_number (parse_reference_data line)))).
Proof.
  destruct (parse_shape line) as (n & c & rel & -> & _). simpl. split.
  - unfold email_found. destruct (search email_pattern (Str.strip line)) as [m|] eqn:E;
      [right | by left]. simpl.
    pose proof (search_some is_at _ _ _ E) as (a & b & Hs & Hal & Hat).
    pose proof (search_some (fun _ => true) _ _ _ E) as (_ & _ & _ & _ & Hlen).
    rewrite email_needs_at in Hat. rewrite email_min_length, count_true, FallbackFacts.length_chars in Hlen.
    split; [|split; [|split; [exact Hlen|]]].
    + apply has_char_In. destruct (count_pos_In is_at (Str.chars m)) as (x & Hx & Hf); [lia|].
      unfold is_at in Hf. apply Ascii.eqb_eq in Hf. by subst x.
    + apply not_true_is_false. intros K. apply any_char_In in K as (x & Hx & Hsp).
      rewrite List.Forall_forall in Hal. specialize (Hal x Hx).
      pose proof email_no_space as Hns. rewrite forallb_forall in Hns.
      specialize (Hns x (all_chars_complete x)). by rewrite Hal, Hsp in Hns.
    + apply contains_chars. rewrite chars_strip in Hs.
      destruct (strip_split (Str.chars line)) as (a' & b' & Hl & _).
      exists (a' ++ a), (b ++ b'). rewrite Hl at 1. rewrite Hs. by rewrite <- !app_assoc.
  - unfold phone_found. destruct (search phone_pattern (text_without_email line)) as [m|] eqn:E;
      [right | by left]. simpl.
    pose proof (search_some Chars.isdecimal _ _ _ E) as (a & b & Hs & _ & Hd).
    rewrite phone_needs_digits in Hd. rewrite chars_strip, count_strip; [exact Hd|].
    exact decimal_not_space.
Qed.


Lemma count_zero_not_In f (l : list ascii) :
  (forall c, In c l -> f c = false) -> count f l = 0.
Proof.
  unfold count. induction l as [|c l IH]; simpl; [reflexivity|]. intros H.
  rewrite (H c) by auto. apply IH. intros d Hd. apply H. auto.
Qed.

Lemma split_parts_none (seps : list ascii) (text : string) :
  forallb (fun c => negb (Str.has_char c text)) seps = true ->
  split_parts seps text = [].
Proof.
  induction seps as [|c seps IH]; simpl; [reflexivity|].
  rewrite andb_true_iff, negb_true_iff. intros [-> H]. by apply IH.
Qed.

(** X3: a line with no '@', fewer than ten decimal digits and none of the
    separators | , ; - is taken whole as the name: parse_reference_data
    returns the stripped line as name ("Unknown Reference" if the line is
    blank) and empty email, phone_number, company and relationship. *)
Theorem plain_line_is_the_name (line : string) :
  Str.has_char "@" line = false ->
  count Chars.isdecimal (Str.chars line) < 10 ->
  forallb (fun c => negb (Str.has_char c line)) separators = true ->
  parse_reference_data line
  = mkReference (if Str.nonempty (Str.strip line) then Str.strip line else sentinel)
                "" "" "" "".
Proof.
  intros Hat Hdig Hsep.
  assert (He : search email_pattern (Str.strip line) = None).
  { apply (search_none is_at). rewrite email_needs_at, chars_strip.
    rewrite count_zero_not_In; [lia|]. intros c Hc. apply strip_chars_In in Hc.
    unfold is_at. apply Ascii.eqb_neq. intros ->.
    apply has_char_false in Hat. by apply Hat. }
  assert (Hp : search phone_pattern (Str.strip line) = None).
  { apply (search_none Chars.isdecimal). rewrite phone_needs_digits, chars_strip.
    rewrite count_strip; [exact Hdig | exact decimal_not_space]. }
  assert (Hs : split_parts separators (Str.strip line) = []).
  { apply split_parts_none. rewrite forallb_forall in *. intros c Hc.
    specialize (Hsep c Hc). rewrite negb_true_iff in *. by apply has_char_strip. }
  assert (Hcomma : Str.has_char "," (Str.strip line) = false).
  { apply has_char_strip. rewrite forallb_forall in Hsep.
    specialize (Hsep ","%char). rewrite negb_true_iff in Hsep. apply Hsep. simpl. auto. }
  unfold parse_reference_data, try_body, extract_fields. cbv zeta.
  rewrite He. cbn [default from_option id]. rewrite Hp. cbn [fmap option_fmap option_map default from_option id].
  rewrite Hs, getitem_0, bind_Ok, Hcomma, bind_Ok. cbn [drop fold_left].
  rewrite (has_char_strip _ _ Hat), bind_Ok. reflexivity.
Qed.

Lemma plain_line_is_the_name_witness :
  parse_reference_data "  Dr Maria Lopez "
  = mkReference "Dr Maria Lopez" "" "" "" "".
Proof.
  exact (plain_line_is_the_name "  Dr Maria Lopez " eq_refl
           ltac:(vm_compute; lia) eq_refl).
Defined.

Lemma lstrip_app (l b : list ascii) :
  Str.lstrip_chars (l ++ b)
  = match Str.lstrip_chars l with [] => Str.lstrip_chars b | _ => Str.lstrip_chars l ++ b end.
Proof.
  induction l as [|c l IH]; simpl; [by destruct (Str.lstrip_chars b)|].
  destruct (Chars.isspace c); [exact IH | reflexivity].
Qed.

Lemma strip_chars_pad (a l b : list ascii) :
  Forall (fun c => Chars.isspace c = true) a ->
  Forall (fun c => Chars.isspace c = true) b ->
  strip_chars (a ++ l ++ b) = strip_chars l.
Proof.
  intros Ha Hb. unfold strip_chars. f_equal.
  rewrite lstrip_app, (lstrip_all_space a Ha), lstrip_app.
  destruct (Str.lstrip_chars l) as [|x t] eqn:E.
  - by rewrite (lstrip_all_space b Hb).
  - rewrite rev_app_distr, lstrip_app.
    rewrite (lstrip_all_space (rev b)) by (by apply Forall_rev).
    reflexivity.
Qed.

Lemma strip_pad (a s b : string) :
  forallb Chars.isspace (Str.chars a) = true ->
  forallb Chars.isspace (Str.chars b) = true ->
  Str.strip (a +:+ s +:+ b) = Str.strip s.
Proof.
  intros Ha Hb. unfold Str.strip.
  rewrite !FallbackFacts.chars_app.
  fold (strip_chars (Str.chars a ++ Str.chars s ++ Str.chars b)).
  fold (strip_chars (Str.chars s)).
  rewrite strip_chars_pad; [reflexivity| |]; apply List.Forall_forall; by apply forallb_forall.
Qed.

(** X4: whitespace before and after a line never changes the result of
    parse_reference_data, also when the except handler builds the result. *)
Theorem surrounding_whitespace_ignored (a line b : string) :
  forallb Chars.isspace (Str.chars a) = true ->
  forallb Chars.isspace (Str.chars b) = true ->
  parse_reference_data (a +:+ line +:+ b) = parse_reference_data line.
Proof.
  intros Ha Hb. unfold parse_reference_data, try_body, extract_fields. cbv zeta.
  by rewrite (strip_pad a line b Ha Hb).
Qed.

Lemma surrounding_whitespace_ignored_witness :
  parse_reference_data ("  " +:+ Scenario.jane_line +:+ Str.nl)
  = parse_reference_data Scenario.jane_line.
Proof.
  exact (surrounding_whitespace_ignored "  " Scenario.jane_line Str.nl eq_refl eq_refl).
Defined.

End ParserFieldFacts.

(* ===================================================================== *)
(** * Further properties of the validation pass *)
(* ===================================================================== *)

Module ValidationPassFacts.
Import Py Parser Validation Notions ParserFacts ValidationFacts Scenario ApiScenario.

Lemma validate_loop_raise (refs : list val) (acc : list reference) :
  existsb not_a_line refs = true ->
  validate_loop refs acc = Raise "object has no attribute 'strip'".
Proof.
  revert acc. induction refs as [|ref refs IH]; intros acc; simpl; [discriminate|].
  unfold not_a_line at 1. rewrite orb_true_iff, andb_true_iff, negb_true_iff.
  intros H. destruct (truthy ref) eqn:Ht; simpl.
  - destruct ref; try reflexivity.
    destruct H as [[_ H]|H]; [discriminate|].
    destruct (negb _); [by apply IH|]. destruct (has_valid_name _); by apply IH.
  - destruct H as [[H _]|H]; [discriminate | by apply IH].
Qed.


Lemma validation_raises (result : gmap string val) (refs : list val) :
  result !! "references" = Some (VList refs) ->
  existsb not_a_line refs = true ->
  validate_extracted_data result = Raise "object has no attribute 'strip'".
Proof.
  intros Href Hex.
  assert (Hne : result <> ∅).
  { intros ->. rewrite lookup_empty in Href. discriminate. }
  unfold validate_extracted_data.
  destruct (decide (result = ∅)); [contradiction|]. rewrite Href.
  change (default (VList []) (Some ?v)) with v.
  destruct refs as [|ref refs]; [discriminate|].
  change (negb (truthy (VList (ref :: refs)))) with false. cbv iota.
  change (iter (VList ?l)) with (Ok l). rewrite bind_Ok.
  by rewrite (validate_loop_raise _ _ Hex).
Qed.



Lemma sum_ones_bounds p refs : (0 <= sum_ones p refs <= Z.of_nat (length refs))%Z.
Proof. induction refs as [|r refs IH]; simpl; [lia|]. destruct (p r); lia. Qed.

Lemma sum_ones_or p q refs :
  (sum_ones p refs <= sum_ones (fun r => p r || q r) refs /\
   sum_ones q refs <= sum_ones (fun r => p r || q r) refs /\
   sum_ones (fun r => p r || q r) refs <= sum_ones p refs + sum_ones q refs)%Z.
Proof.
  induction refs as [|r refs IH]; simpl; [lia|]. destruct (p r), (q r); simpl; lia.
Qed.

(** X6: whenever validate_extracted_data returns for a non-empty result, its
    validation_summary holds, under the keys total_references, with_email,
    with_phone and missing_info, the length of validated_references and the
    numbers of its entries with a non-empty email, with a non-empty
    phone_number, and with neither; every count lies between 0 and
    total_references, and total_references - missing_info is at least each of
    with_email and with_phone and at most their sum. *)
Theorem summary_is_consistent (result r : gmap string val) :
  result <> ∅ ->
  validate_extracted_data result = Ok r ->
  exists valid total with_email with_phone missing_info,
    r !! "validated_references"
    = Some (VList (map (fun v => VDict [ ("name", VStr (name v));
                                         ("email", VStr (email v));
                                         ("phone_number", VStr (phone_number v));
                                         ("company", VStr (company v));
                                         ("relationship", VStr (relationship v)) ])
                       valid)) /\
    r !! "validation_summary"
    = Some (VDict [ ("total_references", VInt total); ("with_email", VInt with_email);
                    ("with_phone", VInt with_phone); ("missing_info", VInt missing_info) ]) /\
    (total = Z.of_nat (length valid) /\
     with_email = count_if (fun v => Str.nonempty (email v)) valid /\
     with_phone = count_if (fun v => Str.nonempty (phone_number v)) valid /\
     missing_info
     = total - count_if (fun v => Str.nonempty (email v) || Str.nonempty (phone_number v))
                        valid /\
     0 <= with_email <= total /\ 0 <= with_phone <= total /\
     0 <= missing_info <= total /\
     with_email <= total - missing_info /\ with_phone <= total - missing_info /\
     total - missing_info <= with_email + with_phone)%Z.
Proof.
  intros Hne. unfold validate_extracted_data.
  destruct (decide (result = ∅)); [contradiction|].
  destruct (negb (truthy _)).
  - intros [= <-]. exists [], 0%Z, 0%Z, 0%Z, 0%Z.
    split; [by simplify_map_eq|]. split; [by simplify_map_eq|].
    unfold count_if. simpl. lia.
  - destruct (iter _) as [refs|e]; [|discriminate]. rewrite bind_Ok.
    destruct (validate_loop refs []) as [valid|e]; [|discriminate]. rewrite bind_Ok.
    intros [= <-]. eexists valid, _, _, _, _.
    split; [by simplify_map_eq|]. split; [by simplify_map_eq|].
    pose proof (sum_ones_bounds (fun ref => Str.nonempty (email ref)) valid).
    pose proof (sum_ones_bounds (fun ref => Str.nonempty (phone_number ref)) valid).
    pose proof (sum_ones_bounds
      (fun ref => Str.nonempty (email ref) || Str.nonempty (phone_number ref)) valid).
    pose proof (sum_ones_or (fun ref => Str.nonempty (email ref))
                            (fun ref => Str.nonempty (phone_number ref)) valid).
    rewrite <- !sum_ones_count.
    cbv beta in *. repeat (split; [reflexivity || lia|]). lia.
Qed.

Lemma summary_is_consistent_witness :
  two_lines <> ∅ /\
  validate_extracted_data two_lines = Ok two_lines_validated /\
  exists valid total with_email with_phone missing_info,
    two_lines_validated !! "validated_references"
    = Some (VList (map (fun v => VDict [ ("name", VStr (name v));
                                         ("email", VStr (email v));
                                         ("phone_number", VStr (phone_number v));
                                         ("company", VStr (company v));
                                         ("relationship", VStr (relationship v)) ])
                       valid)) /\
    two_lines_validated !! "validation_summary"
    = Some (VDict [ ("total_references", VInt total); ("with_email", VInt with_email);
                    ("with_phone", VInt with_phone); ("missing_info", VInt missing_info) ]) /\
    (total = Z.of_nat (length valid) /\
     with_email = count_if (fun v => Str.nonempty (email v)) valid /\
     with_phone = count_if (fun v => Str.nonempty (phone_number v)) valid /\
     missing_info
     = total - count_if (fun v => Str.nonempty (email v) || Str.nonempty (phone_number v))
                        valid /\
     0 <= with_email <= total /\ 0 <= with_phone <= total /\
     0 <= missing_info <= total /\
     with_email <= total - missing_info /\ with_phone <= total - missing_info /\
     total - missing_info <= with_email + with_phone)%Z.
Proof.
  assert (Hne : two_lines <> ∅) by (vm_compute; discriminate).
  assert (E : validate_extracted_data two_lines = Ok two_lines_validated)
    by (vm_compute; reflexivity).
  split; [exact Hne|]. split; [exact E|].
  exact (summary_is_consistent two_lines two_lines_validated Hne E).
Defined.

(** X7: for a non-empty result, validate_extracted_data changes no key other
    than validated_references and validation_summary, and applying it again to
    its own output returns that output unchanged. *)
Theorem validation_is_idempotent (result r : gmap string val) :
  result <> ∅ ->
  validate_extracted_data result = Ok r ->
  (forall k, k <> "validated_references" -> k <> "validation_summary" ->
     r !! k = result !! k) /\
  validate_extracted_data r = Ok r.
Proof.
  intros Hne H.
  assert (Hform : exists a b,
            r = <["validation_summary" := a]> (<["validated_references" := b]> result) /\
            forall result', result' <> ∅ ->
              result' !! "references" = result !! "references" ->
              validate_extracted_data result'
              = Ok (<["validation_summary" := a]> (<["validated_references" := b]> result'))).
  { revert H. unfold validate_extracted_data.
    destruct (decide (result = ∅)); [contradiction|].
    destruct (negb (truthy _)) eqn:Ht.
    - intros [= <-]. eexists _, _. split; [reflexivity|]. intros r' Hr' Heq.
      destruct (decide (r' = ∅)); [contradiction|]. by rewrite Heq, Ht.
    - destruct (iter _) as [refs|e] eqn:Hi; [|discriminate]. rewrite bind_Ok.
      destruct (validate_loop refs []) as [valid|e] eqn:Hv; [|discriminate]. rewrite bind_Ok.
      intros [= <-]. eexists _, _. split; [reflexivity|]. intros r' Hr' Heq.
      destruct (decide (r' = ∅)); [contradiction|]. rewrite Heq, Ht, Hi, bind_Ok, Hv, bind_Ok.
      reflexivity. }
  destruct Hform as (a & b & -> & Hagain). split.
  - intros k H1 H2. by rewrite !lookup_insert_ne.
  - rewrite Hagain.
    + f_equal. apply map_eq. intros k.
      destruct (decide (k = "validation_summary")) as [->|]; [by simplify_map_eq|].
      destruct (decide (k = "validated_references")) as [->|]; by simplify_map_eq.
    + intros K. apply (f_equal (fun m => m !! "validation_summary")) in K.
      rewrite lookup_insert_eq, lookup_empty in K. discriminate.
    + by rewrite !lookup_insert_ne.
Qed.

Lemma validation_is_idempotent_witness :
  two_lines <> ∅ /\
  validate_extracted_data two_lines = Ok two_lines_validated /\
  validate_extracted_data two_lines_validated = Ok two_lines_validated.
Proof.
  assert (Hne : two_lines <> ∅) by (vm_compute; discriminate).
  assert (E : validate_extracted_data two_lines = Ok two_lines_validated)
    by (vm_compute; reflexivity).
  split; [exact Hne|]. split; [exact E|].
  exact (proj2 (validation_is_idempotent two_lines two_lines_validated Hne E)).
Defined.

End ValidationPassFacts.

(* ===================================================================== *)
(** * The text between two delimiters *)
(* ===================================================================== *)

Module SpanFacts.
Import Notions StrFacts.

Lemma chars_cons c s : Str.chars (String c s) = c :: Str.chars s.
Proof. reflexivity. Qed.

Lemma find_go_spec c s i :
  (Str.find_go c s i = (-1)%Z /\ ~ In c (Str.chars s)) \/
  (exists a b, Str.chars s = a ++ c :: b /\ ~ In c a /\
               Str.find_go c s i = (i + Z.of_nat (length a))%Z).
Proof.
  revert i. induction s as [|d s IH]; intros i; cbn [Str.find_go].
  - left. split; [reflexivity | intros []].
  - destruct (Ascii.eqb d c) eqn:E.
    + apply Ascii.eqb_eq in E as ->. right. exists [], (Str.chars s).
      split; [reflexivity|]. split; [intros [] | simpl; lia].
    + apply Ascii.eqb_neq in E. destruct (IH (i + 1)%Z) as [[H1 H2]|(a & b & H1 & H2 & H3)].
      * left. split; [exact H1|]. rewrite chars_cons. intros [K|K]; [by apply E | by apply H2].
      * right. exists (d :: a), b. rewrite chars_cons, H1. split; [reflexivity|].
        split; [intros [K|K]; [by apply E | by apply H2]|]. rewrite H3. simpl length. lia.
Qed.

Lemma rfind_go_spec c s i last :
  (Str.rfind_go c s i last = last /\ ~ In c (Str.chars s)) \/
  (exists a b, Str.chars s = a ++ c :: b /\ ~ In c b /\
               Str.rfind_go c s i last = (i + Z.of_nat (length a))%Z).
Proof.
  revert i last. induction s as [|d s IH]; intros i last; cbn [Str.rfind_go].
  - left. split; [reflexivity | intros []].
  - destruct (IH (i + 1)%Z (if Ascii.eqb d c then i else last))
      as [[H1 H2]|(a & b & H1 & H2 & H3)].
    + destruct (Ascii.eqb d c) eqn:E.
      * apply Ascii.eqb_eq in E as ->. right. exists [], (Str.chars s).
        split; [reflexivity|]. split; [exact H2 | rewrite H1; simpl; lia].
      * apply Ascii.eqb_neq in E. left. split; [exact H1|]. rewrite chars_cons.
        intros [K|K]; [by apply E | by apply H2].
    + right. exists (d :: a), b. rewrite chars_cons, H1. split; [reflexivity|].
      split; [exact H2|]. rewrite H3. simpl length. lia.
Qed.

Lemma substring_chars (a m b : list ascii) :
  substring (length a) (length m) (Str.of_chars (a ++ m ++ b)) = Str.of_chars m.
Proof.
  induction a as [|x a IH]; simpl.
  - induction m as [|y m IHm]; simpl; [by destruct b|]. by rewrite IHm.
  - exact IH.
Qed.

(** The text between the first [c] and the last [d] of a string, both
    included, as the program cuts it out: [s[s.find(c) : s.rfind(d) + 1]]. *)
Lemma span_spec (c d : ascii) (s : string) :
  c <> d ->
  (0 <=? Str.find c s)%Z && (Str.find c s <? Str.rfind d s + 1)%Z = true ->
  exists a mid b,
    Str.chars s = a ++ [c] ++ mid ++ [d] ++ b /\
    ~ In c a /\ ~ In d b /\
    Str.slice (Str.find c s) (Str.rfind d s + 1) s = Str.of_chars ([c] ++ mid ++ [d]).
Proof.
  intros Hcd. rewrite andb_true_iff, Z.leb_le, Z.ltb_lt. intros [H0 Hlt].
  unfold Str.find, Str.rfind in *.
  destruct (find_go_spec c s 0) as [[H1 _]|(a & b & Ha & Hna & Hf)]; [lia|].
  destruct (rfind_go_spec d s 0 (-1)) as [[H1 _]|(a' & b' & Ha' & Hnb & Hr)]; [lia|].
  rewrite Hf, Hr in *.
  assert (Hlen : length a <= length a') by lia.
  assert (Hsplit : exists mid, a' = a ++ c :: mid).
  { pose proof Ha as E. rewrite Ha' in E. symmetry in E.
    apply List.app_eq_app in E as (l & [[E1 E2]|[E1 E2]]).
    - subst a. rewrite length_app in Hlen. destruct l as [|x l]; [|simpl in Hlen; lia].
      simpl in E2. injection E2 as E2 _. by destruct Hcd.
    - destruct l as [|x l].
      + simpl in E2. injection E2 as E2 _. by destruct Hcd.
      + simpl in E2. injection E2 as <- E2. by exists l. }
  destruct Hsplit as (mid & ->).
  exists a, mid, b'. split; [by rewrite Ha', <- app_assoc|]. split; [exact Hna|].
  split; [exact Hnb|].
  unfold Str.slice. rewrite <- (of_chars_chars s), Ha', <- app_assoc.
  replace (Z.to_nat (0 + Z.of_nat (length a))) with (length a) by lia.
  replace (Z.to_nat (0 + Z.of_nat (length (a ++ c :: mid)) + 1 - (0 + Z.of_nat (length a))))
    with (length ([c] ++ mid ++ [d])).
  2:{ rewrite ?length_app; simpl; rewrite ?length_app; simpl; lia. }
  change ((c :: mid) ++ d :: b') with (([c] ++ mid) ++ [d] ++ b').
  rewrite (app_assoc ([c] ++ mid) [d] b'), <- (app_assoc [c] mid [d]).
  apply substring_chars.
Qed.

End SpanFacts.

(* ===================================================================== *)
(** * Further properties of the pipeline orchestrator *)
(* ===================================================================== *)

Module RunFacts.
Import Py Workflow Notions Scenario ApiScenario ParserFacts WorkflowFacts StrFacts SpanFacts.

(** X8: whatever _extract_applicant_info_direct returns other than the
    all-"Unknown" default is what json.loads produced for the piece of the
    stripped LLM answer that runs from its first '{' to its last '}'. *)
Theorem applicant_json_span (w : world) (text : string) :
  _extract_applicant_info_direct w text = default_applicant_info \/
  exists answer a mid b,
    llm_applicant w (limited_text text) = Ok answer /\
    Str.chars (Str.strip answer) = a ++ ["{"%char] ++ mid ++ ["}"%char] ++ b /\
    ~ In "{"%char a /\ ~ In "}"%char b /\
    json_loads w (Str.of_chars (["{"%char] ++ mid ++ ["}"%char]))
    = Ok (_extract_applicant_info_direct w text).
Proof.
  unfold _extract_applicant_info_direct.
  destruct (llm_applicant w (limited_text text)) as [answer|e]; [|by left].
  rewrite fmap_Ok, bind_Ok.
  destruct ((0 <=? _)%Z && _) eqn:G; [|by left].
  destruct (span_spec "{" "}" (Str.strip answer) ltac:(discriminate) G)
    as (a & mid & b & Hs & Ha & Hb & ->).
  destruct (json_loads w _) as [v|e] eqn:J; [|by left].
  right. exists answer, a, mid, b. by rewrite J.
Qed.

(** X9: _extract_references_direct returns either no reference, or the records
    built from the elements of what json.loads produced for the piece of the
    stripped LLM answer that runs from its first '[' to its last ']'. *)
Theorem references_json_span (w : world) (text rl : string) :
  _extract_references_direct w text rl = [] \/
  exists answer a mid b parsed refs,
    llm_references w (limited_text text) rl = Ok answer /\
    Str.chars (Str.strip answer) = a ++ ["["%char] ++ mid ++ ["]"%char] ++ b /\
    ~ In "["%char a /\ ~ In "]"%char b /\
    json_loads w (Str.of_chars (["["%char] ++ mid ++ ["]"%char])) = Ok parsed /\
    iter parsed = Ok refs /\
    _extract_references_direct w text rl = validate_references refs [].
Proof.
  unfold _extract_references_direct.
  destruct (llm_references w (limited_text text) rl) as [answer|e]; [|by left].
  rewrite fmap_Ok, bind_Ok.
  destruct ((0 <=? _)%Z && _) eqn:G.
  - destruct (span_spec "[" "]" (Str.strip answer) ltac:(discriminate) G)
      as (a & mid & b & Hs & Ha & Hb & ->).
    destruct (json_loads w _) as [v|e] eqn:J; [|by left]. rewrite bind_Ok.
    destruct (iter v) as [refs|e] eqn:I; [|by left]. rewrite bind_Ok.
    right. exists answer, a, mid, b, v, refs. by rewrite J.
  - left. by destruct (existsb _ _).
Qed.

Lemma length_substring_0 (n : nat) (s : string) :
  String.length (substring 0 n s) = Nat.min n (String.length s).
Proof.
  revert n. induction s as [|c s IH]; intros [|n]; simpl; auto.
Qed.

Lemma length_append (a b : string) :
  String.length (a +:+ b) = String.length a + String.length b.
Proof. induction a as [|c a IH]; simpl; auto. Qed.

Lemma substring_0_append (n : nat) (a b : string) :
  n <= String.length a -> substring 0 n (a +:+ b) = substring 0 n a.
Proof.
  revert n. induction a as [|c a IH]; intros [|n]; simpl; intros H; try lia.
  - by destruct b.
  - reflexivity.
  - by rewrite IH by lia.
Qed.

Lemma substring_0_idem (n : nat) (s : string) :
  substring 0 n (substring 0 n s) = substring 0 n s.
Proof.
  revert n. induction s as [|c s IH]; intros [|n]; simpl; auto. by rewrite IH.
Qed.

(** X10: the resume text put into an LLM prompt is the resume text itself when
    it has at most 3000 characters and is exactly 3003 characters long
    otherwise; in both cases its first 3000 characters are those of the
    resume, so a prompt never carries more than 3003 characters of it. *)
Theorem prompt_text_is_bounded (resume_text : string) :
  String.length (limited_text resume_text) <= 3003 /\
  Str.prefix_of 3000 (limited_text resume_text) = Str.prefix_of 3000 resume_text /\
  (String.length resume_text <= 3000 -> limited_text resume_text = resume_text) /\
  (3000 < String.length resume_text -> String.length (limited_text resume_text) = 3003).
Proof.
  unfold limited_text, Str.prefix_of.
  destruct (3000 <? String.length resume_text)%nat eqn:E.
  - apply Nat.ltb_lt in E.
    assert (L : String.length (substring 0 3000 resume_text +:+ "...") = 3003).
    { rewrite length_append, length_substring_0. simpl String.length. lia. }
    split; [lia|]. split; [|split; [lia | intros _; exact L]].
    rewrite substring_0_append; [apply substring_0_idem|].
    rewrite length_substring_0. lia.
  - apply Nat.ltb_ge in E. split; [lia|]. split; [reflexivity|]. split; [reflexivity | lia].
Qed.


Lemma prompt_text_is_bounded_witness :
  (String.length page_text <= 3000 /\ limited_text page_text = page_text) /\
  (3000 < String.length long_text /\ String.length (limited_text long_text) = 3003).
Proof.
  split.
  - assert (H : String.length page_text <= 3000) by (vm_compute; lia).
    split; [exact H|].
    exact (proj1 (proj2 (proj2 (prompt_text_is_bounded page_text))) H).
  - assert (H : 3000 < String.length long_text) by (vm_compute; lia).
    split; [exact H|].
    exact (proj2 (proj2 (proj2 (prompt_text_is_bounded long_text))) H).
Defined.

(** X11: when run_workflow returns status "error" (download failure or parse
    failure), every output field still has its initial value: applicant_info
    is {}, references is [], questions is [] and vectorstore_path is "". *)
Theorem error_result_is_blank (w : world) (url rl org : string) (r : gmap string val) :
  run_workflow w url rl org = Ok r ->
  r !! "status" = Some (VStr "error") ->
  r !! "applicant_info" = Some (VDict []) /\
  r !! "references" = Some (VList []) /\
  r !! "questions" = Some (VList []) /\
  r !! "vectorstore_path" = Some (VStr "").
Proof.
  intros Hr Hst.
  destruct (run_workflow_result w url rl org) as (r' & Hr' & _ & Ha & Hrf & Hq & Hv & Hs & _).
  rewrite Hr in Hr'. injection Hr' as <-.
  rewrite Hs in Hst. injection Hst as Hst.
  rewrite Ha, Hrf, Hq, Hv.
  destruct (acquire w url) as [t|e] eqn:A.
  - destruct (split_text w t) as [chunks|e] eqn:S.
    + destruct (ainvoke_completed w url rl org t chunks A S) as (K & _).
      rewrite K in Hst. discriminate.
    + by rewrite (ainvoke_parse_failed w url rl org t e A S).
  - by rewrite (ainvoke_download_failed w url rl org e A).
Qed.

Lemma error_result_is_blank_witness :
  run_workflow world_parse_fails url nurse camden = Ok parse_failure_result /\
  parse_failure_result !! "status" = Some (VStr "error") /\
  parse_failure_result !! "applicant_info" = Some (VDict []) /\
  parse_failure_result !! "references" = Some (VList []) /\
  parse_failure_result !! "questions" = Some (VList []) /\
  parse_failure_result !! "vectorstore_path" = Some (VStr "").
Proof.
  assert (E : run_workflow world_parse_fails url nurse camden = Ok parse_failure_result)
    by (vm_compute; reflexivity).
  split; [exact E|]. split; [reflexivity|].
  exact (error_result_is_blank world_parse_fails url nurse camden parse_failure_result
           E eq_refl).
Defined.

(** X12: in every dict run_workflow returns, applicant_info is a dict and
    questions is a value with a length (a list, a string or a dict), whatever
    the LLM, json.loads and the database answered. *)
Theorem result_values_have_types (w : world) (url rl org : string) :
  exists r items q n,
    run_workflow w url rl org = Ok r /\
    r !! "applicant_info" = Some (VDict items) /\
    r !! "questions" = Some q /\ Py.len q = Ok n.
Proof.
  destruct (run_workflow_result w url rl org) as (r & Hr & _ & Ha & _ & Hq & _).
  assert (H : (exists items, applicant_info (ainvoke w (initial_state url rl org)) = VDict items) /\
              (exists n, Py.len (questions (ainvoke w (initial_state url rl org))) = Ok n)).
  { destruct (acquire w url) as [t|e] eqn:A.
    - destruct (split_text w t) as [chunks|e] eqn:S.
      + destruct (ainvoke_completed w url rl org t chunks A S) as (_ & _ & _ & -> & ->).
        cbv zeta. split.
        * destruct (_extract_applicant_info_direct w t); simpl; eauto.
        * destruct (Py.len (Questions.get_questions w rl org)) as [n|e] eqn:L; simpl; eauto.
      + rewrite (ainvoke_parse_failed w url rl org t e A S). simpl. eauto.
    - rewrite (ainvoke_download_failed w url rl org e A). simpl. eauto. }
  destruct H as ((items & Hi) & (n & Hn)).
  exists r, items, (questions (ainvoke w (initial_state url rl org))), n.
  rewrite Ha, Hi. auto.
Qed.

Lemma strip_nonempty_head (c : ascii) (s : string) :
  Chars.isspace c = false -> Str.nonempty (Str.strip (String c s)) = true.
Proof.
  intros Hc. apply not_false_is_true. intros K. apply strip_blank in K.
  inversion K as [|x l Hx _]. congruence.
Qed.

(** X13: a file that is fetched but cannot be read does not fail the download
    stage: when the temporary file cannot be created or removed, or the PDF
    reader rejects the content, _download_resume_node ends with status
    "downloaded" and the parser tool's error message ("Error parsing file
    content: ..." or "Error reading PDF: ...") as resume_text. *)
Theorem unreadable_file_is_downloaded (w : world) (url rl org : string) (content : bytes) :
  requests_get w url = Ok content ->
  (forall e, named_temporary_file w (splitext_ext w url) = Raise e ->
     _download_resume_node w (initial_state url rl org)
     = set_status "downloaded"
         (set_resume_text ("Error parsing file content: " +:+ e) (initial_state url rl org))) /\
  (forall path e, named_temporary_file w (splitext_ext w url) = Ok path ->
     unlink w path = Raise e ->
     _download_resume_node w (initial_state url rl org)
     = set_status "downloaded"
         (set_resume_text ("Error parsing file content: " +:+ e) (initial_state url rl org))) /\
  (forall path e, named_temporary_file w (splitext_ext w url) = Ok path ->
     unlink w path = Ok tt ->
     Str.endswith ".pdf" (Str.lower path) = true ->
     pdf_reader w content = Raise e ->
     _download_resume_node w (initial_state url rl org)
     = set_status "downloaded"
         (set_resume_text ("Error reading PDF: " +:+ e) (initial_state url rl org))).
Proof.
  intros Hget.
  assert (Hnode : forall t, ResumeTools.parse_file_content w content url = t ->
            Str.nonempty (Str.strip t) = true ->
            _download_resume_node w (initial_state url rl org)
            = set_status "downloaded" (set_resume_text t (initial_state url rl org))).
  { intros t Ht Hn. rewrite download_node_eq. unfold acquire. simpl resume_url.
    rewrite Hget, bind_Ok, Ht, Hn. reflexivity. }
  split; [|split].
  - intros e He. apply Hnode; [|by apply strip_nonempty_head].
    unfold ResumeTools.parse_file_content. by rewrite He.
  - intros path e Hp Hu. apply Hnode; [|by apply strip_nonempty_head].
    unfold ResumeTools.parse_file_content. by rewrite Hp, bind_Ok, Hu.
  - intros path e Hp Hu Hpdf Hr. apply Hnode; [|by apply strip_nonempty_head].
    unfold ResumeTools.parse_file_content. rewrite Hp, bind_Ok, Hu, bind_Ok.
    unfold ResumeTools.parse_resume, ResumeTools.fs_write. rewrite String.eqb_refl, bind_Ok, Hpdf.
    unfold ResumeTools._extract_pdf_text. by rewrite Hr.
Qed.

Lemma unreadable_file_is_downloaded_witness :
  requests_get world_broken_pdf url = Ok [] /\
  _download_resume_node world_broken_pdf (initial_state url nurse camden)
  = set_status "downloaded"
      (set_resume_text "Error reading PDF: EOF marker not found"
         (initial_state url nurse camden)).
Proof.
  split; [reflexivity|].
  exact (proj2 (proj2 (unreadable_file_is_downloaded world_broken_pdf url nurse camden []
                         eq_refl))
           "/tmp/tmpk3v9x2ab.pdf" "EOF marker not found" eq_refl eq_refl eq_refl eq_refl).
Defined.

End RunFacts.

(* ===================================================================== *)
(** * Properties of the endpoints *)
(* ===================================================================== *)

Module RoleQuestionsFacts.
Import Py RoleQuestions ParserFacts.

Lemma mapped_role_id (role v : val) : mapped_role role = Ok v -> v = role.
Proof.
  destruct role; try (intros [= <-]; reflexivity); try discriminate.
  unfold mapped_role.
  destruct (List.find (fun kv => String.eqb (fst kv) s) role_mapping) as [kv|] eqn:F;
    cbn [fmap option_fmap option_map default from_option id]; intros [= <-];
    [|reflexivity].
  apply List.find_some in F as [Hin Heq]. apply String.eqb_eq in Heq. subst s.
  f_equal. unfold role_mapping in Hin.
  destruct Hin as [<-|[<-|[<-|[<-|[]]]]]; reflexivity.
Qed.

Lemma question_column_rows (rows qs : list val) :
  question_column rows = Ok qs ->
  Forall2 (fun q row => Questions.item row "question" = Ok q) qs rows.
Proof.
  revert qs. induction rows as [|row rows IH]; simpl; intros qs.
  - intros [= <-]. constructor.
  - destruct (Questions.item row "question") as [q|e] eqn:E; [|discriminate].
    rewrite bind_Ok. destruct (question_column rows) as [qs'|e]; [|discriminate].
    rewrite bind_Ok. intros [= <-]. constructor; auto.
Qed.

(** Where the questions for a role come from. *)
Lemma role_questions_cases (sv : services) (role : val) :
  _get_questions_for_role sv role = fallback_questions \/
  exists row rows,
    demo_mode sv = false /\
    role_questions sv role = Ok (VList (row :: rows)) /\
    Forall2 (fun q row => Questions.item row "question" = Ok q)
            (_get_questions_for_role sv role) (row :: rows).
Proof.
  unfold _get_questions_for_role, supabase_table.
  destruct (mapped_role role) as [v|e] eqn:M; [|by left].
  apply mapped_role_id in M as ->. rewrite bind_Ok.
  destruct (demo_mode sv); [by left|]. rewrite bind_Ok.
  destruct (role_questions sv role) as [data|e]; [|by left]. rewrite bind_Ok.
  destruct (truthy data) eqn:T; [|by left].
  destruct (iter data) as [rows|e] eqn:I; [|by left]. rewrite bind_Ok.
  destruct (question_column rows) as [qs|e] eqn:Q; [|by left]. rewrite bind_Ok.
  cbn [try_except].
  apply question_column_rows in Q.
  destruct data; try discriminate.
  - (* a string: its characters have no [question] *)
    simpl in I. injection I as <-. destruct s as [|c s]; [discriminate|].
    inversion Q as [|? ? ? ? H _]. discriminate.
  - simpl in I. injection I as <-. destruct l as [|row rows]; [discriminate|].
    right. by exists row, rows.
  - (* a dict: its keys have no [question] *)
    simpl in I. injection I as <-. destruct items as [|[k x] items]; [discriminate|].
    inversion Q as [|? ? ? ? H _]. discriminate.
Qed.

Lemma role_questions_nonempty (sv : services) (role : val) :
  _get_questions_for_role sv role <> [].
Proof.
  destruct (role_questions_cases sv role) as [->|(row & rows & _ & _ & H)]; [discriminate|].
  inversion H. discriminate.
Qed.

(** X14: _get_questions_for_role never returns an empty list: it returns the
    five default questions, or the 'question' column of the rows the database
    returned, one per row in order. The role is queried under its own name
    (role_mapping changes no name), and without a database client (demo mode)
    the default questions are returned. *)
Theorem role_questions_never_empty (sv : services) (role : val) :
  _get_questions_for_role sv role <> [] /\
  (_get_questions_for_role sv role = fallback_questions \/
   exists rows, role_questions sv role = Ok (VList rows) /\
     Forall2 (fun q row => Questions.item row "question" = Ok q)
             (_get_questions_for_role sv role) rows) /\
  (demo_mode sv = true -> _get_questions_for_role sv role = fallback_questions).
Proof.
  split; [apply role_questions_nonempty|].
  destruct (role_questions_cases sv role) as [H|(row & rows & Hd & Hr & H)].
  - split; [by left | by intros _].
  - split; [right; by exists (row :: rows) | intros K; congruence].
Qed.

Lemma role_questions_never_empty_witness :
  demo_mode ApiScenario.demo_services = true /\
  _get_questions_for_role ApiScenario.demo_services (VStr Scenario.nurse) = fallback_questions.
Proof.
  split; [reflexivity|].
  exact (proj2 (proj2 (role_questions_never_empty ApiScenario.demo_services
                         (VStr Scenario.nurse))) eq_refl).
Defined.

End RoleQuestionsFacts.

Module DebugWorkflowFacts.
Import Py Workflow Validation DebugWorkflow Notions ParserFacts WorkflowFacts
  ValidationPassFacts Scenario.

Lemma validate_references_truthy refs acc :
  Forall (fun v => not_a_line v = true) acc ->
  Forall (fun v => not_a_line v = true) (validate_references refs acc).
Proof.
  revert acc. induction refs as [|ref refs IH]; intros acc Hacc; simpl; [exact Hacc|].
  destruct ref; try by apply IH.
  destruct (truthy _); [|by apply IH].
  apply IH. apply Forall_app. split; [exact Hacc|]. by constructor.
Qed.

Lemma direct_references_truthy w text rl :
  Forall (fun v => not_a_line v = true) (_extract_references_direct w text rl).
Proof.
  unfold _extract_references_direct.
  destruct (llm_references w (limited_text text) rl) as [answer|e]; [|constructor].
  rewrite fmap_Ok, bind_Ok.
  destruct ((0 <=? _)%Z && _).
  - destruct (json_loads w _) as [v|e]; [|constructor]. rewrite bind_Ok.
    destruct (iter v) as [refs|e]; [|constructor]. rewrite bind_Ok.
    by apply validate_references_truthy.
  - destruct (existsb _ _); constructor.
Qed.

Lemma run_references w url rl org :
  Forall (fun v => not_a_line v = true) (references (ainvoke w (initial_state url rl org))).
Proof.
  destruct (acquire w url) as [t|e] eqn:A.
  - destruct (split_text w t) as [chunks|e] eqn:S.
    + destruct (ainvoke_completed w url rl org t chunks A S) as (_ & _ & -> & _).
      apply direct_references_truthy.
    + rewrite (ainvoke_parse_failed w url rl org t e A S). constructor.
  - rewrite (ainvoke_download_failed w url rl org e A). constructor.
Qed.

(** X15: debug_workflow_test answers with an error whenever the workflow found
    at least one reference, because validate_extracted_data raises on the
    reference dicts; when no reference was found it answers with success and
    both raw_result and validated_result are the workflow result extended with
    an empty validated_references and an all-zero validation_summary (the dict
    is updated in place). *)
Theorem debug_test_outcome (w : world) (url rl org : string) :
  (references (ainvoke w (initial_state url rl org)) <> [] ->
   exists e, debug_workflow_test w url rl org = Error e) /\
  (references (ainvoke w (initial_state url rl org)) = [] ->
   exists r, run_workflow w url rl org = Ok r /\
     debug_workflow_test w url rl org
     = Success (<["validation_summary" := summary_dict 0 0 0 0]>
                  (<["validated_references" := VList []]> r))
               (<["validation_summary" := summary_dict 0 0 0 0]>
                  (<["validated_references" := VList []]> r))).
Proof.
  destruct (run_workflow_result w url rl org) as (r & Hr & _ & _ & Href & _).
  assert (Hne : r <> ∅).
  { intros ->. rewrite lookup_empty in Href. discriminate. }
  unfold debug_workflow_test. rewrite Hr, bind_Ok. split.
  - intros Hrefs. exists "object has no attribute 'strip'".
    pose proof (run_references w url rl org) as Hall.
    destruct (references (ainvoke w (initial_state url rl org))) as [|ref refs] eqn:E;
      [contradiction|].
    assert (Hex : existsb not_a_line (ref :: refs) = true).
    { inversion Hall as [|? ? H1 _]. simpl. by rewrite H1. }
    by rewrite (validation_raises r (ref :: refs) Href Hex).
  - intros Hrefs. rewrite Hrefs in Href. exists r. split; [reflexivity|].
    unfold validate_extracted_data. destruct (decide (r = ∅)); [contradiction|].
    rewrite Href. cbn [default from_option id truthy negb]. rewrite bind_Ok.
    by destruct (decide (r = ∅)).
Qed.

Lemma debug_test_outcome_witness :
  (references (ainvoke world_null_email (initial_state url nurse camden)) <> [] /\
   exists e, debug_workflow_test world_null_email url nurse camden = Error e) /\
  (references (ainvoke world_llm_fails (initial_state url nurse camden)) = [] /\
   exists r, run_workflow world_llm_fails url nurse camden = Ok r /\
     debug_workflow_test world_llm_fails url nurse camden
     = Success (<["validation_summary" := summary_dict 0 0 0 0]>
                  (<["validated_references" := VList []]> r))
               (<["validation_summary" := summary_dict 0 0 0 0]>
                  (<["validated_references" := VList []]> r))).
Proof.
  split.
  - assert (H : references (ainvoke world_null_email (initial_state url nurse camden)) <> [])
      by (vm_compute; discriminate).
    split; [exact H|].
    exact (proj1 (debug_test_outcome world_null_email url nurse camden) H).
  - assert (H : references (ainvoke world_llm_fails (initial_state url nurse camden)) = [])
      by (vm_compute; reflexivity).
    split; [exact H|].
    exact (proj2 (debug_test_outcome world_llm_fails url nurse camden) H).
Defined.

End DebugWorkflowFacts.

Module ProcessResumeFacts.
Import Py Workflow ProcessResume ApiNotions ApiScenario ParserFacts WorkflowFacts Scenario.

Lemma meaningful_fallback (final : gmap string val) (k s : string) :
  final !! k = Some (VStr s) -> meaningful final k = meaningful_text s.
Proof. intros H. unfold meaningful, meaningful_text. by rewrite H. Qed.

(** X16: every failure of process_resume is an HTTP 500: a failing GET, and
    also the two cases for which the code raises a 400 (a response status
    other than 200, a file without readable text), whose HTTPException is
    caught and wrapped into the detail of a 500. *)
Theorem process_resume_failures (sv : services) (request : ProcessResumeRequest) :
  (forall e, http_get sv (resume_url request) = Raise e ->
     process_resume sv request = HttpError 500 ("Error processing resume: " +:+ e)) /\
  (forall status_code content,
     http_get sv (resume_url request) = Ok (status_code, content) ->
     status_code <> 200%Z ->
     process_resume sv request
     = HttpError 500 ("Error processing resume: "
                      +:+ http_exception_str sv 400 "Failed to download resume")) /\
  (forall content,
     http_get sv (resume_url request) = Ok (200%Z, content) ->
     Str.nonempty (Str.strip (fallback_text (libs sv) (resume_url request) content)) = false ->
     process_resume sv request
     = HttpError 500 ("Error processing resume: "
                      +:+ http_exception_str sv 400 "No text found in resume")) /\
  (forall status_code detail,
     process_resume sv request = HttpError status_code detail -> status_code = 500%Z).
Proof.
  split; [|split; [|split]].
  - intros e H. unfold process_resume, try_body. by rewrite H.
  - intros code content H Hc. unfold process_resume, try_body. rewrite H, bind_Ok.
    apply Z.eqb_neq in Hc. by rewrite Hc.
  - intros content H Hb. unfold process_resume, try_body. rewrite H, bind_Ok.
    by rewrite Z.eqb_refl, Hb.
  - intros code detail. unfold process_resume.
    destruct (try_body sv request); [discriminate | by intros [= <- _]].
Qed.

Lemma process_resume_failures_witness :
  Str.nonempty (Str.strip (fallback_text (libs blank_services) url [])) = false /\
  process_resume blank_services resume_request
  = HttpError 500 "Error processing resume: 400: No text found in resume".
Proof.
  split; [reflexivity|].
  exact (proj1 (proj2 (proj2 (process_resume_failures blank_services resume_request)))
           [] eq_refl eq_refl).
Defined.

(** X17: whenever the resume is fetched with status 200 and has readable text,
    process_resume succeeds, whatever the AI workflow and the database update
    did: ai_used is true; name, email and phone of the data are the regex
    fallback values; references are the workflow's; and status is "extracted"
    if a fallback value is non-empty and not "Unknown" or a reference was
    found, else "processing". *)
Theorem process_resume_success (sv : services) (request : ProcessResumeRequest)
    (content : bytes) :
  http_get sv (resume_url request) = Ok (200%Z, content) ->
  Str.nonempty (Str.strip (fallback_text (libs sv) (resume_url request) content)) = true ->
  let fallback_data :=
    Fallback.fallback_data (fallback_text (libs sv) (resume_url request) content) in
  let found :=
    references (ainvoke (libs sv)
      (initial_state (resume_url request) (role request) (organization request))) in
  exists r,
    process_resume sv request = Response r /\
    r_application_id r = application_id request /\
    r_ai_used r = true /\
    r_data r !! "name" = Some (VStr (Fallback.name fallback_data)) /\
    r_data r !! "email" = Some (VStr (Fallback.email fallback_data)) /\
    r_data r !! "phone" = Some (VStr (Fallback.phone fallback_data)) /\
    r_data r !! "references" = Some (VList found) /\
    r_data r !! "resume_url" = Some (VStr (resume_url request)) /\
    r_status r
    = (if meaningful_text (Fallback.name fallback_data)
          || meaningful_text (Fallback.email fallback_data)
          || meaningful_text (Fallback.phone fallback_data)
          || negb (bool_decide (found = []))
       then "extracted" else "processing").
Proof.
  intros Hget Htext fb found.
  destruct (run_workflow_result (libs sv) (resume_url request) (role request)
              (organization request)) as (ai & Hai & _ & _ & Href & _).
  assert (Hne : ai <> ∅).
  { intros ->. rewrite lookup_empty in Href. discriminate. }
  pose proof (merge_of_workflow_result _ _ _ _ ai fb "name" Hai
                ltac:(simpl; auto)) as Hn.
  pose proof (merge_of_workflow_result _ _ _ _ ai fb "email" Hai
                ltac:(simpl; auto)) as He.
  pose proof (merge_of_workflow_result _ _ _ _ ai fb "phone" Hai
                ltac:(simpl; auto)) as Hp.
  change (Fallback.fallback_field fb "name") with (Fallback.name fb) in Hn.
  change (Fallback.fallback_field fb "email") with (Fallback.email fb) in He.
  change (Fallback.fallback_field fb "phone") with (Fallback.phone fb) in Hp.
  assert (Hr : Fallback.final ai fb (resume_url request) !! "references"
               = Some (VList found)).
  { unfold Fallback.final. rewrite lookup_insert_ne by discriminate.
    rewrite lookup_insert_eq. by rewrite Href. }
  assert (Hu : Fallback.final ai fb (resume_url request) !! "resume_url"
               = Some (VStr (resume_url request))).
  { unfold Fallback.final. by rewrite lookup_insert_eq. }
  unfold process_resume, try_body. rewrite Hget, bind_Ok, Z.eqb_refl. cbn [negb].
  fold fb. rewrite Htext. cbn [negb]. rewrite Hai. cbn [try_except].
  unfold has_meaningful_data. rewrite Hr. cbn [default from_option id].
  rewrite (meaningful_fallback _ _ _ Hn), (meaningful_fallback _ _ _ He),
    (meaningful_fallback _ _ _ Hp).
  assert (Hw : (if truthy (VList found)
                then n ← len (VList found); Ok (0 <? n)%Z else Ok false)
               = Ok (negb (bool_decide (found = [])))).
  { destruct found; reflexivity. }
  rewrite Hw, bind_Ok. eexists. split; [reflexivity|]. cbn [r_application_id r_ai_used r_data r_status].
  split; [reflexivity|]. split; [by apply bool_decide_eq_true|].
  repeat (split; [assumption|]). reflexivity.
Qed.

Lemma process_resume_success_witness :
  http_get live_services url = Ok (200%Z, []) /\
  Str.nonempty (Str.strip (fallback_text (libs live_services) url [])) = true /\
  exists r,
    process_resume live_services resume_request = Response r /\
    r_ai_used r = true /\
    r_data r !! "name" = Some (VStr "John Smith") /\
    r_status r = "extracted".
Proof.
  split; [reflexivity|]. split; [reflexivity|].
  destruct (process_resume_success live_services resume_request [] eq_refl eq_refl)
    as (r & H1 & _ & H2 & H3 & _ & _ & _ & _ & H4).
  exists r. split; [exact H1|]. split; [exact H2|]. split; [exact H3 | exact H4].
Defined.

(** C1, on an input on which it fails. The resume opens with the heading
    "Curriculum Vitae" and the applicant's name, and the LLM answers the
    applicant prompt with the full name "Jane Doe" and an email address.
    The workflow returns these under [applicant_info] and has no key
    [name], [email] or [phone], which are the keys the merge reads: the
    merged name is what the fallback pattern matched, "Curriculum Vitae"
    followed by a line break and "Jane", and the merged email and phone are
    empty, although the AI extraction ran and found a name and an email. *)
Theorem ai_identity_is_not_merged :
  exists ai r,
    run_workflow world_jane url nurse camden = Ok ai /\
    ai !! "applicant_info"
    = Some (VDict [("full_name", VStr "Jane Doe"); ("email", VStr "jane.doe@example.org")]) /\
    ai !! "name" = None /\ ai !! "email" = None /\ ai !! "phone" = None /\
    process_resume jane_services resume_request = Response r /\
    r_ai_used r = true /\
    r_data r !! "name" = Some (VStr ("Curriculum Vitae" +:+ Str.nl +:+ "Jane")) /\
    r_data r !! "email" = Some (VStr "") /\
    r_data r !! "phone" = Some (VStr "").
Proof.
  assert (Hai : (ai ← run_workflow world_jane url nurse camden;
                 Ok (ai !! "applicant_info", ai !! "name", ai !! "email", ai !! "phone"))
                = Ok (Some jane_dict, None, None, None))
    by (vm_compute; reflexivity).
  assert (Hr : match process_resume jane_services resume_request with
               | Response r =>
                   Some (r_ai_used r, r_data r !! "name", r_data r !! "email",
                         r_data r !! "phone")
               | HttpError _ _ => None
               end
               = Some (true, Some (VStr ("Curriculum Vitae" +:+ Str.nl +:+ "Jane")),
                       Some (VStr ""), Some (VStr "")))
    by (vm_compute; reflexivity).
  destruct (run_workflow world_jane url nurse camden) as [ai|e]; [|discriminate Hai].
  destruct (process_resume jane_services resume_request) as [r|c d]; [|discriminate Hr].
  rewrite bind_Ok in Hai. injection Hai as H1 H2 H3 H4. injection Hr as H5 H6 H7 H8.
  exists ai, r.
  split; [reflexivity|]. split; [exact H1|]. split; [exact H2|]. split; [exact H3|].
  split; [exact H4|]. split; [reflexivity|]. split; [exact H5|]. split; [exact H6|].
  split; [exact H7 | exact H8].
Qed.

End ProcessResumeFacts.

Module SendFacts.
Import Py SendReferenceRequests ApiNotions ApiScenario ParserFacts RoleQuestionsFacts Scenario.

Lemma emails_sent_app l1 l2 : emails_sent (l1 ++ l2) = emails_sent l1 ++ emails_sent l2.
Proof. apply omap_app. Qed.

Lemma rows_inserted_app l1 l2 : rows_inserted (l1 ++ l2) = rows_inserted l1 ++ rows_inserted l2.
Proof. apply omap_app. Qed.

(** What a call of the email service can answer. *)
Lemma send_cases sv a b c d e q i went success :
  Email.send_reference_request sv a b c d e q i = (went, success) ->
  (success = true -> went = true) /\
  (closes_cleanly sv -> went = success) /\
  (email_enabled sv = false -> went = false /\ success = false).
Proof.
  unfold Email.send_reference_request.
  destruct (email_enabled sv); simpl.
  - destruct (truthy a); simpl.
    + destruct (smtp_session sv a b c d e q i) as [|err|err] eqn:S; intros [= <- <-].
      * by repeat split.
      * split; [discriminate|]. split; [|discriminate].
        intros Hc. by destruct (Hc _ _ _ _ _ _ _ _ S).
      * split; [discriminate|]. split; [reflexivity | discriminate].
    + intros [= <- <-]. split; [discriminate|]. split; [reflexivity | discriminate].
  - intros [= <- <-]. by repeat split.
Qed.

(** What the loop adds to its two lists and to the effects when it runs
    to its end. *)
Lemma send_loop_ok sv id cn rl org qs refs sent failed log log' sent' failed' :
  send_loop sv id cn rl org qs refs sent failed log = (log', Ok (sent', failed')) ->
  exists s f l,
    sent' = sent ++ s /\ failed' = failed ++ f /\ log' = log ++ l /\
    length s + length f = length (List.filter has_email refs) /\
    length s <= length (emails_sent l) <= length s + length f /\
    length (rows_inserted l) = length s /\
    forallb (fun ev => negb (is_status_set ev)) l = true /\
    (closes_cleanly sv -> length (emails_sent l) = length s) /\
    (email_enabled sv = false -> s = [] /\ emails_sent l = []).
Proof.
  revert sent failed log.
  induction refs as [|ref refs IH]; intros sent failed log; simpl.
  - intros [= <- <- <-]. exists [], [], []. rewrite !app_nil_r. simpl.
    repeat split; simpl; auto.
  - assert (Hskip : has_email ref = false ->
      send_loop sv id cn rl org qs refs sent failed log = (log', Ok (sent', failed')) ->
      exists s f l,
        sent' = sent ++ s /\ failed' = failed ++ f /\ log' = log ++ l /\
        length s + length f = length (if has_email ref then ref :: List.filter has_email refs
                                      else List.filter has_email refs) /\
        length s <= length (emails_sent l) <= length s + length f /\
        length (rows_inserted l) = length s /\
        forallb (fun ev => negb (is_status_set ev)) l = true /\
        (closes_cleanly sv -> length (emails_sent l) = length s) /\
        (email_enabled sv = false -> s = [] /\ emails_sent l = [])).
    { intros -> H. by apply IH. }
    destruct ref; try (by apply Hskip).
    destruct (truthy (dict_get items "email" VNone)) eqn:T; [|apply Hskip; simpl; by rewrite T].
    simpl has_email. rewrite T.
    destruct (Email.send_reference_request _ _ _ _ _ _ _ _) as [went success] eqn:S.
    apply send_cases in S as (Hsw & Hclean & Hoff).
    destruct success.
    + rewrite (Hsw eq_refl).
      destruct (supabase_table sv); [|discriminate].
      destruct (reference_requests_insert sv _); [|discriminate].
      intros H.
      apply IH in H as (s & f & l & -> & -> & -> & Hl & He & Hr & Hs & Hc & Hen).
      exists (entry items :: s), f,
        ([EmailSent (dict_get items "email" VNone);
          RequestInserted (request_row sv id items qs)] ++ l).
      rewrite <- !app_assoc. split; [reflexivity|]. split; [reflexivity|].
      split; [reflexivity|]. rewrite emails_sent_app, rows_inserted_app, !length_app.
      simpl. split; [lia|]. split; [lia|]. split; [lia|]. split; [exact Hs|].
      split; [intros K; specialize (Hc K); lia|].
      intros Hd. destruct (Hoff Hd). discriminate.
    + intros H.
      apply IH in H as (s & f & l & -> & -> & -> & Hl & He & Hr & Hs & Hc & Hen).
      destruct went.
      * exists s, (entry items :: f), ([EmailSent (dict_get items "email" VNone)] ++ l).
        rewrite <- !app_assoc.
        split; [reflexivity|]. split; [reflexivity|]. split; [reflexivity|].
        rewrite emails_sent_app, rows_inserted_app, !length_app.
        simpl. split; [lia|]. split; [lia|]. split; [lia|]. split; [exact Hs|].
        split; [intros K; specialize (Hclean K); discriminate|].
        intros Hd. destruct (Hoff Hd). discriminate.
      * exists s, (entry items :: f), l. rewrite <- !app_assoc.
        split; [reflexivity|]. split; [reflexivity|]. split; [reflexivity|].
        simpl. split; [lia|]. split; [lia|]. auto.
Qed.

(** When the loop raises, every row written has its email, and when no
    session fails after the message is accepted, exactly one email went
    out whose row was not written. *)
Lemma send_loop_raise sv id cn rl org qs refs sent failed log log' e :
  send_loop sv id cn rl org qs refs sent failed log = (log', Raise e) ->
  exists l,
    log' = log ++ l /\
    S (length (rows_inserted l)) <= length (emails_sent l) /\
    (closes_cleanly sv -> length (emails_sent l) = S (length (rows_inserted l))) /\
    forallb (fun ev => negb (is_status_set ev)) l = true.
Proof.
  revert sent failed log.
  induction refs as [|ref refs IH]; intros sent failed log; simpl; [discriminate|].
  destruct ref; try (by apply IH).
  destruct (truthy _); [|by apply IH].
  destruct (Email.send_reference_request _ _ _ _ _ _ _ _) as [went success] eqn:S.
  apply send_cases in S as (Hsw & Hclean & _).
  destruct success.
  - rewrite (Hsw eq_refl).
    assert (Hstop : exists l,
              log ++ [EmailSent (dict_get items "email" VNone)] = log ++ l /\
              S (length (rows_inserted l)) <= length (emails_sent l) /\
              (closes_cleanly sv -> length (emails_sent l) = S (length (rows_inserted l))) /\
              forallb (fun ev => negb (is_status_set ev)) l = true).
    { exists [EmailSent (dict_get items "email" VNone)]. simpl. by repeat split. }
    destruct (supabase_table sv); [|by intros [= <- _]].
    destruct (reference_requests_insert sv _); [|by intros [= <- _]].
    intros H. apply IH in H as (l & -> & He & Hc & Hs).
    exists ([EmailSent (dict_get items "email" VNone);
             RequestInserted (request_row sv id items qs)] ++ l).
    rewrite <- !app_assoc. split; [reflexivity|].
    rewrite emails_sent_app, rows_inserted_app, !length_app. simpl.
    split; [lia|]. split; [intros K; specialize (Hc K); lia | exact Hs].
  - intros H. apply IH in H as (l & -> & He & Hc & Hs).
    destruct went.
    + exists ([EmailSent (dict_get items "email" VNone)] ++ l).
      rewrite <- !app_assoc. split; [reflexivity|].
      rewrite emails_sent_app, rows_inserted_app, !length_app. simpl.
      split; [lia|]. split; [intros K; specialize (Hclean K); discriminate | exact Hs].
    + by exists l.
Qed.

(** X18: when send_reference_requests succeeds, total_sent + total_failed is
    the number of references that are dicts with a truthy email; one
    reference_requests row was written per entry of sent_emails, and at least
    one email went out per entry: an email whose SMTP session raised after the
    server had accepted the message (on leaving the with block) went out too
    but is listed in failed_emails, so the emails that went out are at most
    the entries of both lists; when no session fails that way they are as many
    as the entries of sent_emails. The application status was set last;
    questions_sent is never an empty list; with the email service disabled no
    email goes out and sent_emails is empty. *)
Theorem send_accounting (sv : services) (request : SendQuestionsRequest)
    (log : list effect) (r : response) :
  send_reference_requests sv request = (log, Response r) ->
  (r_total_sent r + r_total_failed r
   = Z.of_nat (length (List.filter has_email (references request))))%Z /\
  r_total_sent r = Z.of_nat (length (r_sent_emails r)) /\
  r_total_failed r = Z.of_nat (length (r_failed_emails r)) /\
  length (r_sent_emails r) <= length (emails_sent log)
  <= length (r_sent_emails r) + length (r_failed_emails r) /\
  (closes_cleanly sv -> length (emails_sent log) = length (r_sent_emails r)) /\
  length (rows_inserted log) = length (r_sent_emails r) /\
  (exists l, log = l ++ [StatusSet (application_id request) "reference_requests_sent"] /\
             forallb (fun ev => negb (is_status_set ev)) l = true) /\
  r_questions_sent r <> [] /\
  (email_enabled sv = false -> r_sent_emails r = [] /\ emails_sent log = []).
Proof.
  unfold send_reference_requests.
  destruct (try_body sv request) as [log0 [r0|e]] eqn:B; [|discriminate].
  intros [= <- <-]. revert B. unfold try_body.
  match goal with |- context [match ?x with Ok _ => _ | Raise _ => _ end] =>
    destruct x as [[[cn rl] org]|e] end; [|discriminate].
  set (qs := match questions request with [] => _ | _ => _ end).
  assert (Hqs : qs <> []).
  { subst qs. destruct (questions request) as [|q l]; [|discriminate].
    apply role_questions_nonempty. }
  destruct (send_loop _ _ _ _ _ _ _ _ _ _) as [log1 [[sent failed]|e]] eqn:L; [|discriminate].
  apply send_loop_ok in L as (s & f & l & -> & -> & -> & Hl & He & Hr & Hs & Hc & Hen).
  destruct (_ ← supabase_table sv; _); [|discriminate].
  intros [= <- <-]. simpl.
  rewrite emails_sent_app, rows_inserted_app, !length_app. simpl.
  split; [lia|]. split; [reflexivity|]. split; [reflexivity|]. split; [lia|].
  split; [intros K; specialize (Hc K); lia|].
  split; [lia|]. split; [by exists l|]. split; [exact Hqs|].
  intros Hd. destruct (Hen Hd) as [-> E]. split; [reflexivity|].
  rewrite E. reflexivity.
Qed.

(** X19: every failure of send_reference_requests is an HTTP 500, also an
    application that is not found (the 404 raised inside is wrapped). On
    failure the application status is never set and the emails sent so far
    stay sent: every reference_requests row written has its email, and when no
    SMTP session raises after the server accepted the message, at most one
    email went out without its row. Without a database client (demo mode) the
    endpoint always fails before any email. *)
Theorem send_failures (sv : services) (request : SendQuestionsRequest) :
  (forall log status_code detail,
     send_reference_requests sv request = (log, HttpError status_code detail) ->
     status_code = 500%Z /\
     forallb (fun ev => negb (is_status_set ev)) log = true /\
     length (rows_inserted log) <= length (emails_sent log) /\
     (closes_cleanly sv -> length (emails_sent log) <= S (length (rows_inserted log)))) /\
  (supabase_table sv = Ok tt ->
   applications_select sv (application_id request) = Ok (VList []) ->
   send_reference_requests sv request
   = ([], HttpError 500 ("Error sending reference requests: "
                         +:+ http_exception_str sv 404 "Application not found"))) /\
  (demo_mode sv = true ->
   send_reference_requests sv request
   = ([], HttpError 500 ("Error sending reference requests: "
                         +:+ "'NoneType' object has no attribute 'table'"))).
Proof.
  split; [|split].
  - intros log code detail. unfold send_reference_requests.
    destruct (try_body sv request) as [log0 [r0|e]] eqn:B; [discriminate|].
    intros [= <- <- _]. split; [reflexivity|]. revert B. unfold try_body.
    match goal with |- context [match ?x with Ok _ => _ | Raise _ => _ end] =>
      destruct x as [[[cn rl] org]|e'] end;
      [|intros [= <- _]; simpl; split; [reflexivity|split; [lia|intros _; lia]]].
    destruct (send_loop _ _ _ _ _ _ _ _ _ _) as [log1 [[sent failed]|e']] eqn:L.
    + apply send_loop_ok in L as (s & f & l & -> & -> & -> & Hl & He & Hr & Hs & Hc & _).
      destruct (_ ← supabase_table sv; _); [discriminate|].
      intros [= <- _]. simpl. split; [exact Hs|]. split; [lia|].
      intros K. specialize (Hc K). lia.
    + apply send_loop_raise in L as (l & -> & He & Hc & Hs).
      intros [= <- _]. simpl. split; [exact Hs|]. split; [lia|].
      intros K. specialize (Hc K). lia.
  - intros Ht Hsel. unfold send_reference_requests, try_body. by rewrite Ht, bind_Ok, Hsel.
  - intros Hd. unfold send_reference_requests, try_body, supabase_table. by rewrite Hd.
Qed.

Lemma live_closes_cleanly : closes_cleanly live_services.
Proof.
  intros a b c d e q i err. simpl.
  destruct (eq_str a "ann@example.org"); discriminate.
Qed.

Lemma no_insert_closes_cleanly : closes_cleanly no_insert_services.
Proof.
  intros a b c d e q i err. simpl.
  destruct (eq_str a "ann@example.org"); discriminate.
Qed.

Lemma send_accounting_witness :
  (exists log r,
     send_reference_requests live_services send_request = (log, Response r) /\
     (r_total_sent r + r_total_failed r = 2)%Z /\
     length (emails_sent log) = length (r_sent_emails r) /\
     r_questions_sent r <> []) /\
  (exists log r,
     send_reference_requests closing_services send_request_dee = (log, Response r) /\
     length (r_sent_emails r) <= length (emails_sent log)
     <= length (r_sent_emails r) + length (r_failed_emails r) /\
     length (emails_sent log) = 2 /\ length (r_sent_emails r) = 1) /\
  (exists log r,
     send_reference_requests (services_of world_llm_fails false false (fun _ => Ok tt))
                             send_request = (log, Response r) /\
     r_sent_emails r = [] /\ emails_sent log = []).
Proof.
  split; [|split].
  - destruct (send_reference_requests live_services send_request) as [log [r|c d]] eqn:E;
      [|vm_compute in E; discriminate].
    exists log, r. split; [reflexivity|].
    destruct (send_accounting live_services send_request log r E)
      as (H1 & _ & _ & _ & H2 & _ & _ & H3 & _).
    split; [exact H1|]. split; [exact (H2 live_closes_cleanly) | exact H3].
  - destruct (send_reference_requests closing_services send_request_dee)
      as [log [r|c d]] eqn:E; [|vm_compute in E; discriminate].
    exists log, r. split; [reflexivity|].
    destruct (send_accounting closing_services send_request_dee log r E)
      as (_ & _ & _ & H & _).
    split; [exact H|].
    vm_compute in E. injection E as <- <-. split; reflexivity.
  - destruct (send_reference_requests (services_of world_llm_fails false false (fun _ => Ok tt))
                send_request) as [log [r|c d]] eqn:E; [|vm_compute in E; discriminate].
    exists log, r. split; [reflexivity|].
    exact (proj2 (proj2 (proj2 (proj2 (proj2 (proj2 (proj2 (proj2
             (send_accounting _ send_request log r E)))))))) eq_refl).
Defined.

Lemma send_failures_witness :
  (exists log detail,
     send_reference_requests no_insert_services send_request = (log, HttpError 500 detail) /\
     length (rows_inserted log) <= length (emails_sent log) /\
     length (emails_sent log) <= S (length (rows_inserted log)) /\
     length (emails_sent log) = 1 /\ length (rows_inserted log) = 0) /\
  send_reference_requests live_services (mkRequest "app-99" [] [ann])
  = ([], HttpError 500 "Error sending reference requests: 404: Application not found") /\
  send_reference_requests demo_services send_request
  = ([], HttpError 500
           "Error sending reference requests: 'NoneType' object has no attribute 'table'").
Proof.
  split; [|split].
  - destruct (send_reference_requests no_insert_services send_request)
      as [log [r|c d]] eqn:E; [vm_compute in E; discriminate|].
    destruct (proj1 (send_failures no_insert_services send_request) log c d E)
      as (-> & _ & H1 & H2).
    exists log, d. split; [reflexivity|]. split; [exact H1|].
    split; [exact (H2 no_insert_closes_cleanly)|].
    vm_compute in E. injection E as <- _. split; reflexivity.
  - exact (proj1 (proj2 (send_failures live_services (mkRequest "app-99" [] [ann])))
             eq_refl eq_refl).
  - exact (proj2 (proj2 (send_failures demo_services send_request)) eq_refl).
Defined.

End SendFacts.

(* ===================================================================== *)
(** * Properties of the LLM parser and of the LLM tools *)
(* ===================================================================== *)

Module GroqParserFacts.
Import Re Py GroqParser Notions ReFacts ParserFacts StrFacts SpanFacts Scenario.

Lemma find_has (c : ascii) (s : string) :
  (Str.has_char c s = false /\ Str.find c s = (-1)%Z) \/
  (Str.has_char c s = true /\ (0 <= Str.find c s)%Z).
Proof.
  unfold Str.find. destruct (find_go_spec c s 0) as [[H1 H2]|(a & b & H1 & _ & H3)].
  - left. split; [by apply has_char_false | exact H1].
  - right. split; [|lia]. apply has_char_In. rewrite H1. apply in_or_app. right. by left.
Qed.

Lemma rfind_has (c : ascii) (s : string) :
  (Str.has_char c s = false /\ Str.rfind c s = (-1)%Z) \/
  (Str.has_char c s = true /\ (0 <= Str.rfind c s)%Z).
Proof.
  unfold Str.rfind. destruct (rfind_go_spec c s 0 (-1)) as [[H1 H2]|(a & b & H1 & _ & H3)].
  - left. split; [by apply has_char_false | exact H1].
  - right. split; [|lia]. apply has_char_In. rewrite H1. apply in_or_app. right. by left.
Qed.

Lemma substring_n_0 (n : nat) (s : string) : substring n 0 s = "".
Proof. revert n. induction s as [|c s IH]; intros [|n]; simpl; auto. Qed.

(** No piece that ends the text, or ends just before its final newline,
    is a closing fence when the text ends with a character that is neither
    whitespace, a backquote nor a newline. *)
Lemma no_fence_close (prev : option ascii) (s : list ascii) (l : list ascii) (x : ascii) :
  s = l ++ [x] ->
  cls_mem (alphabet fence_close) x = false -> Ascii.eqb x Chars.newline = false ->
  match_fence_close prev s = None.
Proof.
  intros Hs Hx Hnl. unfold match_fence_close.
  match goal with |- ?t = None => destruct t as [rest|] eqn:E end; [|reflexivity].
  apply (rmatch_consumes (fun _ => true)) in E as (m & rest' & p' & Hm & Hk & Hall & _).
  destruct (at_end rest') eqn:Hend; [|discriminate].
  exfalso. destruct rest' as [|c [|c' r]]; try discriminate.
  - rewrite app_nil_r in Hm. subst m. rewrite Hs in Hall.
    apply Forall_app in Hall as [_ Hall]. inversion Hall as [|? ? H1 _]. congruence.
  - simpl in Hend. rewrite Hs in Hm. apply app_inj_tail in Hm as [_ ->]. congruence.
Qed.

Lemma sub_fence_close_go_id (prev : option ascii) (s : list ascii) (x : ascii) :
  cls_mem (alphabet fence_close) x = false -> Ascii.eqb x Chars.newline = false ->
  sub_fence_close_go prev (s ++ [x]) 0 = s ++ [x].
Proof.
  intros Hx Hnl. revert prev. induction s as [|c s IH]; intros prev.
  - simpl app. cbn [sub_fence_close_go]. by rewrite (no_fence_close prev [x] [] x).
  - change ((c :: s) ++ [x]) with (c :: (s ++ [x])). cbn [sub_fence_close_go].
    rewrite (no_fence_close prev (c :: s ++ [x]) (c :: s) x) by auto.
    by rewrite IH.
Qed.

Lemma strip_span (mid : list ascii) (c d : ascii) :
  Chars.isspace c = false -> Chars.isspace d = false ->
  Str.strip (Str.of_chars ([c] ++ mid ++ [d])) = Str.of_chars ([c] ++ mid ++ [d]).
Proof.
  intros Hc Hd. unfold Str.strip. rewrite chars_of_chars. f_equal.
  rewrite (lstrip_id ([c] ++ mid ++ [d])) by exact Hc.
  rewrite (lstrip_id (rev ([c] ++ mid ++ [d]))).
  - apply rev_involutive.
  - rewrite app_assoc, rev_app_distr. exact Hd.
Qed.

(** X20: _clean_json_response raises exactly when the response has no '{' or
    no '}'; otherwise it returns exactly response[find('{') : rfind('}') + 1]
    (empty when the last '}' precedes the first '{'): the two code-fence
    re.sub calls and the final strip never change the text. *)
Theorem clean_json_response_is_the_span (response : string) :
  _clean_json_response response
  = if negb (Str.has_char "{" response) then Raise "No JSON object found in response"
    else if negb (Str.has_char "}" response)
         then Raise "No valid JSON object found in response"
         else Ok (Str.slice (Str.find "{" response) (Str.rfind "}" response + 1) response).
Proof.
  unfold _clean_json_response.
  destruct (find_has "{" response) as [[-> ->]|[-> Hf]]; [reflexivity|].
  replace (Str.find "{" response =? -1)%Z with false by (symmetry; apply Z.eqb_neq; lia).
  destruct (rfind_has "}" response) as [[-> ->]|[-> Hr]]; [reflexivity|].
  replace (Str.rfind "}" response =? -1)%Z with false by (symmetry; apply Z.eqb_neq; lia).
  cbn [negb]. f_equal.
  destruct (Z.ltb_spec (Str.find "{" response) (Str.rfind "}" response + 1)) as [Hlt|Hge].
  - destruct (span_spec "{" "}" response ltac:(discriminate)) as (a & mid & b & _ & _ & _ & ->).
    { apply andb_true_iff. split; [by apply Z.leb_le | by apply Z.ltb_lt]. }
    assert (Ho : sub_fence_open (Str.of_chars (["{"%char] ++ mid ++ ["}"%char]))
                 = Str.of_chars (["{"%char] ++ mid ++ ["}"%char])).
    { unfold sub_fence_open. rewrite chars_of_chars. reflexivity. }
    rewrite Ho.
    assert (Hc : sub_fence_close (Str.of_chars (["{"%char] ++ mid ++ ["}"%char]))
                 = Str.of_chars (["{"%char] ++ mid ++ ["}"%char])).
    { unfold sub_fence_close. rewrite chars_of_chars. f_equal.
      rewrite (app_assoc ["{"%char] mid ["}"%char]).
      by apply sub_fence_close_go_id. }
    rewrite Hc. by apply strip_span.
  - unfold Str.slice.
    replace (Z.to_nat (Str.rfind "}" response + 1 - Str.find "{" response)) with 0 by lia.
    rewrite substring_n_0. reflexivity.
Qed.

Lemma assoc_setitem_eq k v items : assoc k (Dict.setitem k v items) = Some v.
Proof.
  induction items as [|[k' v'] items IH]; simpl.
  - by rewrite String.eqb_refl.
  - destruct (String.eqb k k') eqn:E; simpl; [by rewrite String.eqb_refl | by rewrite E].
Qed.

Lemma assoc_setitem_ne k k' v items :
  k' <> k -> assoc k' (Dict.setitem k v items) = assoc k' items.
Proof.
  intros Hne. induction items as [|[k0 v0] items IH]; simpl.
  - apply String.eqb_neq in Hne. by rewrite Hne.
  - destruct (String.eqb k k0) eqn:E; simpl.
    + apply String.eqb_eq in E as <-. apply String.eqb_neq in Hne. by rewrite Hne.
    + by rewrite IH.
Qed.

Lemma assoc_setdefault_some k v items : assoc k (Dict.setdefault k v items) <> None.
Proof.
  unfold Dict.setdefault. destruct (assoc k items) eqn:E; [by rewrite E|].
  by rewrite assoc_setitem_eq.
Qed.

Lemma assoc_setdefault_ne k k' v items :
  k' <> k -> assoc k' (Dict.setdefault k v items) = assoc k' items.
Proof.
  intros Hne. unfold Dict.setdefault. destruct (assoc k items); [reflexivity|].
  by apply assoc_setitem_ne.
Qed.

Lemma clean_references_five refs acc :
  Forall five_keys acc -> Forall five_keys (clean_references refs acc) /\
  length (clean_references refs acc) <= length acc + length refs.
Proof.
  revert acc. induction refs as [|ref refs IH]; intros acc Hacc; simpl; [split; [auto|lia]|].
  assert (Hskip : Forall five_keys (clean_references refs acc) /\
                  length (clean_references refs acc) <= length acc + S (length refs)).
  { destruct (IH acc Hacc). split; [auto|lia]. }
  destruct ref; try exact Hskip.
  destruct (IH (acc ++ [cleaned_ref items])) as [H1 H2].
  - apply Forall_app. split; [exact Hacc|]. constructor; [|constructor].
    unfold five_keys, cleaned_ref. eauto 10.
  - split; [exact H1|]. rewrite length_app in H2. simpl in H2. lia.
Qed.

(** X21: parse_resume_with_groq never raises: it returns a failure dict
    (success False, error, message), or a success whose data has a full_name
    key and a references list in which every element is a dict with exactly
    the keys name, email, company, worked_together_context, year. *)
Theorem groq_result_shape (w : world) (json_decode_error : exn -> bool)
    (groq : string -> outcome string) (resume_text : string) :
  (exists error message,
     parse_resume_with_groq w json_decode_error groq resume_text = failure error message) \/
  (exists items refs,
     parse_resume_with_groq w json_decode_error groq resume_text
     = VDict [ ("success", VBool true); ("data", VDict items);
               ("message", VStr "Resume parsed successfully") ] /\
     assoc "full_name" items <> None /\
     assoc "references" items = Some (VList refs) /\
     Forall five_keys refs).
Proof.
  unfold parse_resume_with_groq.
  destruct (_ ≫= _) as [cleaned|e];
    [|left; unfold groq_handlers; destruct (json_decode_error e); eauto].
  destruct (json_loads w cleaned) as [parsed|e];
    [|left; unfold groq_handlers; destruct (json_decode_error e); eauto].
  destruct parsed; try (left; eauto; fail).
  right. eexists _, _. split; [reflexivity|]. split; [|split].
  - rewrite assoc_setitem_ne by discriminate.
    destruct (is_list _); [|rewrite assoc_setitem_ne by discriminate];
      rewrite assoc_setdefault_ne by discriminate; apply assoc_setdefault_some.
  - apply assoc_setitem_eq.
  - destruct (dict_get _ "references" VNone); try constructor.
    by apply clean_references_five.
Qed.

(** X22: for a .pdf file whose PDF reader raises, or a .docx/.doc file whose
    DOCX reader raises, parse_resume_from_file returns the failure "No text
    content found in file" whatever the LLM would answer, because the
    extractors turn a read error into an empty text. *)
Theorem unreadable_file_is_no_text (w : world) (json_decode_error : exn -> bool)
    (groq : string -> outcome string) (file_content : bytes) (file_path : string) :
  (forall e, String.eqb (Str.lower (splitext_ext w file_path)) ".pdf" = true ->
     pdf_reader w file_content = Raise e ->
     parse_resume_from_file w json_decode_error groq file_content file_path
     = VDict [ ("success", VBool false);
               ("error", VStr "No text content found in file");
               ("message", VStr "Could not extract text from resume file") ]) /\
  (forall e, existsb (String.eqb (Str.lower (splitext_ext w file_path))) [".docx"; ".doc"] = true ->
     docx_reader w file_content = Raise e ->
     parse_resume_from_file w json_decode_error groq file_content file_path
     = VDict [ ("success", VBool false);
               ("error", VStr "No text content found in file");
               ("message", VStr "Could not extract text from resume file") ]).
Proof.
  split.
  - intros e Hext Hr. unfold parse_resume_from_file, ResumeParser.extract_text_from_file.
    rewrite Hext. unfold ResumeParser.extract_text_from_pdf. by rewrite Hr.
  - intros e Hext Hr. unfold parse_resume_from_file, ResumeParser.extract_text_from_file.
    rewrite Hext.
    destruct (String.eqb (Str.lower (splitext_ext w file_path)) ".pdf") eqn:E.
    + apply String.eqb_eq in E. rewrite E in Hext. discriminate.
    + unfold ResumeParser.extract_text_from_docx. by rewrite Hr.
Qed.

Lemma unreadable_file_is_no_text_witness :
  pdf_reader world_broken_pdf [] = Raise "EOF marker not found" /\
  parse_resume_from_file world_broken_pdf expecting_error (fun _ => Ok "{}") [] "cv.pdf"
  = VDict [ ("success", VBool false);
            ("error", VStr "No text content found in file");
            ("message", VStr "Could not extract text from resume file") ].
Proof.
  split; [reflexivity|].
  exact (proj1 (unreadable_file_is_no_text world_broken_pdf expecting_error
                  (fun _ => Ok "{}") [] "cv.pdf")
           "EOF marker not found" eq_refl eq_refl).
Defined.

End GroqParserFacts.

Module LlmToolsFacts.
Import Py LlmTools ParserFacts StrFacts SpanFacts GroqParserFacts Scenario.



End LlmToolsFacts.

(* ===================================================================== *)
(** * Properties of the question lookup and of the regex fallback *)
(* ===================================================================== *)

Module QuestionsFacts.
Import Py Questions ParserFacts Scenario.

Lemma generic_questions_default (rl : string) :
  _get_generic_questions (if Str.nonempty rl then rl else "default")
  = _get_generic_questions rl.
Proof. by destruct rl. Qed.

Lemma generic_questions_five (rl : string) : length (_get_generic_questions rl) = 5.
Proof.
  unfold _get_generic_questions.
  repeat match goal with |- context [if ?b then _ else _] => destruct b end; reflexivity.
Qed.

(** X24: whenever the database gives nothing usable (the query raises, returns
    no row, the first row has no 'question' key, or that value is neither a
    list nor a string), fetch_questions returns the generic questions for the
    role's category, which are always exactly five. *)
Theorem fetch_questions_fallback (w : world) (rl org : string) :
  length (_get_generic_questions rl) = 5 /\
  (forall e, supabase_questions w rl org = Raise e ->
     fetch_questions w rl org = str_list (_get_generic_questions rl)) /\
  (forall data, supabase_questions w rl org = Ok data -> truthy data = false ->
     fetch_questions w rl org = str_list (_get_generic_questions rl)) /\
  (forall data row e, supabase_questions w rl org = Ok data -> truthy data = true ->
     first_item data = Ok row -> item row "question" = Raise e ->
     fetch_questions w rl org = str_list (_get_generic_questions rl)) /\
  (forall data row questions_data, supabase_questions w rl org = Ok data ->
     truthy data = true -> first_item data = Ok row ->
     item row "question" = Ok questions_data ->
     is_list questions_data = false -> is_str questions_data = false ->
     fetch_questions w rl org = str_list (_get_generic_questions rl)).
Proof.
  split; [apply generic_questions_five|].
  unfold fetch_questions. split; [|split; [|split]].
  - intros e H. rewrite H. cbn [mbind outcome_bind try_except].
    by rewrite generic_questions_default.
  - intros data H Ht. by rewrite H, bind_Ok, Ht.
  - intros data row e H Ht Hrow Hq. rewrite H, bind_Ok, Ht, Hrow, bind_Ok, Hq.
    cbn [mbind outcome_bind try_except]. by rewrite generic_questions_default.
  - intros data row q H Ht Hrow Hq Hl Hs.
    rewrite H, bind_Ok, Ht, Hrow, bind_Ok, Hq, bind_Ok, Hl.
    destruct q; try reflexivity; discriminate.
Qed.

Lemma fetch_questions_fallback_witness :
  supabase_questions world_llm_fails nurse camden = Ok (VList []) /\
  fetch_questions world_llm_fails nurse camden = str_list default_questions.
Proof.
  split; [reflexivity|].
  exact (proj1 (proj2 (proj2 (fetch_questions_fallback world_llm_fails nurse camden)))
           (VList []) eq_refl eq_refl).
Defined.

End QuestionsFacts.

Module FallbackShapeFacts.
Import Re Py Fallback Notions ReFacts ParserFacts FallbackFacts StrFacts SearchFacts
  ParserFieldFacts.

Lemma strip_piece (m : string) (a b : list ascii) (s : string) :
  Str.chars s = a ++ Str.chars m ++ b -> Str.contains (Str.strip m) s = true.
Proof.
  intros H. apply contains_chars. rewrite chars_strip.
  destruct (strip_split (Str.chars m)) as (a' & b' & Hm & _).
  exists (a ++ a'), (b' ++ b). rewrite H. rewrite Hm at 1. by rewrite <- !app_assoc.
Qed.

Lemma substring_0_chars (n : nat) (s : string) :
  exists b, Str.chars s = Str.chars (substring 0 n s) ++ b.
Proof.
  revert n. induction s as [|c s IH]; intros [|n]; simpl.
  - by exists [].
  - by exists [].
  - by exists (c :: Str.chars s).
  - destruct (IH n) as (b & Hb). exists b. unfold Str.chars in *. simpl. by rewrite Hb at 1.
Qed.

(** X25: the regex fallback of process_resume extracts pieces of the text: the
    email is empty or has an '@', no whitespace and at least six characters;
    the phone is empty or has at least eight decimal digits; the name is empty
    or consists of ASCII letters and whitespace only, has no whitespace at its
    ends and lies within the first 500 characters. *)
Theorem fallback_fields_shape (text : string) :
  (email (fallback_data text) = "" \/
   (Str.has_char "@" (email (fallback_data text)) = true /\
    Str.any_char Chars.isspace (email (fallback_data text)) = false /\
    6 <= String.length (email (fallback_data text)) /\
    Str.contains (email (fallback_data text)) text = true)) /\
  (phone (fallback_data text) = "" \/
   (8 <= count Chars.isdecimal (Str.chars (phone (fallback_data text))) /\
    Str.contains (phone (fallback_data text)) text = true)) /\
  (name (fallback_data text) = "" \/
   (forallb letter_or_space (Str.chars (name (fallback_data text))) = true /\
    Str.strip (name (fallback_data text)) = name (fallback_data text) /\
    Str.contains (name (fallback_data text)) (Str.prefix_of 500 text) = true /\
    Str.contains (name (fallback_data text)) text = true)).
Proof.
  unfold fallback_data. cbn [email phone name]. split; [|split].
  - destruct (search email_pattern text) as [m|] eqn:E; [right | by left]. simpl.
    pose proof (search_some is_at _ _ _ E) as (a & b & Hs & Hal & Hat).
    pose proof (search_some (fun _ => true) _ _ _ E) as (_ & _ & _ & _ & Hlen).
    assert (H1 : min_count is_at email_pattern = 1) by (vm_compute; reflexivity).
    assert (H6 : min_count (fun _ => true) email_pattern = 6) by (vm_compute; reflexivity).
    rewrite H1 in Hat. rewrite H6, count_true, length_chars in Hlen.
    split; [|split; [|split; [exact Hlen|]]].
    + apply has_char_In. destruct (count_pos_In is_at (Str.chars m)) as (x & Hx & Hf); [lia|].
      unfold is_at in Hf. apply Ascii.eqb_eq in Hf. by subst x.
    + apply not_true_is_false. intros K. apply any_char_In in K as (x & Hx & Hsp).
      rewrite List.Forall_forall in Hal. specialize (Hal x Hx).
      assert (Hns : forallb (fun x => implb (cls_mem (alphabet email_pattern) x)
                                             (negb (Chars.isspace x))) all_chars = true)
        by (vm_compute; reflexivity).
      rewrite forallb_forall in Hns.
      specialize (Hns x (all_chars_complete x)). by rewrite Hal, Hsp in Hns.
    + apply contains_chars. by exists a, b.
  - destruct (search phone_pattern text) as [m|] eqn:E; [right | by left]. simpl.
    pose proof (search_some Chars.isdecimal _ _ _ E) as (a & b & Hs & _ & Hd).
    assert (H8 : min_count Chars.isdecimal phone_pattern = 8) by (vm_compute; reflexivity).
    rewrite H8 in Hd. split; [exact Hd|]. apply contains_chars. by exists a, b.
  - destruct (search name_pattern (Str.prefix_of 500 text)) as [m|] eqn:E; [|by left].
    simpl. right.
    pose proof (search_some (fun _ => true) _ _ _ E) as (a & b & Hs & Hal & _).
    split; [|split; [apply strip_idem|split]].
    + apply forallb_forall. intros x Hx. rewrite chars_strip in Hx.
      apply strip_chars_In in Hx. rewrite List.Forall_forall in Hal. specialize (Hal x Hx).
      assert (Hls : forallb (fun x => implb (cls_mem (alphabet name_pattern) x)
                                             (letter_or_space x)) all_chars = true)
        by (vm_compute; reflexivity).
      rewrite forallb_forall in Hls.
      specialize (Hls x (all_chars_complete x)). by rewrite Hal in Hls.
    + by apply (strip_piece m a b).
    + destruct (substring_0_chars 500 text) as (rest & Hrest).
      apply (strip_piece m a (b ++ rest)). rewrite Hrest. unfold Str.prefix_of in Hs.
      rewrite Hs. by rewrite <- !app_assoc.
Qed.

End FallbackShapeFacts.
